(** * llm_intents: the Google Routes transit-time tool

    A shallow embedding of [custom_components/llm_intents/GoogleRoutes.py]
    ([GetTransitTimesTool.async_call]) and of the fingerprint cache it
    consults, with the properties the specification states about them.

    Layout:
    - [Py]: the fragment of Python the tool relies on (dynamic values,
      truthiness, exceptions, [int], [float], [str] methods, true
      division and ['.1f'] formatting on binary64);
    - [Eff]: the effects of one invocation (cache, HTTP session, logger),
      as a state-and-exception monad that records every call;
    - [GoogleRoutes]: the tool itself, line by line;
    - [SQLiteCache]: the fingerprint cache of [.cache], modelled from
      the specification;
    - [Fixtures]: the test doubles of [tests/test_google_routes.py];
    - [Properties]: the statements and their proofs. *)

From Stdlib Require Import ZArith List String Ascii Bool Lia.
From Stdlib Require Import Permutation Sorted OrderedTypeEx.
From Stdlib Require Import DecimalString DecimalPos SpecFloat.
Import ListNotations.

Local Set Warnings "-register-all".

Local Open Scope list_scope.
Local Open Scope string_scope.
Local Open Scope Z_scope.

(* ================================================================== *)
(** * Python values and builtins *)
(* ================================================================== *)

Module Py.

(** ** Exceptions

    [except Exception] catches the instances of [Exception] only.
    [asyncio.CancelledError], [KeyboardInterrupt], [SystemExit] and
    [GeneratorExit] derive from [BaseException] directly and pass
    through such a handler.  [exn_str] is [str(e)]. *)

Inductive exn : Type :=
| Exc (cls : string) (msg : string)
| BaseExc (cls : string) (msg : string).

Definition exn_str (e : exn) : string :=
  match e with Exc _ m => m | BaseExc _ m => m end.

Definition isinstance_Exception (e : exn) : bool :=
  match e with Exc _ _ => true | BaseExc _ _ => false end.

Inductive result (A : Type) : Type :=
| Ok (a : A)
| Raise (e : exn).
Arguments Ok {A} a.
Arguments Raise {A} e.

(** ** Dynamic values

    A [dict] keeps its items in insertion order, as Python's does; only
    string keys occur in this program (configuration mappings and JSON
    objects).  A [float] is an IEEE 754 binary64 number. *)

Inductive pyval : Type :=
| PNone
| PBool (b : bool)
| PInt (z : Z)
| PFloat (f : spec_float)
| PStr (s : string)
| PList (l : list pyval)
| PDict (d : list (string * pyval)).

Definition dict : Type := list (string * pyval).

(** Induction on values that reaches inside lists and dicts. *)
Section PyvalInd.
Variable P : pyval -> Prop.
Hypothesis HNone : P PNone.
Hypothesis HBool : forall b, P (PBool b).
Hypothesis HInt : forall z, P (PInt z).
Hypothesis HFloat : forall f, P (PFloat f).
Hypothesis HStr : forall s, P (PStr s).
Hypothesis HList : forall l, Forall P l -> P (PList l).
Hypothesis HDict : forall d, Forall (fun kv => P (snd kv)) d -> P (PDict d).

Fixpoint pyval_rect' (v : pyval) : P v :=
  match v with
  | PNone => HNone
  | PBool b => HBool b
  | PInt z => HInt z
  | PFloat f => HFloat f
  | PStr s => HStr s
  | PList l =>
      HList l
        ((fix go (l : list pyval) : Forall P l :=
            match l with
            | [] => Forall_nil P
            | x :: t => Forall_cons x (pyval_rect' x) (go t)
            end) l)
  | PDict d =>
      HDict d
        ((fix go (d : list (string * pyval)) : Forall (fun kv => P (snd kv)) d :=
            match d with
            | [] => Forall_nil _
            | kv :: t =>
                Forall_cons (P := fun kv => P (snd kv)) kv
                  (pyval_rect' (snd kv)) (go t)
            end) d)
  end.
End PyvalInd.

(** ** Truthiness ([bool(v)], the test of [if v:] and [not v]) *)

Definition float_is_zero (f : spec_float) : bool :=
  match f with S754_zero _ => true | _ => false end.

Definition truthy (v : pyval) : bool :=
  match v with
  | PNone => false
  | PBool b => b
  | PInt z => negb (z =? 0)
  | PFloat f => negb (float_is_zero f)
  | PStr s => negb (s =? "")%string
  | PList l => match l with [] => false | _ => true end
  | PDict d => match d with [] => false | _ => true end
  end.

Definition type_name (v : pyval) : string :=
  match v with
  | PNone => "NoneType"
  | PBool _ => "bool"
  | PInt _ => "int"
  | PFloat _ => "float"
  | PStr _ => "str"
  | PList _ => "list"
  | PDict _ => "dict"
  end.

(** ** Mappings *)

(** [d.get(k)]: the value of the first item under [k]. *)
Fixpoint lookup (k : string) (d : dict) : option pyval :=
  match d with
  | [] => None
  | (k', v) :: t => if (k' =? k)%string then Some v else lookup k t
  end.

(** [d.get(k, default)] *)
Definition dict_get (d : dict) (k : string) (default : pyval) : pyval :=
  match lookup k d with Some v => v | None => default end.

(** [d[k] = v]: an existing key keeps its position, a new one goes last. *)
Fixpoint setitem (k : string) (v : pyval) (d : dict) : dict :=
  match d with
  | [] => [(k, v)]
  | (k', v') :: t =>
      if (k' =? k)%string then (k', v) :: t else (k', v') :: setitem k v t
  end.

(** [{**a, **b}] *)
Definition merge (a b : dict) : dict :=
  fold_left (fun acc kv => setitem (fst kv) (snd kv) acc) b a.

(** A dict display [{k1: v1, ...}] evaluates its items left to right. *)
Definition display (items : list (string * pyval)) : dict :=
  merge [] items.

(** ** Strings *)

Definition squote : ascii := "'"%char.
Definition dquote : ascii := Ascii.ascii_of_nat 34.
Definition backslash : ascii := Ascii.ascii_of_nat 92.

Fixpoint contains_char (c : ascii) (s : string) : bool :=
  match s with
  | EmptyString => false
  | String c' t => Ascii.eqb c c' || contains_char c t
  end.

Definition hex_digit (n : nat) : ascii :=
  if Nat.ltb n 10 then Ascii.ascii_of_nat (48 + n) else Ascii.ascii_of_nat (87 + n).

Fixpoint repr_body (q : ascii) (s : string) : string :=
  match s with
  | EmptyString => EmptyString
  | String c t =>
      let n := Ascii.nat_of_ascii c in
      let rest := repr_body q t in
      if Ascii.eqb c backslash then String backslash (String backslash rest)
      else if Ascii.eqb c q then String backslash (String q rest)
      else if Nat.eqb n 10 then String backslash (String "n" rest)
      else if Nat.eqb n 13 then String backslash (String "r" rest)
      else if Nat.eqb n 9 then String backslash (String "t" rest)
      else if Nat.ltb n 32 || Nat.eqb n 127 then
        String backslash
          (String "x" (String (hex_digit (Nat.div n 16))
                         (String (hex_digit (Nat.modulo n 16)) rest)))
      else String c rest
  end.

(** [repr(s)] of a string: single quotes, unless the text holds a single
    quote and no double quote. *)
Definition repr_str (s : string) : string :=
  let q := if contains_char squote s && negb (contains_char dquote s)
           then dquote else squote in
  String q (repr_body q s ++ String q EmptyString).

(** [str(n)] of an integer *)
Definition str_int (z : Z) : string :=
  NilZero.string_of_int (Z.to_int z).

(** [s.rstrip(chars)]: drops the longest suffix made of [chars]. *)
Fixpoint rstrip (chars : ascii -> bool) (s : string) : string :=
  match s with
  | EmptyString => EmptyString
  | String c t =>
      match rstrip chars t with
      | EmptyString => if chars c then EmptyString else String c EmptyString
      | r => String c r
      end
  end.

Fixpoint lstrip (chars : ascii -> bool) (s : string) : string :=
  match s with
  | EmptyString => EmptyString
  | String c t => if chars c then lstrip chars t else s
  end.

(** The white space that [int] and [float] skip at both ends of a text
    in ASCII: the space and the characters 9 to 13. *)
Definition is_space (c : ascii) : bool :=
  let n := Ascii.nat_of_ascii c in
  Nat.eqb n 32 || (Nat.leb 9 n && Nat.leb n 13).

Definition strip (s : string) : string := rstrip is_space (lstrip is_space s).

Definition lower_char (c : ascii) : ascii :=
  let n := Ascii.nat_of_ascii c in
  if Nat.leb 65 n && Nat.leb n 90 then Ascii.ascii_of_nat (n + 32) else c.

(** [s.lower()], for text in ASCII: the letters [A] to [Z] are lowered
    and nothing else changes. *)
Fixpoint lower (s : string) : string :=
  match s with
  | EmptyString => EmptyString
  | String c t => String (lower_char c) (lower t)
  end.

(** [s.replace(a, b)] for one-character [a] and [b] *)
Fixpoint replace_char (a b : ascii) (s : string) : string :=
  match s with
  | EmptyString => EmptyString
  | String c t => String (if Ascii.eqb c a then b else c) (replace_char a b t)
  end.

(** [sep.join(parts)] *)
Definition join (sep : string) (parts : list string) : string :=
  String.concat sep parts.

(** ** [int(s)] on a string, base 10

    Surrounding whitespace is dropped, one sign is allowed, and digits
    may be grouped by single underscores.  Once the digits are scanned,
    a text with more of them than the interpreter's limit (4300 unless
    it is set otherwise, which this program does not do) is refused,
    before what follows the digits is looked at (the order of CPython
    3.11).  The text of the
    error for a malformed literal quotes the first 200 characters of
    the [repr] of the argument. *)

(** A decimal digit of ASCII. *)
Definition is_digit (c : ascii) : bool :=
  let n := Ascii.nat_of_ascii c in Nat.leb 48 n && Nat.leb n 57.

Definition digit_val (c : ascii) : Z := Z.of_nat (Ascii.nat_of_ascii c) - 48.

(** [digits acc after_digit s]: reads a digit part; [after_digit] tells
    whether the previous character was a digit (an underscore is legal
    only then, and the part may end only then).  Returns the value read,
    how many digits it had, and the rest of the text. *)
Fixpoint digits (acc : Z) (count : nat) (after_digit : bool) (s : string)
  : option (Z * nat * string) :=
  match s with
  | EmptyString => if after_digit then Some (acc, count, EmptyString) else None
  | String c t =>
      if is_digit c then digits (10 * acc + digit_val c) (S count) true t
      else if Ascii.eqb c "_" then
        if after_digit then
          match t with
          | String c' _ => if is_digit c' then digits acc count false t else None
          | EmptyString => None
          end
        else None
      else if after_digit then Some (acc, count, s) else None
  end.

Definition split_sign (s : string) : bool * string :=
  match s with
  | String "-" t => (true, t)
  | String "+" t => (false, t)
  | _ => (false, s)
  end.

(** [sys.get_int_max_str_digits()], at its default *)
Definition int_max_str_digits : Z := 4300.

Definition too_many_digits {A} (count : nat) : result A :=
  Raise (Exc "ValueError"
           ("Exceeds the limit (" ++ str_int int_max_str_digits
              ++ " digits) for integer string conversion: value has "
              ++ str_int (Z.of_nat count)
              ++ " digits; use sys.set_int_max_str_digits() to increase the limit")).

Definition int_of_str (s : string) : result Z :=
  let bad := Raise (Exc "ValueError"
               ("invalid literal for int() with base 10: "
                  ++ String.substring 0 200 (repr_str s))) in
  let (neg, body) := split_sign (strip s) in
  match digits 0 0 false body with
  | Some (n, count, rest) =>
      if int_max_str_digits <? Z.of_nat count then too_many_digits count
      else
        match rest with
        | EmptyString => Ok (if neg then - n else n)
        | _ => bad
        end
  | None => bad
  end.

(** ** [float]: IEEE 754 binary64 *)

Definition prec : Z := 53.
Definition emax : Z := 1024.

(** The double nearest to the integer [z] (ties to even). *)
Definition float_of_Z (z : Z) : spec_float := binary_normalize prec emax z 0 false.

(** The double nearest to the rational [n / d], for [d > 0]. *)
Definition float_of_ratio (n : Z) (d : positive) : spec_float :=
  match n with
  | Z0 => S754_zero false
  | Zpos p => SFdiv prec emax (S754_finite false p 0) (S754_finite false d 0)
  | Zneg p => SFdiv prec emax (S754_finite true p 0) (S754_finite false d 0)
  end.

Definition is_infinite (f : spec_float) : bool :=
  match f with S754_infinity _ => true | _ => false end.

(** [float(n)] of an integer *)
Definition float_of_int (z : Z) : result spec_float :=
  let f := float_of_Z z in
  if is_infinite f
  then Raise (Exc "OverflowError" "int too large to convert to float")
  else Ok f.

(** [float(s)] of a string: [[sign] (digits [. [digits]] | . digits)
    [(e|E) [sign] digits]], or [inf], [infinity], [nan] in any case,
    between optional whitespace. *)

Definition scale10 (m : Z) (e : Z) : spec_float :=
  match e with
  | Zneg p => float_of_ratio m (Pos.pow 10 p)
  | _ => float_of_Z (m * 10 ^ e)
  end.

(** Reads the optional exponent part; [None] when the text is malformed. *)
Definition exponent (s : string) : option Z :=
  match s with
  | EmptyString => Some 0
  | String c t =>
      if Ascii.eqb c "e" || Ascii.eqb c "E" then
        let (neg, body) := split_sign t in
        match digits 0 0 false body with
        | Some (n, _, EmptyString) => Some (if neg then - n else n)
        | _ => None
        end
      else None
  end.

(** Reads an unsigned decimal number: mantissa digits and decimal exponent. *)
Definition decimal (s : string) : option (Z * Z) :=
  match s with
  | String "." t =>
      match digits 0 0 false t with
      | Some (m, k, rest) =>
          match exponent rest with
          | Some e => Some (m, e - Z.of_nat k)
          | None => None
          end
      | None => None
      end
  | _ =>
      match digits 0 0 false s with
      | Some (m, _, String "." rest) =>
          match rest with
          | String c _ =>
              if is_digit c then
                match digits m 0 false rest with
                | Some (m', k, rest') =>
                    match exponent rest' with
                    | Some e => Some (m', e - Z.of_nat k)
                    | None => None
                    end
                | None => None
                end
              else
                match exponent rest with
                | Some e => Some (m, e)
                | None => None
                end
          | EmptyString => Some (m, 0)
          end
      | Some (m, _, rest) =>
          match exponent rest with
          | Some e => Some (m, e)
          | None => None
          end
      | None => None
      end
  end.

Definition float_of_str (s : string) : result spec_float :=
  let bad := Raise (Exc "ValueError"
               ("could not convert string to float: " ++ repr_str s)) in
  let (neg, body) := split_sign (strip s) in
  let word := lower body in
  if (word =? "inf")%string || (word =? "infinity")%string then Ok (S754_infinity neg)
  else if (word =? "nan")%string then Ok S754_nan
  else
    match decimal body with
    | Some (m, e) =>
        Ok (if m =? 0 then S754_zero neg
            else if neg then SFopp (scale10 m e) else scale10 m e)
    | None => bad
    end.

(** [float(v)] *)
Definition py_float (v : pyval) : result spec_float :=
  match v with
  | PFloat f => Ok f
  | PInt z => float_of_int z
  | PBool b => Ok (float_of_Z (if b then 1 else 0))
  | PStr s => float_of_str s
  | _ => Raise (Exc "TypeError"
           ("float() argument must be a string or a real number, not "
              ++ repr_str (type_name v)))
  end.

(** [a / b] for integers: the double nearest to the exact quotient. *)
Definition int_truediv (a b : Z) : result spec_float :=
  match b with
  | Z0 => Raise (Exc "ZeroDivisionError" "division by zero")
  | Zpos d =>
      let f := float_of_ratio a d in
      if is_infinite f
      then Raise (Exc "OverflowError" "integer division result too large for a float")
      else Ok f
  | Zneg d =>
      let f := float_of_ratio (- a) d in
      if is_infinite f
      then Raise (Exc "OverflowError" "integer division result too large for a float")
      else Ok f
  end.

(** [x / y] for doubles: IEEE division, except that a zero divisor raises. *)
Definition float_truediv (x y : spec_float) : result spec_float :=
  if float_is_zero y then Raise (Exc "ZeroDivisionError" "float division by zero")
  else Ok (SFdiv prec emax x y).

(** [v / n] for an integer literal [n] *)
Definition truediv_int (v : pyval) (n : Z) : result spec_float :=
  match v with
  | PInt z => int_truediv z n
  | PBool b => int_truediv (if b then 1 else 0) n
  | PFloat f =>
      match float_of_int n with
      | Ok g => float_truediv f g
      | Raise e => Raise e
      end
  | _ => Raise (Exc "TypeError"
           ("unsupported operand type(s) for /: " ++ repr_str (type_name v)
              ++ " and 'int'"))
  end.

(** Rounding of [n / d] to the nearest integer, ties to even ([d > 0]). *)
Definition round_half_even (n d : Z) : Z :=
  let q := n / d in
  let r := n mod d in
  match 2 * r ?= d with
  | Lt => q
  | Gt => q + 1
  | Eq => if Z.even q then q else q + 1
  end.

(** The number of tenths nearest to the magnitude of a finite double. *)
Definition tenths (m : positive) (e : Z) : Z :=
  match e with
  | Zneg p => round_half_even (10 * Zpos m) (Zpos (Pos.pow 2 p))
  | _ => 10 * Zpos m * 2 ^ e
  end.

Definition fixed1 (neg : bool) (t : Z) : string :=
  (if neg then "-" else "") ++ str_int (t / 10) ++ "." ++ str_int (t mod 10).

(** [format(x, '.1f')]: one digit after the point, correctly rounded
    from the exact binary value. *)
Definition format_1f (x : spec_float) : string :=
  match x with
  | S754_nan => "nan"
  | S754_infinity s => if s then "-inf" else "inf"
  | S754_zero s => fixed1 s 0
  | S754_finite s m e => fixed1 s (tenths m e)
  end.

End Py.

(* ================================================================== *)
(** * Effects of one invocation *)
(* ================================================================== *)

Module Eff.
Import Py.

(** The response object handed over by [session.post(...)]: its status
    and what awaiting its body yields. *)
Record response : Type := {
  status : Z;
  json : result pyval;
  text : result string
}.

(** What lies outside the tool: the HTTP session factory, the cache
    constructor and the remote service.  Any of them may raise. *)
Record environment : Type := {
  async_get_clientsession : result unit;
  new_cache : result unit;
  post : string -> pyval -> pyval -> result response
}.

(** The cache object, as the tool sees it: a store with a read-only
    [get] and a [set] that may raise and may change the store. *)
Record cache_class : Type := {
  store : Type;
  cache_get : store -> string -> pyval -> result pyval;
  cache_set : store -> string -> pyval -> pyval -> result unit * store
}.

(** Every call that leaves the tool is recorded, in order. *)
Inductive event : Type :=
| GetClientSession
| NewCache
| CacheGet (namespace : string) (payload : pyval)
| CacheSet (namespace : string) (payload : pyval) (value : pyval)
| HttpPost (url : string) (body : pyval) (headers : pyval)
| ReadJson
| ReadText
| LogError (msg : string).

Definition is_cache_set (e : event) : bool :=
  match e with CacheSet _ _ _ => true | _ => false end.

Definition is_http (e : event) : bool :=
  match e with
  | HttpPost _ _ _ | ReadJson | ReadText => true
  | _ => false
  end.

Section Monad.
Variable C : cache_class.

Record world : Type := { trace : list event; cache : store C }.

Definition M (A : Type) : Type := world -> result A * world.

Definition ret {A} (a : A) : M A := fun w => (Ok a, w).

Definition bind {A B} (m : M A) (k : A -> M B) : M B :=
  fun w =>
    match m w with
    | (Ok a, w') => k a w'
    | (Raise e, w') => (Raise e, w')
    end.

Definition lift {A} (r : result A) : M A := fun w => (r, w).

Definition emit (e : event) : M unit :=
  fun w => (Ok tt, {| trace := trace w ++ [e]; cache := cache w |}).

(** [try: m  except Exception as e: h e] *)
Definition try_except {A} (m : M A) (h : exn -> M A) : M A :=
  fun w =>
    match m w with
    | (Raise e, w') => if isinstance_Exception e then h e w' else (Raise e, w')
    | r => r
    end.

Definition do_cache_get (ns : string) (payload : pyval) : M pyval :=
  bind (emit (CacheGet ns payload)) (fun _ =>
  fun w => (cache_get C (cache w) ns payload, w)).

Definition do_cache_set (ns : string) (payload value : pyval) : M unit :=
  bind (emit (CacheSet ns payload value)) (fun _ =>
  fun w =>
    let (r, st) := cache_set C (cache w) ns payload value in
    (r, {| trace := trace w; cache := st |})).
End Monad.

Arguments ret {C A} a.
Arguments bind {C A B} m k.
Arguments lift {C A} r.
Arguments emit {C} e.
Arguments try_except {C A} m h.
Arguments trace {C} w.
Arguments cache {C} w.

End Eff.

Declare Scope py_scope.
Delimit Scope py_scope with py.
Notation "x <- m ;; k" := (Eff.bind m (fun x => k))
  (at level 61, m at next level, right associativity) : py_scope.
Notation "m ;; k" := (Eff.bind m (fun _ => k))
  (at level 61, right associativity) : py_scope.

(* ================================================================== *)
(** * GoogleRoutes.py *)
(* ================================================================== *)

Module GoogleRoutes.
Import Py Eff.
Local Open Scope py_scope.

(** The names imported from [.const]: the tool is modelled for any
    values of them. *)
Record const : Type := {
  DOMAIN : string;
  CONF_GOOGLE_ROUTES_API_KEY : string;
  CONF_GOOGLE_ROUTES_LATITUDE : string;
  CONF_GOOGLE_ROUTES_LONGITUDE : string;
  CONF_GOOGLE_ROUTES_TRAVEL_MODE : string;
  SERVICE_DEFAULTS : dict
}.

(** [hass]: the [data] mapping and the config entries registered under
    a domain, each with its [options] mapping. *)
Record ConfigEntry : Type := { options : dict }.

Record HomeAssistant : Type := {
  data : dict;
  async_entries : string -> list ConfigEntry
}.

(** [tool_input.tool_args], a mapping accepted by the tool's [parameters]
    schema [{Required("destination"): str}]. *)
Record ToolInput : Type := { destination : string }.

(** [__name__] *)
Definition module_name : string := "custom_components.llm_intents.GoogleRoutes".

Definition name : string := "get_transit_times".

Definition description : string :=
  join (String (Ascii.ascii_of_nat 10) EmptyString)
    [ "Use this tool to get transit times and routes when the user requests or infers they want to know:";
      "- How long it takes to get to a place";
      "- Transit time to a destination";
      "- Directions or route to a location";
      "- When they should leave to arrive at a place" ].

Definition response_directive : string :=
  join (String (Ascii.ascii_of_nat 10) EmptyString)
    [ "Use the route information to answer the user's query.";
      "Focus on the transit time and relevant route details the user is interested in." ].

Definition endpoint : string :=
  "https://routes.googleapis.com/directions/v2:computeRoutes".

Definition no_attribute {A} (v : pyval) (attr : string) : result A :=
  Raise (Exc "AttributeError"
           (repr_str (type_name v) ++ " object has no attribute " ++ repr_str attr)).

(** [v.get(k, default)] on a value that should be a mapping *)
Definition get_method (v : pyval) (k : string) (default : pyval) : result pyval :=
  match v with
  | PDict d => Ok (dict_get d k default)
  | _ => no_attribute v "get"
  end.

(** [v[0]] *)
Definition getitem0 (v : pyval) : result pyval :=
  match v with
  | PList (x :: _) => Ok x
  | PList [] => Raise (Exc "IndexError" "list index out of range")
  | PStr (String c _) => Ok (PStr (String c EmptyString))
  | PStr EmptyString => Raise (Exc "IndexError" "string index out of range")
  | PDict _ => Raise (Exc "KeyError" "0")
  | _ => Raise (Exc "TypeError"
           (repr_str (type_name v) ++ " object is not subscriptable"))
  end.

(** [f"{n} unit{'s' if n != 1 else ''}"] *)
Definition count_text (n : Z) (unit : string) : string :=
  str_int n ++ " " ++ unit ++ (if negb (n =? 1) then "s" else "").

(** Lines 135-136 and 139-142. *)
Definition duration_text (duration_seconds : Z) : string :=
  let hours := duration_seconds / 3600 in
  let minutes := (duration_seconds mod 3600) / 60 in
  if 0 <? hours
  then count_text hours "hour" ++ " " ++ count_text minutes "minute"
  else count_text minutes "minute".

(** Line 131: [int(route.get("duration", "0s").rstrip("s"))] *)
Definition parse_duration (route : pyval) : result Z :=
  match get_method route "duration" (PStr "0s") with
  | Raise e => Raise e
  | Ok (PStr s) => int_of_str (rstrip (fun c => Ascii.eqb c "s") s)
  | Ok v => no_attribute v "rstrip"
  end.

(** Lines 137 and 148: [f"{distance_meters / 1000:.1f} km"] *)
Definition distance_text (distance_km : spec_float) : string :=
  format_1f distance_km ++ " km".

(** Line 146: [travel_mode.lower().replace("_", " ")] *)
Definition display_mode (travel_mode : pyval) : result string :=
  match travel_mode with
  | PStr s => Ok (replace_char "_" " " (lower s))
  | v => no_attribute v "lower"
  end.

(** Lines 130-150: from the route candidates to the result mapping. *)
Definition transform (destination : string) (travel_mode routes : pyval)
  : result pyval :=
  match getitem0 routes with
  | Raise e => Raise e
  | Ok route =>
  match parse_duration route with
  | Raise e => Raise e
  | Ok duration_seconds =>
  match get_method route "distanceMeters" (PInt 0) with
  | Raise e => Raise e
  | Ok distance_meters =>
  match truediv_int distance_meters 1000 with
  | Raise e => Raise e
  | Ok distance_km =>
  match display_mode travel_mode with
  | Raise e => Raise e
  | Ok mode =>
      Ok (PDict (display
            [ ("destination", PStr destination);
              ("travel_mode", PStr mode);
              ("duration", PStr (duration_text duration_seconds));
              ("distance", PStr (distance_text distance_km));
              ("instruction", PStr response_directive) ]))
  end end end end end.

(** Lines 83-98. *)
Definition request_body (destination : string) (latitude longitude travel_mode : pyval)
  : result pyval :=
  match py_float latitude with
  | Raise e => Raise e
  | Ok lat =>
  match py_float longitude with
  | Raise e => Raise e
  | Ok lng =>
      Ok (PDict (display
        [ ("origin", PDict (display
             [ ("location", PDict (display
                  [ ("latLng", PDict (display
                       [ ("latitude", PFloat lat);
                         ("longitude", PFloat lng) ])) ])) ]));
          ("destination", PDict (display [ ("address", PStr destination) ]));
          ("travelMode", travel_mode);
          ("routingPreference", PStr "TRAFFIC_AWARE");
          ("computeAlternativeRoutes", PBool false);
          ("languageCode", PStr "en-US");
          ("units", PStr "METRIC") ]))
  end end.

(** Lines 105-116. *)
Definition field_mask : string :=
  join "," [ "routes.duration"; "routes.distanceMeters" ].

Definition request_headers (api_key : pyval) : pyval :=
  PDict (display
    [ ("Content-Type", PStr "application/json");
      ("X-Goog-Api-Key", api_key);
      ("X-Goog-FieldMask", PStr field_mask) ]).

Definition error_result (msg : string) : pyval := PDict (display [ ("error", PStr msg) ]).

Definition no_route_result : pyval :=
  PDict (display [ ("result", PStr "No route found to destination") ]).

Section Tool.
Variable K : const.
Variable C : cache_class.
Variable env : environment.

(** Lines 59-61: the merged configuration. *)
Definition config_data (hass : HomeAssistant) : result dict :=
  match lookup (DOMAIN K) (data hass) with
  | None => Raise (Exc "KeyError" (repr_str (DOMAIN K)))
  | Some domain_data =>
  match get_method domain_data "config" (PDict []) with
  | Raise e => Raise e
  | Ok config =>
  match async_entries hass (DOMAIN K) with
  | [] => Raise (Exc "RuntimeError" "coroutine raised StopIteration")
  | entry :: _ =>
  match config with
  | PDict d => Ok (merge d (options entry))
  | v => Raise (Exc "TypeError" (repr_str (type_name v) ++ " object is not a mapping"))
  end end end end.

(** Lines 65-71. *)
Definition api_key (cfg : dict) : pyval :=
  dict_get cfg (CONF_GOOGLE_ROUTES_API_KEY K) PNone.
Definition latitude (cfg : dict) : pyval :=
  dict_get cfg (CONF_GOOGLE_ROUTES_LATITUDE K) PNone.
Definition longitude (cfg : dict) : pyval :=
  dict_get cfg (CONF_GOOGLE_ROUTES_LONGITUDE K) PNone.
Definition travel_mode (cfg : dict) : pyval :=
  dict_get cfg (CONF_GOOGLE_ROUTES_TRAVEL_MODE K)
    (dict_get (SERVICE_DEFAULTS K) (CONF_GOOGLE_ROUTES_TRAVEL_MODE K) PNone).

(** Lines 123-158: what is done with the response.  (Leaving the
    [async with] block releases the response; the release is taken to
    neither raise nor swallow an exception.) *)
Definition handle_response (dest : string) (mode body : pyval) (resp : response)
  : M C pyval :=
  if status resp =? 200 then
    emit ReadJson ;;
    data <- lift (json resp) ;;
    routes <- lift (get_method data "routes" (PList [])) ;;
    if negb (truthy routes) then ret no_route_result
    else
      result <- lift (transform dest mode routes) ;;
      do_cache_set C module_name body result ;;
      ret result
  else
    emit ReadText ;;
    detail <- lift (text resp) ;;
    emit (LogError ("Routes API received a HTTP " ++ str_int (status resp)
                      ++ " error from Google: " ++ detail)) ;;
    ret (error_result ("Routes API error: " ++ str_int (status resp))).

(** Lines 80-158: the body of the [try] statement. *)
Definition try_body (dest : string) (cfg : dict) : M C pyval :=
  emit GetClientSession ;;
  lift (async_get_clientsession env) ;;
  body <- lift (request_body dest (latitude cfg) (longitude cfg) (travel_mode cfg)) ;;
  emit NewCache ;;
  lift (new_cache env) ;;
  cached_response <- do_cache_get C module_name body ;;
  if truthy cached_response then ret cached_response
  else
    let headers := request_headers (api_key cfg) in
    emit (HttpPost endpoint body headers) ;;
    resp <- lift (post env endpoint body headers) ;;
    handle_response dest (travel_mode cfg) body resp.

(** Lines 160-162: the handler. *)
Definition handler (e : exn) : M C pyval :=
  emit (LogError ("Routes API error: " ++ exn_str e)) ;;
  ret (error_result ("Error getting route: " ++ exn_str e)).

(** [GetTransitTimesTool.async_call] *)
Definition async_call (hass : HomeAssistant) (tool_input : ToolInput) : M C pyval :=
  cfg <- lift (config_data hass) ;;
  let dest := destination tool_input in
  if negb (truthy (api_key cfg)) then
    ret (error_result "Google Routes API key not configured")
  else if negb (truthy (latitude cfg)) || negb (truthy (longitude cfg)) then
    ret (error_result "Origin location (latitude/longitude) not configured")
  else
    try_except (try_body dest cfg) handler.

(** One invocation, from a store [st] and an empty record of calls. *)
Definition run (hass : HomeAssistant) (tool_input : ToolInput) (st : store C)
  : result pyval * world C :=
  async_call hass tool_input {| trace := []; cache := st |}.
End Tool.

End GoogleRoutes.

(* ================================================================== *)
(** * The fingerprint cache *)
(* ================================================================== *)

Module SQLiteCache.
Import Py Eff.

(** Modelled from the spec: the class [SQLiteCache] of [.cache], whose
    source is missing.  The serialization canonicalizes key ordering
    before hashing (sections 3, 4.1 and 9): [insert_item] and
    [sort_items] put the items of a mapping in key order. *)
Fixpoint insert_item (item : string * pyval) (d : dict) : dict :=
  match d with
  | [] => [ item ]
  | item' :: t =>
      if String.leb (fst item) (fst item') then item :: d
      else item' :: insert_item item t
  end.

Definition sort_items (d : dict) : dict := fold_right insert_item [] d.

(** Modelled from the spec: the canonical serialization of a payload,
    missing with [SQLiteCache]; every mapping in it has its fields in
    key order. *)
Fixpoint canonical (v : pyval) : pyval :=
  match v with
  | PList l => PList (map canonical l)
  | PDict d => PDict (sort_items (map (fun kv => (fst kv, canonical (snd kv))) d))
  | _ => v
  end.

Definition canonical_items (d : dict) : dict :=
  map (fun kv => (fst kv, canonical (snd kv))) d.

Section Store.
Variable digest : string -> pyval -> Z.

(** Modelled from the spec: the fingerprint computed by [SQLiteCache]
    (missing), derived deterministically from the namespace and the
    canonical serialization of the payload; [digest] is any function. *)
Definition fingerprint (namespace : string) (payload : pyval) : Z :=
  digest namespace (canonical payload).

(** Modelled from the spec: the store behind [SQLiteCache] (missing),
    with at most one value per fingerprint. *)
Definition table : Type := list (Z * pyval).

Fixpoint find (fp : Z) (t : table) : option pyval :=
  match t with
  | [] => None
  | (fp', v) :: rest => if fp' =? fp then Some v else find fp rest
  end.

(** Modelled from the spec: [SQLiteCache.get] (missing) returns the
    stored value unchanged, or [None] when there is none. *)
Definition get (t : table) (namespace : string) (payload : pyval) : pyval :=
  match find (fingerprint namespace payload) t with
  | Some v => v
  | None => PNone
  end.

(** Modelled from the spec: [SQLiteCache.set] (missing) stores the value
    under the fingerprint, replacing any earlier one. *)
Definition set (t : table) (namespace : string) (payload value : pyval) : table :=
  (fingerprint namespace payload, value)
    :: filter (fun entry => negb (fst entry =? fingerprint namespace payload)) t.

(** Modelled from the spec: [SQLiteCache] (missing) as the object the
    tool calls; this model of it never raises. *)
Definition sqlite_cache : cache_class := {|
  store := table;
  cache_get := fun t namespace payload => Ok (get t namespace payload);
  cache_set := fun t namespace payload value => (Ok tt, set t namespace payload value)
|}.
End Store.

(** Two payloads are structurally equal when they are the same value up
    to the order in which the fields of their mappings were inserted. *)
Inductive same_payload : pyval -> pyval -> Prop :=
| same_none : same_payload PNone PNone
| same_bool b : same_payload (PBool b) (PBool b)
| same_int z : same_payload (PInt z) (PInt z)
| same_float f : same_payload (PFloat f) (PFloat f)
| same_str s : same_payload (PStr s) (PStr s)
| same_list l1 l2 : same_elements l1 l2 -> same_payload (PList l1) (PList l2)
| same_dict d1 d2 : same_fields d1 d2 -> same_payload (PDict d1) (PDict d2)
with same_elements : list pyval -> list pyval -> Prop :=
| elements_nil : same_elements [] []
| elements_cons v1 v2 l1 l2 :
    same_payload v1 v2 -> same_elements l1 l2 ->
    same_elements (v1 :: l1) (v2 :: l2)
with same_fields : dict -> dict -> Prop :=
| fields_nil : same_fields [] []
| fields_cons k v1 v2 d1 d2 :
    same_payload v1 v2 -> same_fields d1 d2 ->
    same_fields ((k, v1) :: d1) ((k, v2) :: d2)
| fields_swap k v1 v2 k' v1' v2' d1 d2 :
    same_payload v1 v2 -> same_payload v1' v2' -> same_fields d1 d2 ->
    same_fields ((k, v1) :: (k', v1') :: d1) ((k', v2') :: (k, v2) :: d2)
| fields_trans d1 d2 d3 :
    same_fields d1 d2 -> same_fields d2 d3 -> same_fields d1 d3.

Scheme same_payload_ind' := Induction for same_payload Sort Prop
  with same_elements_ind' := Induction for same_elements Sort Prop
  with same_fields_ind' := Induction for same_fields Sort Prop.

Combined Scheme same_mutind from same_payload_ind', same_elements_ind', same_fields_ind'.

(** A payload is well formed when no mapping in it has a key twice, as
    in any Python dict. *)
Inductive well_formed : pyval -> Prop :=
| wf_none : well_formed PNone
| wf_bool b : well_formed (PBool b)
| wf_int z : well_formed (PInt z)
| wf_float f : well_formed (PFloat f)
| wf_str s : well_formed (PStr s)
| wf_list l : Forall well_formed l -> well_formed (PList l)
| wf_dict d :
    NoDup (map fst d) -> Forall (fun kv => well_formed (snd kv)) d ->
    well_formed (PDict d).

Definition key_le (a b : string * pyval) : Prop := String.leb (fst a) (fst b) = true.

End SQLiteCache.

(* ================================================================== *)
(** * Test doubles, after [tests/test_google_routes.py] *)
(* ================================================================== *)

Module Fixtures.
Import Py Eff GoogleRoutes.

Definition K : const := {|
  DOMAIN := "llm_intents";
  CONF_GOOGLE_ROUTES_API_KEY := "google_routes_api_key";
  CONF_GOOGLE_ROUTES_LATITUDE := "google_routes_latitude";
  CONF_GOOGLE_ROUTES_LONGITUDE := "google_routes_longitude";
  CONF_GOOGLE_ROUTES_TRAVEL_MODE := "google_routes_travel_mode";
  SERVICE_DEFAULTS := [ ("google_routes_travel_mode", PStr "DRIVE") ]
|}.

(** The fixture [config_data]. *)
Definition config : dict :=
  [ ("google_routes_enabled", PBool true);
    ("google_routes_api_key", PStr "test_routes_key");
    ("google_routes_latitude", PStr "40.7128");
    ("google_routes_longitude", PStr "-74.0060");
    ("google_routes_travel_mode", PStr "DRIVE") ].

(** The fixture [hass], after [hass.data[DOMAIN] = {"config": cfg}]. *)
Definition hass_with (cfg : dict) : HomeAssistant := {|
  data := [ ("llm_intents", PDict [ ("config", PDict cfg) ]) ];
  async_entries := fun _ => [ {| options := [] |} ]
|}.

(** The fixture [hass] before any test has filled [hass.data]. *)
Definition hass_empty : HomeAssistant := {|
  data := [];
  async_entries := fun _ => [ {| options := [] |} ]
|}.

Definition times_square : ToolInput := {| destination := "Times Square, New York" |}.

(** [Mock()] standing for the cache: [get] and [set] answer as told, and
    the arguments of every [set] are kept. *)
Definition mock_cache (get_answer : result pyval) (set_answer : result unit)
  : cache_class := {|
  store := list (string * pyval * pyval);
  cache_get := fun _ _ _ => get_answer;
  cache_set := fun st ns payload value => (set_answer, (st ++ [ (ns, payload, value) ])%list)
|}.

(** The patched session: [post] answers as told. *)
Definition mock_env (answer : result response) : environment := {|
  async_get_clientsession := Ok tt;
  new_cache := Ok tt;
  post := fun _ _ _ => answer
|}.

(** [async_get_clientsession] patched with [side_effect=e]. *)
Definition failing_session (e : exn) : environment := {|
  async_get_clientsession := Raise e;
  new_cache := Ok tt;
  post := fun _ _ _ => Raise e
|}.

Definition mock_response (code : Z) (data : pyval) (body : string) : response :=
  {| status := code; json := Ok data; text := Ok body |}.

(** The request body built from the fixture configuration. *)
Definition expected_body (address : string) (mode : pyval) : pyval :=
  PDict
    [ ("origin", PDict [ ("location", PDict [ ("latLng", PDict
         [ ("latitude", PFloat (S754_finite false 5729817215912798 (-47)));
           ("longitude", PFloat (S754_finite true 5207709281612202 (-46))) ]) ]) ]);
      ("destination", PDict [ ("address", PStr address) ]);
      ("travelMode", mode);
      ("routingPreference", PStr "TRAFFIC_AWARE");
      ("computeAlternativeRoutes", PBool false);
      ("languageCode", PStr "en-US");
      ("units", PStr "METRIC") ].

(** The fixture [cached_result]. *)
Definition cached_result : pyval :=
  PDict [ ("destination", PStr "Times Square");
          ("duration", PStr "20 minutes");
          ("distance", PStr "5.0 km") ].

(** [get] returning [None]; [get] returning the fixture [cached_result]. *)
Definition miss_cache : cache_class := mock_cache (Ok PNone) (Ok tt).
Definition hit_cache : cache_class := mock_cache (Ok cached_result) (Ok tt).

(** A digest that is sensitive to the order of the fields it is given. *)
Fixpoint checksum (v : pyval) : Z :=
  match v with
  | PNone => 1
  | PBool b => if b then 2 else 3
  | PInt z => 5 + z
  | PFloat _ => 7
  | PStr s => 11 + Z.of_nat (String.length s)
  | PList l => fold_left (fun acc x => 31 * acc + checksum x) l 13
  | PDict d =>
      fold_left
        (fun acc kv => 31 * acc + Z.of_nat (String.length (fst kv)) + checksum (snd kv))
        d 17
  end.

Definition toy_digest (namespace : string) (payload : pyval) : Z :=
  1000003 * Z.of_nat (String.length namespace) + checksum payload.

(** The fields of a mapping in the opposite order. *)
Definition reversed (v : pyval) : pyval :=
  match v with
  | PDict d => PDict (rev d)
  | _ => v
  end.

(** [n] times the character [c]. *)
Fixpoint run_of (c : ascii) (n : nat) : string :=
  match n with
  | O => EmptyString
  | S n' => String c (run_of c n')
  end.

(** A count of 4301 digits. *)
Definition long_count : string := run_of "1" 4301.

Definition one_route (duration : string) (meters : Z) : pyval :=
  PDict [ ("routes", PList [ PDict [ ("duration", PStr duration);
                                     ("distanceMeters", PInt meters) ] ]) ].

(** A double of the cache that keeps the value stored last and answers
    every lookup with it ([None] before anything is stored). *)
Definition remembering_cache : cache_class := {|
  store := pyval;
  cache_get := fun last _ _ => Ok last;
  cache_set := fun _ _ _ value => (Ok tt, value)
|}.

End Fixtures.

(* ================================================================== *)
(** * Properties of the tool *)
(* ================================================================== *)

Module Properties.
Import Py Eff GoogleRoutes SQLiteCache.

(** ** Vocabulary of the statements *)

(** [sub in s] *)
Fixpoint contains (sub s : string) : bool :=
  String.prefix sub s ||
  match s with
  | EmptyString => false
  | String _ t => contains sub t
  end.

(** The world an invocation starts from: no call made yet, store [st]. *)
Definition initial {C : cache_class} (st : store C) : world C :=
  {| trace := []; cache := st |}.

(** Nothing was written to the cache during the run that ended in [w]. *)
Definition nothing_written {C : cache_class} (st : store C) (w : world C) : Prop :=
  existsb is_cache_set (trace w) = false /\ cache w = st.

(** Both guards of lines 73-77 pass. *)
Definition configured (K : const) (cfg : dict) : Prop :=
  truthy (api_key K cfg) = true /\
  truthy (latitude K cfg) = true /\
  truthy (longitude K cfg) = true.

(** The invocation gets as far as the cache lookup with payload [body]:
    the configuration is read, both guards pass, the session and the
    cache object are obtained and the request body is built. *)
Definition reaches_lookup (K : const) (env : environment) (hass : HomeAssistant)
  (tool_input : ToolInput) (cfg : dict) (body : pyval) : Prop :=
  config_data K hass = Ok cfg /\
  truthy (api_key K cfg) = true /\
  truthy (latitude K cfg) = true /\
  truthy (longitude K cfg) = true /\
  async_get_clientsession env = Ok tt /\
  request_body (destination tool_input) (latitude K cfg) (longitude K cfg)
    (travel_mode K cfg) = Ok body /\
  new_cache env = Ok tt.

(** It goes on past a miss and obtains the response [resp]. *)
Definition receives_response (K : const) (C : cache_class) (env : environment)
  (hass : HomeAssistant) (tool_input : ToolInput) (st : store C)
  (cfg : dict) (body : pyval) (resp : response) : Prop :=
  reaches_lookup K env hass tool_input cfg body /\
  (exists answer, cache_get C st module_name body = Ok answer /\ truthy answer = false) /\
  post env endpoint body (request_headers (api_key K cfg)) = Ok resp.

(** The run goes through the transform, which yields [value]. *)
Definition completes_transform (K : const) (C : cache_class) (env : environment)
  (hass : HomeAssistant) (tool_input : ToolInput) (st : store C)
  (cfg : dict) (body : pyval) (resp : response) (value : pyval) : Prop :=
  receives_response K C env hass tool_input st cfg body resp /\
  status resp = 200 /\
  exists data routes,
    json resp = Ok data /\
    get_method data "routes" (PList []) = Ok routes /\
    truthy routes = true /\
    transform (destination tool_input) (travel_mode K cfg) routes = Ok value.

(** The calls of a run that completes the transform, up to the write. *)
Definition calls_up_to_write (K : const) (cfg : dict) (body value : pyval) : list event :=
  [ GetClientSession; NewCache; CacheGet module_name body;
    HttpPost endpoint body (request_headers (api_key K cfg));
    ReadJson; CacheSet module_name body value ].

(** The result mapping of lines 144-150. *)
Definition success_result (dest mode duration distance : string) : pyval :=
  PDict [ ("destination", PStr dest);
          ("travel_mode", PStr mode);
          ("duration", PStr duration);
          ("distance", PStr distance);
          ("instruction", PStr response_directive) ].

(** The three shapes of a structured result. *)
Definition is_success_mapping (v : pyval) : Prop :=
  exists dest mode duration distance, v = success_result dest mode duration distance.

Definition is_result_mapping (v : pyval) : Prop :=
  exists msg, v = PDict [ ("result", PStr msg) ].

Definition is_error_mapping (v : pyval) : Prop :=
  exists msg, v = PDict [ ("error", PStr msg) ].

Definition structured (v : pyval) : Prop :=
  is_success_mapping v \/ is_result_mapping v \/ is_error_mapping v.

(** The terminal states of one invocation, with the result and the
    world each one leaves. *)
Inductive outcome (K : const) (C : cache_class) (env : environment)
  (hass : HomeAssistant) (tool_input : ToolInput) (st : store C)
  : result pyval -> world C -> Prop :=
| ConfigLookupRaises e :
    config_data K hass = Raise e ->
    outcome K C env hass tool_input st (Raise e) (initial st)
| MissingKey cfg :
    config_data K hass = Ok cfg ->
    truthy (api_key K cfg) = false ->
    outcome K C env hass tool_input st
      (Ok (error_result "Google Routes API key not configured")) (initial st)
| MissingOrigin cfg :
    config_data K hass = Ok cfg ->
    truthy (api_key K cfg) = true ->
    truthy (latitude K cfg) = false \/ truthy (longitude K cfg) = false ->
    outcome K C env hass tool_input st
      (Ok (error_result "Origin location (latitude/longitude) not configured"))
      (initial st)
| CacheHit cfg body cached :
    reaches_lookup K env hass tool_input cfg body ->
    cache_get C st module_name body = Ok cached ->
    truthy cached = true ->
    outcome K C env hass tool_input st (Ok cached)
      {| trace := [ GetClientSession; NewCache; CacheGet module_name body ];
         cache := st |}
| NoRoute cfg body resp data routes :
    receives_response K C env hass tool_input st cfg body resp ->
    status resp = 200 ->
    json resp = Ok data ->
    get_method data "routes" (PList []) = Ok routes ->
    truthy routes = false ->
    outcome K C env hass tool_input st (Ok no_route_result)
      {| trace := [ GetClientSession; NewCache; CacheGet module_name body;
                    HttpPost endpoint body (request_headers (api_key K cfg));
                    ReadJson ];
         cache := st |}
| ApiError cfg body resp detail :
    receives_response K C env hass tool_input st cfg body resp ->
    status resp <> 200 ->
    text resp = Ok detail ->
    outcome K C env hass tool_input st
      (Ok (error_result ("Routes API error: " ++ str_int (status resp))))
      {| trace := [ GetClientSession; NewCache; CacheGet module_name body;
                    HttpPost endpoint body (request_headers (api_key K cfg));
                    ReadText;
                    LogError ("Routes API received a HTTP " ++ str_int (status resp)
                                ++ " error from Google: " ++ detail) ];
         cache := st |}
| Success cfg body resp value st' :
    completes_transform K C env hass tool_input st cfg body resp value ->
    cache_set C st module_name body value = (Ok tt, st') ->
    outcome K C env hass tool_input st (Ok value)
      {| trace := [ GetClientSession; NewCache; CacheGet module_name body;
                    HttpPost endpoint body (request_headers (api_key K cfg));
                    ReadJson; CacheSet module_name body value ];
         cache := st' |}
| Caught cfg e w :
    config_data K hass = Ok cfg ->
    configured K cfg ->
    try_body K C env (destination tool_input) cfg (initial st) = (Raise e, w) ->
    isinstance_Exception e = true ->
    outcome K C env hass tool_input st
      (Ok (error_result ("Error getting route: " ++ exn_str e)))
      {| trace := trace w ++ [ LogError ("Routes API error: " ++ exn_str e) ];
         cache := cache w |}
| Propagated cfg e w :
    config_data K hass = Ok cfg ->
    configured K cfg ->
    try_body K C env (destination tool_input) cfg (initial st) = (Raise e, w) ->
    isinstance_Exception e = false ->
    outcome K C env hass tool_input st (Raise e) w.

(** A string of decimal digits. *)
Fixpoint all_digits (s : string) : bool :=
  match s with
  | EmptyString => true
  | String c t => is_digit c && all_digits t
  end.

(** The number a string of decimal digits denotes, by position. *)
Fixpoint decimal_value (s : string) : Z :=
  match s with
  | EmptyString => 0
  | String c t => digit_val c * 10 ^ Z.of_nat (String.length t) + decimal_value t
  end.

(** The characters [rstrip("s")] removes. *)
Definition is_s (c : ascii) : bool := Ascii.eqb c "s".

(** The duration text in the words of the specification: each unit is
    pluralised on its own, singular at exactly 1, and the hour segment
    is left out when the hours are zero. *)
Definition unit_text (n : Z) (singular : string) : string :=
  str_int n ++ " " ++ singular ++ (if n =? 1 then "" else "s").

Definition described_duration (seconds : Z) : string :=
  let hours := seconds / 3600 in
  let minutes := (seconds - 3600 * hours) / 60 in
  if hours =? 0 then unit_text minutes "minute"
  else unit_text hours "hour" ++ " " ++ unit_text minutes "minute".

(** The distance text of a route whose ["distanceMeters"] is [meters]. *)
Definition distance_of (meters : pyval) : result string :=
  match truediv_int meters 1000 with
  | Ok km => Ok (distance_text km)
  | Raise e => Raise e
  end.

(*DEFS*)
(** Where the body of the [try] statement can raise, with the exception
    and the world it leaves. *)
Inductive failure_point (K : const) (C : cache_class) (env : environment)
  (hass : HomeAssistant) (tool_input : ToolInput) (st : store C) (cfg : dict)
  : exn -> world C -> Prop :=
| SessionRaises e :
    async_get_clientsession env = Raise e ->
    failure_point K C env hass tool_input st cfg e
      {| trace := [ GetClientSession ]; cache := st |}
| RequestBodyRaises e :
    async_get_clientsession env = Ok tt ->
    request_body (destination tool_input) (latitude K cfg) (longitude K cfg)
      (travel_mode K cfg) = Raise e ->
    failure_point K C env hass tool_input st cfg e
      {| trace := [ GetClientSession ]; cache := st |}
| CacheObjectRaises e body :
    async_get_clientsession env = Ok tt ->
    request_body (destination tool_input) (latitude K cfg) (longitude K cfg)
      (travel_mode K cfg) = Ok body ->
    new_cache env = Raise e ->
    failure_point K C env hass tool_input st cfg e
      {| trace := [ GetClientSession; NewCache ]; cache := st |}
| LookupRaises e body :
    reaches_lookup K env hass tool_input cfg body ->
    cache_get C st module_name body = Raise e ->
    failure_point K C env hass tool_input st cfg e
      {| trace := [ GetClientSession; NewCache; CacheGet module_name body ];
         cache := st |}
| PostRaises e body answer :
    reaches_lookup K env hass tool_input cfg body ->
    cache_get C st module_name body = Ok answer ->
    truthy answer = false ->
    post env endpoint body (request_headers (api_key K cfg)) = Raise e ->
    failure_point K C env hass tool_input st cfg e
      {| trace := [ GetClientSession; NewCache; CacheGet module_name body;
                    HttpPost endpoint body (request_headers (api_key K cfg)) ];
         cache := st |}
| JsonRaises e body resp :
    receives_response K C env hass tool_input st cfg body resp ->
    status resp = 200 ->
    json resp = Raise e ->
    failure_point K C env hass tool_input st cfg e
      {| trace := [ GetClientSession; NewCache; CacheGet module_name body;
                    HttpPost endpoint body (request_headers (api_key K cfg));
                    ReadJson ];
         cache := st |}
| RoutesRaises e body resp data :
    receives_response K C env hass tool_input st cfg body resp ->
    status resp = 200 ->
    json resp = Ok data ->
    get_method data "routes" (PList []) = Raise e ->
    failure_point K C env hass tool_input st cfg e
      {| trace := [ GetClientSession; NewCache; CacheGet module_name body;
                    HttpPost endpoint body (request_headers (api_key K cfg));
                    ReadJson ];
         cache := st |}
| TransformRaises e body resp data routes :
    receives_response K C env hass tool_input st cfg body resp ->
    status resp = 200 ->
    json resp = Ok data ->
    get_method data "routes" (PList []) = Ok routes ->
    truthy routes = true ->
    transform (destination tool_input) (travel_mode K cfg) routes = Raise e ->
    failure_point K C env hass tool_input st cfg e
      {| trace := [ GetClientSession; NewCache; CacheGet module_name body;
                    HttpPost endpoint body (request_headers (api_key K cfg));
                    ReadJson ];
         cache := st |}
| CacheSetRaises e body resp value st' :
    completes_transform K C env hass tool_input st cfg body resp value ->
    cache_set C st module_name body value = (Raise e, st') ->
    failure_point K C env hass tool_input st cfg e
      {| trace := [ GetClientSession; NewCache; CacheGet module_name body;
                    HttpPost endpoint body (request_headers (api_key K cfg));
                    ReadJson; CacheSet module_name body value ];
         cache := st' |}
| TextRaises e body resp :
    receives_response K C env hass tool_input st cfg body resp ->
    status resp <> 200 ->
    text resp = Raise e ->
    failure_point K C env hass tool_input st cfg e
      {| trace := [ GetClientSession; NewCache; CacheGet module_name body;
                    HttpPost endpoint body (request_headers (api_key K cfg));
                    ReadText ];
         cache := st |}.

(** The requests among the calls, and the log lines. *)
Definition is_post (e : event) : bool :=
  match e with HttpPost _ _ _ => true | _ => false end.

Definition is_log (e : event) : bool :=
  match e with LogError _ => true | _ => false end.

(** A capital letter of ASCII. *)
Definition is_upper (c : ascii) : bool :=
  let n := Ascii.nat_of_ascii c in Nat.leb 65 n && Nat.leb n 90.

(** Text in ASCII, as the travel modes of the Routes API are. *)
Fixpoint ascii_only (s : string) : bool :=
  match s with
  | EmptyString => true
  | String c t => Nat.ltb (Ascii.nat_of_ascii c) 128 && ascii_only t
  end.

(** [k] unit markers in a row. *)
Fixpoint unit_markers (k : nat) : string :=
  match k with
  | O => EmptyString
  | S k' => String "s" (unit_markers k')
  end.

(** The value of a decimal numeral read digit by digit after [acc]. *)
Fixpoint numeral_value (u : Decimal.uint) (acc : Z) : Z :=
  match u with
  | Decimal.Nil => acc
  | Decimal.D0 l => numeral_value l (10 * acc)
  | Decimal.D1 l => numeral_value l (10 * acc + 1)
  | Decimal.D2 l => numeral_value l (10 * acc + 2)
  | Decimal.D3 l => numeral_value l (10 * acc + 3)
  | Decimal.D4 l => numeral_value l (10 * acc + 4)
  | Decimal.D5 l => numeral_value l (10 * acc + 5)
  | Decimal.D6 l => numeral_value l (10 * acc + 6)
  | Decimal.D7 l => numeral_value l (10 * acc + 7)
  | Decimal.D8 l => numeral_value l (10 * acc + 8)
  | Decimal.D9 l => numeral_value l (10 * acc + 9)
  end.

(** ** Tactics for runs *)

Ltac run_open :=
  unfold run, async_call, try_except, try_body, handle_response, handler,
    do_cache_get, do_cache_set, bind, lift, emit, ret, initial; cbn [trace cache].

Ltac red_run := cbn [negb orb trace cache app].

Ltac red_in H := cbn [negb orb trace cache app] in H.

Ltac use_path H :=
  destruct H as (Hcfg & Hkey & Hlat & Hlng & Hsession & Hbody & Hnew);
  run_open; rewrite Hcfg, Hkey; red_run; rewrite Hlat, Hlng; red_run;
  rewrite Hsession, Hbody, Hnew; red_run.

Ltac use_response H :=
  let Hpath := fresh "Hpath" in
  let answer := fresh "answer" in
  destruct H as (Hpath & (answer & Hget & Hmiss) & Hpost);
  use_path Hpath; rewrite Hget; red_run; rewrite Hmiss, Hpost; red_run.

(** Case analysis on every test and call of a run described by [H]. *)
Ltac split_in H :=
  repeat
    (match type of H with
     | context [match ?x with _ => _ end] =>
         lazymatch x with
         | context [match _ with _ => _ end] => fail
         | _ => let E := fresh "E" in destruct x eqn:E
         end
     end; red_in H).

Ltac tidy :=
  repeat match goal with
    | u : unit |- _ => destruct u
    | H : negb _ = true |- _ => apply negb_true_iff in H
    | H : negb _ = false |- _ => apply negb_false_iff in H
    | H : _ || _ = false |- _ => apply orb_false_iff in H; destruct H
    | H : (_ =? _) = true |- _ => apply Z.eqb_eq in H
    | H : (_ =? _) = false |- _ => apply Z.eqb_neq in H
    end.

Lemma absent_is_falsy (cfg : dict) (k : string) :
  lookup k cfg = None -> truthy (dict_get cfg k PNone) = false.
Proof. unfold dict_get. intros ->. reflexivity. Qed.

Lemma zero_values_are_falsy :
  truthy (PInt 0) = false /\
  truthy (PFloat (S754_zero false)) = false /\
  truthy (PStr "") = false.
Proof. repeat split. Qed.

(** ** Guards (lines 73-77) *)

(** C5.  With the credential missing (or falsy) the result is the
    credential error; otherwise, with either origin coordinate missing
    (or falsy), it is the origin error.  Both are returned as mappings
    keyed ["error"], with different texts, and nothing outside the tool
    is called: no session, no cache, no request. *)
Theorem missing_configuration_is_reported
  (K : const) (C : cache_class) (env : environment)
  (hass : HomeAssistant) (tool_input : ToolInput) (st : store C) (cfg : dict)
  (Hcfg : config_data K hass = Ok cfg) :
  (lookup (CONF_GOOGLE_ROUTES_API_KEY K) cfg = None \/ truthy (api_key K cfg) = false ->
     run K C env hass tool_input st
     = (Ok (PDict [ ("error", PStr "Google Routes API key not configured") ]),
        initial st)) /\
  (truthy (api_key K cfg) = true ->
   (lookup (CONF_GOOGLE_ROUTES_LATITUDE K) cfg = None \/
    lookup (CONF_GOOGLE_ROUTES_LONGITUDE K) cfg = None \/
    truthy (latitude K cfg) = false \/ truthy (longitude K cfg) = false) ->
     run K C env hass tool_input st
     = (Ok (PDict [ ("error", PStr "Origin location (latitude/longitude) not configured") ]),
        initial st)) /\
  contains "API key not configured" "Google Routes API key not configured" = true /\
  contains "Origin location" "Origin location (latitude/longitude) not configured" = true /\
  contains "Origin location" "Google Routes API key not configured" = false.
Proof.
  split; [| split; [| repeat split ] ].
  - intros H.
    assert (Hk : truthy (api_key K cfg) = false).
    { destruct H as [H | H]; [ apply absent_is_falsy; exact H | exact H ]. }
    run_open. rewrite Hcfg, Hk. reflexivity.
  - intros Hk H.
    assert (Ho : negb (truthy (latitude K cfg)) || negb (truthy (longitude K cfg)) = true).
    { destruct H as [H | [H | [H | H]]].
      - unfold latitude. rewrite (absent_is_falsy _ _ H). reflexivity.
      - unfold longitude. rewrite (absent_is_falsy _ _ H). apply orb_true_r.
      - rewrite H. reflexivity.
      - rewrite H. apply orb_true_r. }
    run_open. rewrite Hcfg, Hk. cbn [negb]. rewrite Ho. reflexivity.
Qed.

Lemma missing_configuration_is_reported_witness :
  run Fixtures.K Fixtures.miss_cache (Fixtures.mock_env (Raise (Exc "Exception" "unused")))
      (Fixtures.hass_with [ ("google_routes_latitude", PStr "40.7128");
                            ("google_routes_longitude", PStr "-74.0060") ])
      Fixtures.times_square []
  = (Ok (PDict [ ("error", PStr "Google Routes API key not configured") ]),
     initial (C := Fixtures.miss_cache) []).
Proof.
  refine (proj1 (missing_configuration_is_reported Fixtures.K _ _ _ _ _ _ _) _).
  - reflexivity.
  - left. reflexivity.
Defined.

Lemma present_is_returned (cfg : dict) (k : string) (v default : pyval) :
  lookup k cfg = Some v -> dict_get cfg k default = v.
Proof. unfold dict_get. intros ->. reflexivity. Qed.

(** C9, as the code has it.  The credential guard comes first.  With
    a credential that passes it, a coordinate that is present but falsy
    (the number [0], the float [0.0], the empty string) is rejected like
    a missing one: the result is the origin error.  An empty-string
    credential is rejected like a missing credential. *)
Theorem falsy_settings_count_as_absent
  (K : const) (C : cache_class) (env : environment)
  (hass : HomeAssistant) (tool_input : ToolInput) (st : store C) (cfg : dict)
  (Hcfg : config_data K hass = Ok cfg) :
  (forall v : pyval,
     truthy (api_key K cfg) = true ->
     lookup (CONF_GOOGLE_ROUTES_LATITUDE K) cfg = Some v \/
     lookup (CONF_GOOGLE_ROUTES_LONGITUDE K) cfg = Some v ->
     v = PInt 0 \/ v = PFloat (S754_zero false) \/ v = PStr "" \/ truthy v = false ->
     run K C env hass tool_input st
     = (Ok (PDict [ ("error", PStr "Origin location (latitude/longitude) not configured") ]),
        initial st)) /\
  (lookup (CONF_GOOGLE_ROUTES_API_KEY K) cfg = Some (PStr "") ->
     run K C env hass tool_input st
     = (Ok (PDict [ ("error", PStr "Google Routes API key not configured") ]),
        initial st)).
Proof.
  split.
  - intros v Hk Hwhere Hv.
    assert (Hf : truthy v = false).
    { destruct Hv as [-> | [-> | [-> | H]]]; [reflexivity .. | exact H]. }
    assert (Ho : negb (truthy (latitude K cfg)) || negb (truthy (longitude K cfg)) = true).
    { destruct Hwhere as [H | H].
      - unfold latitude. rewrite (present_is_returned _ _ _ _ H), Hf. reflexivity.
      - unfold longitude. rewrite (present_is_returned _ _ _ _ H), Hf. apply orb_true_r. }
    run_open. rewrite Hcfg, Hk. cbn [negb]. rewrite Ho. reflexivity.
  - intros H.
    run_open. rewrite Hcfg. unfold api_key.
    rewrite (present_is_returned _ _ _ _ H). reflexivity.
Qed.

Lemma falsy_settings_count_as_absent_witness :
  run Fixtures.K Fixtures.miss_cache
      (Fixtures.mock_env (Raise (Exc "Exception" "unused")))
      (Fixtures.hass_with [ ("google_routes_api_key", PStr "test_key");
                            ("google_routes_latitude", PInt 0);
                            ("google_routes_longitude", PStr "-74.0060") ])
      Fixtures.times_square []
  = (Ok (PDict [ ("error", PStr "Origin location (latitude/longitude) not configured") ]),
     initial (C := Fixtures.miss_cache) []).
Proof.
  refine (proj1 (falsy_settings_count_as_absent Fixtures.K _ _ _ _ _ _ _) (PInt 0) _ _ _).
  - reflexivity.
  - reflexivity.
  - left. reflexivity.
  - left. reflexivity.
Defined.

(** C9 as stated does not hold for every configuration: with a zero
    latitude and no credential, line 73 answers first and the result is
    the credential error, not the origin error. *)
Lemma falsy_coordinate_without_credential :
  fst (run Fixtures.K Fixtures.miss_cache
         (Fixtures.mock_env (Raise (Exc "Exception" "unused")))
         (Fixtures.hass_with [ ("google_routes_latitude", PInt 0);
                               ("google_routes_longitude", PStr "-74.0060") ])
         Fixtures.times_square [])
  = Ok (PDict [ ("error", PStr "Google Routes API key not configured") ]) /\
  fst (run Fixtures.K Fixtures.miss_cache
         (Fixtures.mock_env (Raise (Exc "Exception" "unused")))
         (Fixtures.hass_with [ ("google_routes_latitude", PInt 0);
                               ("google_routes_longitude", PStr "-74.0060") ])
         Fixtures.times_square [])
  <> Ok (PDict [ ("error", PStr "Origin location (latitude/longitude) not configured") ]).
Proof. split; [ reflexivity | discriminate ]. Qed.

(** ** Cache lookup (lines 100-103) *)

Lemma transform_shape (dest : string) (mode routes value : pyval) :
  transform dest mode routes = Ok value -> is_success_mapping value.
Proof.
  unfold transform.
  destruct (getitem0 routes) as [route |]; [| discriminate ].
  destruct (parse_duration route) as [secs |]; [| discriminate ].
  destruct (get_method route "distanceMeters" (PInt 0)) as [meters |]; [| discriminate ].
  destruct (truediv_int meters 1000) as [km |]; [| discriminate ].
  destruct (display_mode mode) as [m |]; [| discriminate ].
  intros [= <-]. now exists dest, m, (duration_text secs), (distance_text km).
Qed.

(** A run that ends at the cache lookup. *)
Lemma run_hit
  (K : const) (C : cache_class) (env : environment)
  (hass : HomeAssistant) (tool_input : ToolInput) (st : store C)
  (cfg : dict) (body cached : pyval) :
  reaches_lookup K env hass tool_input cfg body ->
  cache_get C st module_name body = Ok cached ->
  truthy cached = true ->
  run K C env hass tool_input st
  = (Ok cached,
     {| trace := [ GetClientSession; NewCache; CacheGet module_name body ];
        cache := st |}).
Proof.
  intros Hpath Hget Hhit. use_path Hpath. rewrite Hget, Hhit. reflexivity.
Qed.

(** Whatever the transform returns is a value line 102 accepts as a hit
    once it is stored. *)
Lemma stored_results_are_truthy (dest : string) (mode routes value : pyval) :
  transform dest mode routes = Ok value -> truthy value = true.
Proof.
  intros H. destruct (transform_shape _ _ _ _ H) as (d & m & du & di & ->). reflexivity.
Qed.

(** C3.  When the lookup returns a stored result (a value line 102
    accepts as a hit, as every result the tool stores is), that value is
    the result, unchanged, and the run ends there: the only calls made
    are for the session object, the cache object and the lookup itself;
    no request is sent and the store is untouched. *)
Theorem cache_hit_is_returned_verbatim
  (K : const) (C : cache_class) (env : environment)
  (hass : HomeAssistant) (tool_input : ToolInput) (st : store C)
  (cfg : dict) (body cached : pyval)
  (Hpath : reaches_lookup K env hass tool_input cfg body)
  (Hget : cache_get C st module_name body = Ok cached)
  (Hhit : truthy cached = true) :
  run K C env hass tool_input st
  = (Ok cached,
     {| trace := [ GetClientSession; NewCache; CacheGet module_name body ];
        cache := st |}) /\
  existsb is_http (trace (snd (run K C env hass tool_input st))) = false /\
  cache (snd (run K C env hass tool_input st)) = st.
Proof.
  rewrite (run_hit K C env hass tool_input st cfg body cached Hpath Hget Hhit).
  repeat split.
Qed.

Lemma cache_hit_is_returned_verbatim_witness :
  run Fixtures.K Fixtures.hit_cache
      (Fixtures.mock_env (Raise (Exc "Exception" "the session must not be used")))
      (Fixtures.hass_with Fixtures.config) Fixtures.times_square []
  = (Ok Fixtures.cached_result,
     Build_world Fixtures.hit_cache
       [ GetClientSession; NewCache;
         CacheGet module_name
           (Fixtures.expected_body "Times Square, New York" (PStr "DRIVE")) ]
       []).
Proof.
  refine (proj1 (cache_hit_is_returned_verbatim Fixtures.K Fixtures.hit_cache
                   _ _ _ [] Fixtures.config _ Fixtures.cached_result _ _ _)).
  - repeat split; reflexivity.
  - reflexivity.
  - reflexivity.
Defined.

(** ** After a miss (lines 118-158) *)

Lemma prefix_refl (s : string) : String.prefix s s = true.
Proof.
  induction s as [| c s IH]; [ reflexivity |].
  cbn. destruct (ascii_dec c c) as [_ | N]; [ exact IH | contradiction ].
Qed.

Lemma contains_suffix (sub pre : string) : contains sub (pre ++ sub) = true.
Proof.
  induction pre as [| c pre IH].
  - cbn [append]. destruct sub; cbn [contains]; rewrite prefix_refl; reflexivity.
  - cbn [append contains]. rewrite IH. apply orb_true_r.
Qed.

(** A run that gets through the transform and the cache write. *)
Lemma run_success
  (K : const) (C : cache_class) (env : environment)
  (hass : HomeAssistant) (tool_input : ToolInput) (st st' : store C)
  (cfg : dict) (body : pyval) (resp : response) (data routes value : pyval) :
  receives_response K C env hass tool_input st cfg body resp ->
  status resp = 200 ->
  json resp = Ok data ->
  get_method data "routes" (PList []) = Ok routes ->
  truthy routes = true ->
  transform (destination tool_input) (travel_mode K cfg) routes = Ok value ->
  cache_set C st module_name body value = (Ok tt, st') ->
  run K C env hass tool_input st
  = (Ok value,
     {| trace := [ GetClientSession; NewCache; CacheGet module_name body;
                   HttpPost endpoint body (request_headers (api_key K cfg));
                   ReadJson; CacheSet module_name body value ];
        cache := st' |}).
Proof.
  intros Hresp Hstatus Hjson Hroutes Hsome Htransform Hset.
  use_response Hresp.
  rewrite Hstatus. cbn [Z.eqb Pos.eqb]. red_run.
  rewrite Hjson, Hroutes, Hsome. red_run.
  rewrite Htransform. red_run. rewrite Hset. reflexivity.
Qed.

(** C7, as the code has it.  After a miss the status of the response
    decides: with status 200 and no route candidate the result is the
    mapping keyed ["result"] saying that no route was found; with any
    other status, once the body has been read for the log line, it is an
    error mapping whose text ends with the status code; when reading the
    body raises an [Exception], the handler's error is returned instead,
    and when it raises a failure that is no [Exception] (a
    cancellation), that failure is raised to the invoker.  None of these
    runs writes to the cache. *)
Theorem status_decides_the_outcome
  (K : const) (C : cache_class) (env : environment)
  (hass : HomeAssistant) (tool_input : ToolInput) (st : store C)
  (cfg : dict) (body : pyval) (resp : response)
  (Hresp : receives_response K C env hass tool_input st cfg body resp) :
  (forall data : dict,
     status resp = 200 ->
     json resp = Ok (PDict data) ->
     truthy (dict_get data "routes" (PList [])) = false ->
     exists w,
       run K C env hass tool_input st
       = (Ok (PDict [ ("result", PStr "No route found to destination") ]), w) /\
       nothing_written st w) /\
  (forall detail : string,
     status resp <> 200 ->
     text resp = Ok detail ->
     exists w,
       run K C env hass tool_input st
       = (Ok (PDict [ ("error", PStr ("Routes API error: " ++ str_int (status resp))) ]), w) /\
       contains (str_int (status resp)) ("Routes API error: " ++ str_int (status resp)) = true /\
       nothing_written st w) /\
  (forall e : exn,
     status resp <> 200 ->
     text resp = Raise e ->
     isinstance_Exception e = true ->
     exists w,
       run K C env hass tool_input st
       = (Ok (PDict [ ("error", PStr ("Error getting route: " ++ exn_str e)) ]), w) /\
       nothing_written st w) /\
  (forall e : exn,
     status resp <> 200 ->
     text resp = Raise e ->
     isinstance_Exception e = false ->
     exists w,
       run K C env hass tool_input st = (Raise e, w) /\
       nothing_written st w).
Proof.
  split; [| split; [| split ] ].
  - intros data Hstatus Hjson Hnone.
    eexists. split.
    + use_response Hresp.
      rewrite Hstatus. cbn [Z.eqb Pos.eqb]. red_run.
      rewrite Hjson. cbn [get_method]. rewrite Hnone. red_run. reflexivity.
    + split; reflexivity.
  - intros detail Hstatus Htext.
    eexists. split; [| split ].
    + use_response Hresp.
      apply Z.eqb_neq in Hstatus. rewrite Hstatus, Htext. red_run. reflexivity.
    + apply contains_suffix.
    + split; reflexivity.
  - intros e Hstatus Htext He.
    eexists. split.
    + use_response Hresp.
      apply Z.eqb_neq in Hstatus. rewrite Hstatus, Htext. red_run. rewrite He.
      reflexivity.
    + split; reflexivity.
  - intros e Hstatus Htext He.
    eexists. split.
    + use_response Hresp.
      apply Z.eqb_neq in Hstatus. rewrite Hstatus, Htext. red_run. rewrite He.
      reflexivity.
    + split; reflexivity.
Qed.

Lemma status_decides_the_outcome_witness :
  exists w,
    run Fixtures.K Fixtures.miss_cache
        (Fixtures.mock_env (Ok (Fixtures.mock_response 500 PNone "Internal Server Error")))
        (Fixtures.hass_with Fixtures.config) Fixtures.times_square []
    = (Ok (PDict [ ("error", PStr "Routes API error: 500") ]), w) /\
    contains "500" "Routes API error: 500" = true /\
    nothing_written (C := Fixtures.miss_cache) [] w.
Proof.
  refine (proj1 (proj2 (status_decides_the_outcome Fixtures.K
                   Fixtures.miss_cache
                   (Fixtures.mock_env (Ok (Fixtures.mock_response 500 PNone "Internal Server Error")))
                   (Fixtures.hass_with Fixtures.config) Fixtures.times_square
                   [] Fixtures.config
                   (Fixtures.expected_body "Times Square, New York" (PStr "DRIVE"))
                   (Fixtures.mock_response 500 PNone "Internal Server Error") _))
                "Internal Server Error" _ _).
  - split; [| split ].
    + repeat split; reflexivity.
    + exists PNone. split; reflexivity.
    + reflexivity.
  - discriminate.
  - reflexivity.
Defined.

(** C7 as stated does not hold for every response with a non-success
    status: the log line of lines 155-157 awaits the body, and when that
    raises (here a payload cut short), the handler answers with its own
    error, whose text does not carry the status code. *)
Lemma unreadable_error_body_hides_the_status :
  fst (run Fixtures.K Fixtures.miss_cache
         (Fixtures.mock_env
            (Ok {| status := 500;
                   json := Ok PNone;
                   text := Raise (Exc "ClientPayloadError"
                                    "Response payload is not completed") |}))
         (Fixtures.hass_with Fixtures.config) Fixtures.times_square [])
  = Ok (PDict [ ("error",
                 PStr "Error getting route: Response payload is not completed") ]) /\
  contains "500" "Error getting route: Response payload is not completed" = false.
Proof. split; reflexivity. Qed.

(** ** Defaults of the route fields (lines 130-132) *)

(** C10, as the code has it.  A first route without ["duration"] is
    read as ["0s"], that is 0 seconds, shown as ["0 minutes"]; one
    without ["distanceMeters"] is read as 0 metres, shown as
    ["0.0 km"].  With a travel mode that is text, the other field
    readable where it is present, and a cache write that returns, the
    invocation that receives such a route with status 200 ends in the
    success mapping with these texts, which is also what it stores.
    The defaults alone do not make a success: with a travel mode that
    is no text, or a cache write that raises an [Exception], the result
    is the handler's error. *)
Theorem missing_route_fields_default
  (K : const) (C : cache_class) (env : environment)
  (hass : HomeAssistant) (tool_input : ToolInput) (st : store C)
  (cfg data route : dict) (rest : list pyval) (body : pyval) (resp : response)
  (Hresp : receives_response K C env hass tool_input st cfg body resp)
  (Hstatus : status resp = 200)
  (Hjson : json resp = Ok (PDict data))
  (Hroutes : lookup "routes" data = Some (PList (PDict route :: rest))) :
  (lookup "duration" route = None ->
   get_method (PDict route) "duration" (PStr "0s") = Ok (PStr "0s") /\
   parse_duration (PDict route) = Ok 0 /\
   forall (mode : string) (metres : pyval) (km : spec_float) (st' : store C),
     travel_mode K cfg = PStr mode ->
     get_method (PDict route) "distanceMeters" (PInt 0) = Ok metres ->
     truediv_int metres 1000 = Ok km ->
     cache_set C st module_name body
       (success_result (destination tool_input) (replace_char "_" " " (lower mode))
          "0 minutes" (distance_text km))
     = (Ok tt, st') ->
     run K C env hass tool_input st
     = (Ok (success_result (destination tool_input) (replace_char "_" " " (lower mode))
              "0 minutes" (distance_text km)),
        {| trace := calls_up_to_write K cfg body
                      (success_result (destination tool_input)
                         (replace_char "_" " " (lower mode)) "0 minutes" (distance_text km));
           cache := st' |})) /\
  (lookup "distanceMeters" route = None ->
   get_method (PDict route) "distanceMeters" (PInt 0) = Ok (PInt 0) /\
   forall (mode : string) (seconds : Z) (st' : store C),
     travel_mode K cfg = PStr mode ->
     parse_duration (PDict route) = Ok seconds ->
     cache_set C st module_name body
       (success_result (destination tool_input) (replace_char "_" " " (lower mode))
          (duration_text seconds) "0.0 km")
     = (Ok tt, st') ->
     run K C env hass tool_input st
     = (Ok (success_result (destination tool_input) (replace_char "_" " " (lower mode))
              (duration_text seconds) "0.0 km"),
        {| trace := calls_up_to_write K cfg body
                      (success_result (destination tool_input)
                         (replace_char "_" " " (lower mode)) (duration_text seconds) "0.0 km");
           cache := st' |})) /\
  (lookup "duration" route = None ->
   lookup "distanceMeters" route = None ->
   (forall (mode : string) (st' : store C),
      travel_mode K cfg = PStr mode ->
      cache_set C st module_name body
        (success_result (destination tool_input) (replace_char "_" " " (lower mode))
           "0 minutes" "0.0 km")
      = (Ok tt, st') ->
      run K C env hass tool_input st
      = (Ok (success_result (destination tool_input) (replace_char "_" " " (lower mode))
               "0 minutes" "0.0 km"),
         {| trace := calls_up_to_write K cfg body
                       (success_result (destination tool_input)
                          (replace_char "_" " " (lower mode)) "0 minutes" "0.0 km");
            cache := st' |})) /\
   (forall (mode : string) (e : exn) (st' : store C),
      travel_mode K cfg = PStr mode ->
      cache_set C st module_name body
        (success_result (destination tool_input) (replace_char "_" " " (lower mode))
           "0 minutes" "0.0 km")
      = (Raise e, st') ->
      isinstance_Exception e = true ->
      fst (run K C env hass tool_input st)
      = Ok (error_result ("Error getting route: " ++ exn_str e))) /\
   ((forall mode : string, travel_mode K cfg <> PStr mode) ->
    fst (run K C env hass tool_input st)
    = Ok (error_result
            ("Error getting route: " ++ repr_str (type_name (travel_mode K cfg))
               ++ " object has no attribute 'lower'")) /\
    nothing_written st (snd (run K C env hass tool_input st)))).
Proof.
  assert (Hlist : get_method (PDict data) "routes" (PList [])
                  = Ok (PList (PDict route :: rest))).
  { cbn [get_method]. rewrite (present_is_returned _ _ _ _ Hroutes). reflexivity. }
  assert (Hdefault_duration :
            lookup "duration" route = None ->
            get_method (PDict route) "duration" (PStr "0s") = Ok (PStr "0s") /\
            parse_duration (PDict route) = Ok 0).
  { intros Hnone.
    assert (Hd : get_method (PDict route) "duration" (PStr "0s") = Ok (PStr "0s")).
    { cbn [get_method]. unfold dict_get. rewrite Hnone. reflexivity. }
    split; [ exact Hd |]. unfold parse_duration. rewrite Hd. reflexivity. }
  assert (Hdefault_distance :
            lookup "distanceMeters" route = None ->
            get_method (PDict route) "distanceMeters" (PInt 0) = Ok (PInt 0)).
  { intros Hnone. cbn [get_method]. unfold dict_get. rewrite Hnone. reflexivity. }
  assert (Hboth :
            lookup "duration" route = None -> lookup "distanceMeters" route = None ->
            forall mode,
              transform (destination tool_input) (PStr mode) (PList (PDict route :: rest))
              = Ok (success_result (destination tool_input)
                      (replace_char "_" " " (lower mode)) "0 minutes" "0.0 km")).
  { intros H1 H2 mode. destruct (Hdefault_duration H1) as (_ & Hp).
    unfold transform. cbn [getitem0]. rewrite Hp, (Hdefault_distance H2). reflexivity. }
  split; [| split ].
  - intros Hnone. destruct (Hdefault_duration Hnone) as (Hd & Hp).
    split; [ exact Hd |]. split; [ exact Hp |].
    intros mode metres km st' Hmode Hmetres Hkm Hset.
    eapply run_success; try eassumption; [ reflexivity |].
    rewrite Hmode. unfold transform. cbn [getitem0]. rewrite Hp, Hmetres, Hkm. reflexivity.
  - intros Hnone. split; [ exact (Hdefault_distance Hnone) |].
    intros mode seconds st' Hmode Hparse Hset.
    eapply run_success; try eassumption; [ reflexivity |].
    rewrite Hmode. unfold transform. cbn [getitem0].
    rewrite Hparse, (Hdefault_distance Hnone). reflexivity.
  - intros H1 H2. split; [| split ].
    + intros mode st' Hmode Hset.
      eapply run_success; try eassumption; [ reflexivity |].
      rewrite Hmode. apply Hboth; assumption.
    + intros mode e st' Hmode Hset He.
      use_response Hresp.
      rewrite Hstatus. cbn [Z.eqb Pos.eqb]. red_run.
      rewrite Hjson, Hlist. cbn [truthy]. red_run.
      rewrite Hmode, (Hboth H1 H2 mode). red_run. rewrite Hset. red_run.
      rewrite He. reflexivity.
    + intros Hmode.
      assert (Hfail : transform (destination tool_input) (travel_mode K cfg)
                        (PList (PDict route :: rest))
                      = Raise (Exc "AttributeError"
                                 (repr_str (type_name (travel_mode K cfg))
                                    ++ " object has no attribute 'lower'"))).
      { destruct (Hdefault_duration H1) as (_ & Hp).
        unfold transform. cbn [getitem0]. rewrite Hp, (Hdefault_distance H2).
        destruct (travel_mode K cfg); try reflexivity.
        exfalso. exact (Hmode _ eq_refl). }
      use_response Hresp.
      rewrite Hstatus. cbn [Z.eqb Pos.eqb]. red_run.
      rewrite Hjson, Hlist. cbn [truthy]. red_run.
      rewrite Hfail. red_run. repeat split.
Qed.

Lemma missing_route_fields_default_witness :
  run Fixtures.K Fixtures.miss_cache
    (Fixtures.mock_env (Ok (Fixtures.mock_response 200
       (PDict [ ("routes", PList [ PDict [] ]) ]) "")))
    (Fixtures.hass_with Fixtures.config) Fixtures.times_square []
  = (Ok (success_result "Times Square, New York" "drive" "0 minutes" "0.0 km"),
     Build_world Fixtures.miss_cache
       (calls_up_to_write Fixtures.K Fixtures.config
          (Fixtures.expected_body "Times Square, New York" (PStr "DRIVE"))
          (success_result "Times Square, New York" "drive" "0 minutes" "0.0 km"))
       [ (module_name,
          Fixtures.expected_body "Times Square, New York" (PStr "DRIVE"),
          success_result "Times Square, New York" "drive" "0 minutes" "0.0 km") ]).
Proof.
  refine (proj1 (proj2 (proj2 (missing_route_fields_default Fixtures.K Fixtures.miss_cache
            (Fixtures.mock_env (Ok (Fixtures.mock_response 200
               (PDict [ ("routes", PList [ PDict [] ]) ]) "")))
            (Fixtures.hass_with Fixtures.config) Fixtures.times_square []
            Fixtures.config [ ("routes", PList [ PDict [] ]) ] [] []
            (Fixtures.expected_body "Times Square, New York" (PStr "DRIVE"))
            (Fixtures.mock_response 200 (PDict [ ("routes", PList [ PDict [] ]) ]) "")
            _ eq_refl eq_refl eq_refl)) eq_refl eq_refl)
            "DRIVE" _ eq_refl eq_refl).
  split; [ repeat split; reflexivity |]. split; [| reflexivity ].
  exists PNone. split; reflexivity.
Defined.

(** C10 as stated does not hold for every such response.  With neither
    field in the first route, the defaults are taken, and yet the
    invocation ends in an error when the travel mode is no text (here a
    null value in the configuration), and when the cache write raises
    (here SQLite's "database is locked"). *)
Lemma defaults_alone_do_not_make_a_success :
  fst (run Fixtures.K Fixtures.miss_cache
         (Fixtures.mock_env (Ok (Fixtures.mock_response 200
            (PDict [ ("routes", PList [ PDict [] ]) ]) "")))
         (Fixtures.hass_with [ ("google_routes_api_key", PStr "test_routes_key");
                               ("google_routes_latitude", PStr "40.7128");
                               ("google_routes_longitude", PStr "-74.0060");
                               ("google_routes_travel_mode", PNone) ])
         Fixtures.times_square [])
  = Ok (PDict [ ("error",
                 PStr "Error getting route: 'NoneType' object has no attribute 'lower'") ]) /\
  fst (run Fixtures.K
         (Fixtures.mock_cache (Ok PNone)
            (Raise (Exc "OperationalError" "database is locked")))
         (Fixtures.mock_env (Ok (Fixtures.mock_response 200
            (PDict [ ("routes", PList [ PDict [] ]) ]) "")))
         (Fixtures.hass_with Fixtures.config) Fixtures.times_square [])
  = Ok (PDict [ ("error", PStr "Error getting route: database is locked") ]).
Proof. split; reflexivity. Qed.

(** ** Exception containment (lines 79 and 160-162) *)

(** What the body of the [try] statement leaves when it returns. *)
Lemma try_body_returns
  (K : const) (C : cache_class) (env : environment)
  (hass : HomeAssistant) (tool_input : ToolInput) (st : store C)
  (cfg : dict) (v : pyval) (w : world C) :
  config_data K hass = Ok cfg ->
  configured K cfg ->
  try_body K C env (destination tool_input) cfg (initial st) = (Ok v, w) ->
  outcome K C env hass tool_input st (Ok v) w.
Proof.
  intros Hcfg (Hkey & Hlat & Hlng). run_open. intros Hrun.
  split_in Hrun; try discriminate; injection Hrun as <- <-; tidy.
  - eapply CacheHit; [ repeat split; eassumption | eassumption .. ].
  - eapply NoRoute; [ split; [ repeat split; eassumption | split; [ eauto | eassumption ] ]
                    | eassumption .. ].
  - eapply Success; [| eassumption ].
    split; [ split; [ repeat split; eassumption | split; [ eauto | eassumption ] ] |].
    split; [ assumption |]. eauto 10.
  - eapply ApiError; [ split; [ repeat split; eassumption | split; [ eauto | eassumption ] ]
                     | eassumption .. ].
Qed.

(** What the body of the [try] statement has done when it raises: either
    nothing was written, or the exception comes from [cache.set] itself,
    called after a completed transform. *)
Lemma try_body_raises
  (K : const) (C : cache_class) (env : environment)
  (hass : HomeAssistant) (tool_input : ToolInput) (st : store C)
  (cfg : dict) (e : exn) (w : world C) :
  config_data K hass = Ok cfg ->
  configured K cfg ->
  try_body K C env (destination tool_input) cfg (initial st) = (Raise e, w) ->
  nothing_written st w \/
  exists body resp value,
    completes_transform K C env hass tool_input st cfg body resp value /\
    cache_set C st module_name body value = (Raise e, cache w) /\
    trace w = [ GetClientSession; NewCache; CacheGet module_name body;
                HttpPost endpoint body (request_headers (api_key K cfg));
                ReadJson; CacheSet module_name body value ].
Proof.
  intros Hcfg (Hkey & Hlat & Hlng). run_open. intros Hrun.
  split_in Hrun; try discriminate; injection Hrun as <- <-; tidy;
    try (left; split; reflexivity).
  right. do 3 eexists. split; [| split; [ eassumption | reflexivity ] ].
  split; [ split; [ repeat split; eassumption | split; [ eauto | eassumption ] ] |].
  split; [ assumption |]. eauto 10.
Qed.

(** Every invocation ends in one of the terminal states. *)
Lemma run_outcome
  (K : const) (C : cache_class) (env : environment)
  (hass : HomeAssistant) (tool_input : ToolInput) (st : store C) :
  outcome K C env hass tool_input st
    (fst (run K C env hass tool_input st)) (snd (run K C env hass tool_input st)).
Proof.
  unfold run, async_call, bind, lift.
  destruct (config_data K hass) as [cfg | e] eqn:Hcfg; cbn [fst snd].
  2: { apply ConfigLookupRaises. exact Hcfg. }
  destruct (truthy (api_key K cfg)) eqn:Hkey; cbn [negb].
  2: { eapply MissingKey; eassumption. }
  destruct (truthy (latitude K cfg)) eqn:Hlat; cbn [negb orb].
  2: { eapply MissingOrigin; eauto. }
  destruct (truthy (longitude K cfg)) eqn:Hlng; cbn [negb orb].
  2: { eapply MissingOrigin; eauto. }
  unfold try_except.
  destruct (try_body K C env (destination tool_input) cfg {| trace := []; cache := st |})
    as [[v | e] w] eqn:Hbody.
  - eapply try_body_returns; [ eassumption | repeat split; assumption | exact Hbody ].
  - destruct (isinstance_Exception e) eqn:He.
    + unfold handler, bind, emit, ret. cbn [fst snd trace cache].
      eapply Caught; [ eassumption | repeat split; assumption | exact Hbody | exact He ].
    + eapply Propagated; [ eassumption | repeat split; assumption | exact Hbody | exact He ].
Qed.

Lemma no_set_not_in (t : list event) :
  existsb is_cache_set t = false ->
  forall ns p v, ~ In (CacheSet ns p v) t.
Proof.
  intros H ns p v Hin.
  assert (X : existsb is_cache_set t = true).
  { apply existsb_exists. exists (CacheSet ns p v). split; [ exact Hin | reflexivity ]. }
  congruence.
Qed.

(** A run that completes the transform calls [cache.set], whatever that
    call does. *)
Lemma run_after_transform
  (K : const) (C : cache_class) (env : environment)
  (hass : HomeAssistant) (tool_input : ToolInput) (st : store C)
  (cfg : dict) (body : pyval) (resp : response) (value : pyval) :
  completes_transform K C env hass tool_input st cfg body resp value ->
  exists tail,
    trace (snd (run K C env hass tool_input st))
    = (calls_up_to_write K cfg body value ++ tail)%list /\
    existsb is_cache_set tail = false.
Proof.
  intros (Hresp & Hstatus & data & routes & Hjson & Hroutes & Hsome & Htransform).
  use_response Hresp.
  rewrite Hstatus. cbn [Z.eqb Pos.eqb]. red_run.
  rewrite Hjson, Hroutes, Hsome. red_run. rewrite Htransform. red_run.
  destruct (cache_set C st module_name body value) as [[[] | e] st'].
  - exists []. split; reflexivity.
  - destruct (isinstance_Exception e).
    + eexists [ _ ]. split; reflexivity.
    + exists []. split; reflexivity.
Qed.

(** Either a run writes nothing, or it has completed the transform and
    then called [cache.set] once, with the payload of the lookup; an
    error result after that call comes from [cache.set] raising. *)
Lemma written_or_not
  (K : const) (C : cache_class) (env : environment)
  (hass : HomeAssistant) (tool_input : ToolInput) (st : store C) :
  nothing_written st (snd (run K C env hass tool_input st)) \/
  exists cfg body resp value,
    completes_transform K C env hass tool_input st cfg body resp value /\
    ((exists st', cache_set C st module_name body value = (Ok tt, st') /\
        run K C env hass tool_input st
        = (Ok value, {| trace := calls_up_to_write K cfg body value; cache := st' |})) \/
     (exists e st', cache_set C st module_name body value = (Raise e, st') /\
        isinstance_Exception e = true /\
        run K C env hass tool_input st
        = (Ok (error_result ("Error getting route: " ++ exn_str e)),
           {| trace := (calls_up_to_write K cfg body value
                          ++ [ LogError ("Routes API error: " ++ exn_str e) ])%list;
              cache := st' |})) \/
     (exists e st', cache_set C st module_name body value = (Raise e, st') /\
        isinstance_Exception e = false /\
        run K C env hass tool_input st
        = (Raise e, {| trace := calls_up_to_write K cfg body value; cache := st' |}))).
Proof.
  pose proof (run_outcome K C env hass tool_input st) as Hout.
  destruct (run K C env hass tool_input st) as [r w]. cbn [fst snd] in *.
  destruct Hout as
    [ e Hcfg | cfg Hcfg Hkey | cfg Hcfg Hkey Horigin | cfg body cached Hpath Hget Hhit
    | cfg body resp data routes Hresp Hstatus Hjson Hroutes Hnone
    | cfg body resp detail Hresp Hstatus Htext
    | cfg body resp value st' Hdone Hset
    | cfg e w Hcfg Hok Hbody He | cfg e w Hcfg Hok Hbody He ];
    try (left; split; reflexivity).
  - right. exists cfg, body, resp, value. split; [ exact Hdone |].
    left. exists st'. split; [ exact Hset | reflexivity ].
  - destruct (try_body_raises K C env hass tool_input st cfg e w Hcfg Hok Hbody)
      as [[Hnone Hst] | (body & resp & value & Hdone & Hset & Htrace)].
    + left. split; [| exact Hst ].
      cbn [trace]. rewrite existsb_app, Hnone. reflexivity.
    + right. exists cfg, body, resp, value. split; [ exact Hdone |].
      right; left. exists e, (cache w). repeat split; try assumption.
      cbn [trace cache]. rewrite Htrace. reflexivity.
  - destruct (try_body_raises K C env hass tool_input st cfg e w Hcfg Hok Hbody)
      as [Hnone | (body & resp & value & Hdone & Hset & Htrace)].
    + left. exact Hnone.
    + right. exists cfg, body, resp, value. split; [ exact Hdone |].
      right; right. exists e, (cache w). repeat split; try assumption.
      destruct w as [t c]. cbn [trace cache] in *. rewrite Htrace. reflexivity.
Qed.

(** C1, as the code has it.  The configuration lookup of lines 59-61
    stands before the [try] statement, and the handler is for
    [Exception] only.  So: when the configuration can be read, the call
    returns a value unless a failure that is no [Exception] (a
    cancellation, say) is raised, which it lets through; the value
    returned is a success mapping, a ["result"] mapping, an ["error"]
    mapping, or the value of a cache hit as the cache gave it; and an
    [Exception] raised inside the [try] statement becomes the error
    result that carries its text.  What the call raises is a failure
    of the body of the [try] statement that is no [Exception], and
    every such failure is raised to the invoker, with the world the
    body left. *)
Theorem failures_inside_the_try_are_contained
  (K : const) (C : cache_class) (env : environment)
  (hass : HomeAssistant) (tool_input : ToolInput) (st : store C) (cfg : dict)
  (Hcfg : config_data K hass = Ok cfg) :
  match fst (run K C env hass tool_input st) with
  | Ok v =>
      structured v \/
      exists body, cache_get C st module_name body = Ok v /\ truthy v = true
  | Raise e =>
      isinstance_Exception e = false /\
      configured K cfg /\
      try_body K C env (destination tool_input) cfg (initial st)
      = (Raise e, snd (run K C env hass tool_input st))
  end /\
  (forall (e : exn) (w : world C),
     configured K cfg ->
     try_body K C env (destination tool_input) cfg (initial st) = (Raise e, w) ->
     isinstance_Exception e = true ->
     fst (run K C env hass tool_input st)
     = Ok (PDict [ ("error", PStr ("Error getting route: " ++ exn_str e)) ]) /\
     contains (exn_str e) ("Error getting route: " ++ exn_str e) = true) /\
  (forall (e : exn) (w : world C),
     configured K cfg ->
     try_body K C env (destination tool_input) cfg (initial st) = (Raise e, w) ->
     isinstance_Exception e = false ->
     run K C env hass tool_input st = (Raise e, w)).
Proof.
  split; [| split ].
  - pose proof (run_outcome K C env hass tool_input st) as Hout.
    destruct (run K C env hass tool_input st) as [r w]. cbn [fst snd] in *.
    destruct Hout as
      [ e Hcfg' | cfg' Hcfg' Hkey | cfg' Hcfg' Hkey Horigin
      | cfg' body cached Hpath Hget Hhit
      | cfg' body resp data routes Hresp Hstatus Hjson Hroutes Hnone
      | cfg' body resp detail Hresp Hstatus Htext
      | cfg' body resp value st' Hdone Hset
      | cfg' e w Hcfg' Hok Hbody He | cfg' e w Hcfg' Hok Hbody He ].
    + congruence.
    + left. right; right. eexists. reflexivity.
    + left. right; right. eexists. reflexivity.
    + right. exists body. split; assumption.
    + left. right; left. eexists. reflexivity.
    + left. right; right. eexists. reflexivity.
    + left. left.
      destruct Hdone as (_ & _ & data & routes & _ & _ & _ & Htransform).
      exact (transform_shape _ _ _ _ Htransform).
    + left. right; right. eexists. reflexivity.
    + assert (cfg' = cfg) by congruence. subst cfg'.
      split; [ exact He |]. split; [ exact Hok | exact Hbody ].
  - intros e w (Hkey & Hlat & Hlng) Hbody He. split.
    + unfold run, async_call, bind, lift, try_except.
      rewrite Hcfg, Hkey. cbn [negb]. rewrite Hlat, Hlng. cbn [negb orb].
      unfold initial in Hbody. rewrite Hbody, He. reflexivity.
    + apply contains_suffix.
  - intros e w (Hkey & Hlat & Hlng) Hbody He.
    unfold run, async_call, bind, lift, try_except.
    rewrite Hcfg, Hkey. cbn [negb]. rewrite Hlat, Hlng. cbn [negb orb].
    unfold initial in Hbody. rewrite Hbody, He. reflexivity.
Qed.

Lemma failures_inside_the_try_are_contained_witness :
  fst (run Fixtures.K Fixtures.miss_cache
         (Fixtures.mock_env (Raise (Exc "Exception" "Network error")))
         (Fixtures.hass_with Fixtures.config) Fixtures.times_square [])
  = Ok (PDict [ ("error", PStr "Error getting route: Network error") ]) /\
  contains "Network error" "Error getting route: Network error" = true.
Proof.
  refine (proj1 (proj2 (failures_inside_the_try_are_contained Fixtures.K Fixtures.miss_cache
                   (Fixtures.mock_env (Raise (Exc "Exception" "Network error")))
                   (Fixtures.hass_with Fixtures.config) Fixtures.times_square
                   [] Fixtures.config _))
                (Exc "Exception" "Network error")
                (Build_world Fixtures.miss_cache
                   [ GetClientSession; NewCache;
                     CacheGet module_name
                       (Fixtures.expected_body "Times Square, New York" (PStr "DRIVE"));
                     HttpPost endpoint
                       (Fixtures.expected_body "Times Square, New York" (PStr "DRIVE"))
                       (request_headers (PStr "test_routes_key")) ]
                   [])
                _ _ _).
  - reflexivity.
  - repeat split; reflexivity.
  - reflexivity.
  - reflexivity.
Defined.

(** C1 as stated does not hold.  With [hass.data] lacking the domain's
    entry, line 59 raises [KeyError] before the [try] statement is
    entered, and the invoker gets the exception.  With the request
    cancelled while it is awaited, [CancelledError] is raised inside
    the [try] statement and is no [Exception]: the handler lets it
    through. *)
Lemma failures_outside_the_handler_propagate :
  fst (run Fixtures.K Fixtures.miss_cache
         (Fixtures.mock_env (Ok (Fixtures.mock_response 200
                                   (Fixtures.one_route "1200s" 5000) "")))
         Fixtures.hass_empty Fixtures.times_square [])
  = Raise (Exc "KeyError" "'llm_intents'") /\
  fst (run Fixtures.K Fixtures.miss_cache
         (Fixtures.mock_env (Raise (BaseExc "CancelledError" "")))
         (Fixtures.hass_with Fixtures.config) Fixtures.times_square [])
  = Raise (BaseExc "CancelledError" "").
Proof. split; reflexivity. Qed.

(** ** Cache write (line 152) *)

(** C2, as the code has it.  [cache.set] is called exactly in the runs
    that complete the transform (status 200, a route candidate, and a
    transform that raises nothing); it is called once, under the
    namespace and payload of the earlier [cache.get].  A no-route
    result, a status error, and any run that does not complete the
    transform leave no call to [cache.set] and the store as it was. *)
Theorem cache_is_written_exactly_after_the_transform
  (K : const) (C : cache_class) (env : environment)
  (hass : HomeAssistant) (tool_input : ToolInput) (st : store C) :
  ((exists ns p v, In (CacheSet ns p v) (trace (snd (run K C env hass tool_input st))))
   <->
   (exists cfg body resp value,
      completes_transform K C env hass tool_input st cfg body resp value)) /\
  (forall ns p v,
     In (CacheSet ns p v) (trace (snd (run K C env hass tool_input st))) ->
     ns = module_name /\
     exists headers tail,
       trace (snd (run K C env hass tool_input st))
       = ([ GetClientSession; NewCache; CacheGet ns p;
            HttpPost endpoint p headers; ReadJson; CacheSet ns p v ] ++ tail)%list /\
       existsb is_cache_set tail = false) /\
  (fst (run K C env hass tool_input st) = Ok no_route_result ->
   nothing_written st (snd (run K C env hass tool_input st))) /\
  (forall code,
     fst (run K C env hass tool_input st)
     = Ok (error_result ("Routes API error: " ++ code)) ->
     nothing_written st (snd (run K C env hass tool_input st))) /\
  ((~ exists cfg body resp value,
        completes_transform K C env hass tool_input st cfg body resp value) ->
   nothing_written st (snd (run K C env hass tool_input st))).
Proof.
  pose proof (written_or_not K C env hass tool_input st) as Hw.
  split; [| split; [| split; [| split ] ] ].
  - split.
    + intros (ns & p & v & Hin).
      destruct Hw as [[Hnone _] | (cfg & body & resp & value & Hdone & _)].
      * exfalso. exact (no_set_not_in _ Hnone _ _ _ Hin).
      * eauto.
    + intros (cfg & body & resp & value & Hdone).
      destruct (run_after_transform _ _ _ _ _ _ _ _ _ _ Hdone) as (tail & -> & _).
      exists module_name, body, value. cbn. tauto.
  - intros ns p v Hin.
    destruct Hw as [[Hnone _] | (cfg & body & resp & value & Hdone & Hcase)].
    { exfalso. exact (no_set_not_in _ Hnone _ _ _ Hin). }
    assert (Hshape : exists tail,
               trace (snd (run K C env hass tool_input st))
               = (calls_up_to_write K cfg body value ++ tail)%list /\
               existsb is_cache_set tail = false).
    { destruct Hcase as [(st' & _ & ->) | [(e & st' & _ & _ & ->) | (e & st' & _ & _ & ->)]];
        cbn [snd trace].
      - exists []. split; reflexivity.
      - eexists. split; reflexivity.
      - exists []. split; reflexivity. }
    destruct Hshape as (tail & Htrace & Htail).
    rewrite Htrace in Hin |- *.
    apply in_app_or in Hin. destruct Hin as [Hin | Hin].
    + cbn in Hin.
      destruct Hin as [H | [H | [H | [H | [H | [H | []]]]]]]; try discriminate.
      injection H as <- <- <-. split; [ reflexivity |].
      exists (request_headers (api_key K cfg)), tail. split; [ reflexivity | exact Htail ].
    + exfalso. exact (no_set_not_in _ Htail _ _ _ Hin).
  - intros Hr.
    destruct Hw as [Hnone | (cfg & body & resp & value & Hdone & Hcase)]; [ exact Hnone |].
    exfalso.
    destruct Hcase as [(st' & _ & E) | [(e & st' & _ & _ & E) | (e & st' & _ & _ & E)]];
      rewrite E in Hr; cbn [fst] in Hr; try discriminate.
    destruct Hdone as (_ & _ & data & routes & _ & _ & _ & Htransform).
    destruct (transform_shape _ _ _ _ Htransform) as (d & m & du & di & ->).
    discriminate.
  - intros code Hr.
    destruct Hw as [Hnone | (cfg & body & resp & value & Hdone & Hcase)]; [ exact Hnone |].
    exfalso.
    destruct Hcase as [(st' & _ & E) | [(e & st' & _ & _ & E) | (e & st' & _ & _ & E)]];
      rewrite E in Hr; cbn [fst] in Hr; try discriminate.
    destruct Hdone as (_ & _ & data & routes & _ & _ & _ & Htransform).
    destruct (transform_shape _ _ _ _ Htransform) as (d & m & du & di & ->).
    discriminate.
  - intros Hnot.
    destruct Hw as [Hnone | (cfg & body & resp & value & Hdone & _)]; [ exact Hnone |].
    exfalso. apply Hnot. eauto.
Qed.

(** C2 as stated does not hold.  When [cache.set] itself raises (here
    SQLite's "database is locked"), the exception is caught and an error
    result returned, yet [cache.set] has been called.  And a status-200
    response with a route candidate does not always reach the write: a
    duration with a fractional part makes [int] raise, and the run ends
    in the handler with no call to [cache.set]. *)
Lemma caught_exception_after_cache_set :
  (fst (run Fixtures.K
          (Fixtures.mock_cache (Ok PNone)
             (Raise (Exc "OperationalError" "database is locked")))
          (Fixtures.mock_env (Ok (Fixtures.mock_response 200
                                    (Fixtures.one_route "1200s" 5000) "")))
          (Fixtures.hass_with Fixtures.config) Fixtures.times_square [])
   = Ok (PDict [ ("error", PStr "Error getting route: database is locked") ]) /\
   existsb is_cache_set
     (trace (snd (run Fixtures.K
          (Fixtures.mock_cache (Ok PNone)
             (Raise (Exc "OperationalError" "database is locked")))
          (Fixtures.mock_env (Ok (Fixtures.mock_response 200
                                    (Fixtures.one_route "1200s" 5000) "")))
          (Fixtures.hass_with Fixtures.config) Fixtures.times_square [])))
   = true) /\
  (fst (run Fixtures.K Fixtures.miss_cache
          (Fixtures.mock_env (Ok (Fixtures.mock_response 200
                                    (Fixtures.one_route "3.5s" 5000) "")))
          (Fixtures.hass_with Fixtures.config) Fixtures.times_square [])
   = Ok (PDict [ ("error",
                  PStr "Error getting route: invalid literal for int() with base 10: '3.5'") ]) /\
   existsb is_cache_set
     (trace (snd (run Fixtures.K Fixtures.miss_cache
          (Fixtures.mock_env (Ok (Fixtures.mock_response 200
                                    (Fixtures.one_route "3.5s" 5000) "")))
          (Fixtures.hass_with Fixtures.config) Fixtures.times_square [])))
   = false).
Proof. repeat split; reflexivity. Qed.

(** ** Duration (lines 131, 135-136, 139-142) *)

Lemma digit_is_plain (c : ascii) :
  is_digit c = true ->
  is_s c = false /\ is_space c = false /\ Ascii.eqb c "_" = false /\
  (forall t, split_sign (String c t) = (false, String c t)) /\
  0 <= digit_val c <= 9.
Proof.
  destruct c as [[] [] [] [] [] [] [] []]; cbn; intros H; try discriminate H;
    repeat split; intros; try reflexivity; try discriminate; lia.
Qed.

Lemma rstrip_keeps (f : ascii -> bool) (s : string) (c : ascii) :
  f c = false -> rstrip f (s ++ String c EmptyString) = s ++ String c EmptyString.
Proof.
  intros Hc. induction s as [| a s IH]; cbn [append rstrip].
  - rewrite Hc. reflexivity.
  - rewrite IH. destruct s; reflexivity.
Qed.

Lemma rstrip_unit_marker (ds : string) :
  all_digits ds = true -> ds <> "" -> rstrip is_s (ds ++ "s") = ds.
Proof.
  induction ds as [| c t IH]; [ congruence |].
  cbn [all_digits]. intros H _. apply andb_prop in H. destruct H as [Hc Ht].
  destruct (digit_is_plain c Hc) as (Hs & _).
  cbn [append rstrip].
  destruct t as [| c' t'].
  - cbn. rewrite Hs. reflexivity.
  - rewrite (IH Ht ltac:(discriminate)). reflexivity.
Qed.

Lemma rstrip_no_space (ds : string) :
  all_digits ds = true -> rstrip is_space ds = ds.
Proof.
  induction ds as [| c t IH]; [ reflexivity |].
  cbn [all_digits]. intros H. apply andb_prop in H. destruct H as [Hc Ht].
  destruct (digit_is_plain c Hc) as (_ & Hsp & _).
  cbn [rstrip]. rewrite (IH Ht). destruct t; [ rewrite Hsp |]; reflexivity.
Qed.

Lemma strip_digits (ds : string) : all_digits ds = true -> strip ds = ds.
Proof.
  intros H. unfold strip.
  destruct ds as [| c t]; [ reflexivity |].
  assert (Hc : is_digit c = true) by (cbn in H; apply andb_prop in H; tauto).
  destruct (digit_is_plain c Hc) as (_ & Hsp & _).
  cbn [lstrip]. rewrite Hsp. apply rstrip_no_space. exact H.
Qed.

Lemma digits_reads_all (ds : string) :
  all_digits ds = true ->
  forall acc count after,
    (ds = "" -> after = true) ->
    digits acc count after ds
    = Some (acc * 10 ^ Z.of_nat (String.length ds) + decimal_value ds,
            (count + String.length ds)%nat, "").
Proof.
  induction ds as [| c t IH]; intros H acc count after Hafter.
  - rewrite (Hafter eq_refl).
    cbn [digits String.length decimal_value Z.of_nat].
    rewrite Z.pow_0_r, Z.mul_1_r, Z.add_0_r, Nat.add_0_r. reflexivity.
  - cbn [all_digits] in H. apply andb_prop in H. destruct H as [Hc Ht].
    cbn [digits]. rewrite Hc.
    rewrite (IH Ht _ _ true (fun _ => eq_refl)).
    cbn [String.length decimal_value].
    rewrite Nat2Z.inj_succ, Z.pow_succ_r by lia.
    replace (count + S (String.length t))%nat with (S count + String.length t)%nat by lia.
    do 3 f_equal. ring.
Qed.

(** A count within the limit on the number of digits. *)
Lemma within_limit (count : nat) :
  (count <= 4300)%nat -> (int_max_str_digits <? Z.of_nat count) = false.
Proof. intros H. apply Z.ltb_ge. unfold int_max_str_digits. lia. Qed.

Lemma int_of_digits (ds : string) :
  all_digits ds = true -> ds <> "" -> (String.length ds <= 4300)%nat ->
  int_of_str ds = Ok (decimal_value ds).
Proof.
  intros H Hne Hlen. unfold int_of_str. rewrite (strip_digits ds H).
  destruct ds as [| c t]; [ congruence |].
  assert (Hc : is_digit c = true) by (cbn in H; apply andb_prop in H; tauto).
  destruct (digit_is_plain c Hc) as (_ & _ & _ & Hsign & _).
  rewrite Hsign.
  rewrite (digits_reads_all _ H 0 0%nat false ltac:(discriminate)).
  rewrite Nat.add_0_l, (within_limit _ Hlen).
  rewrite Z.mul_0_l. reflexivity.
Qed.

Lemma decimal_value_nonneg (ds : string) : all_digits ds = true -> 0 <= decimal_value ds.
Proof.
  induction ds as [| c t IH]; cbn [all_digits decimal_value]; [ lia |].
  intros H. apply andb_prop in H. destruct H as [Hc Ht].
  destruct (digit_is_plain c Hc) as (_ & _ & _ & _ & Hv).
  specialize (IH Ht).
  assert (0 <= 10 ^ Z.of_nat (String.length t)) by (apply Z.pow_nonneg; lia).
  nia.
Qed.

Lemma duration_text_as_described (seconds : Z) :
  0 <= seconds -> duration_text seconds = described_duration seconds.
Proof.
  intros H. unfold duration_text, described_duration, count_text, unit_text.
  assert (Hh : 0 <= seconds / 3600) by (apply Z.div_pos; lia).
  replace (seconds - 3600 * (seconds / 3600)) with (seconds mod 3600)
    by (rewrite Z.mod_eq by lia; ring).
  destruct (Z.eqb_spec (seconds / 3600) 0) as [E | E].
  - rewrite E. cbn [Z.ltb Z.compare]. destruct (_ =? 1); reflexivity.
  - assert (Hpos : (0 <? seconds / 3600) = true) by (apply Z.ltb_lt; lia).
    rewrite Hpos.
    destruct (seconds / 3600 =? 1), ((seconds mod 3600) / 60 =? 1); reflexivity.
Qed.

(** C6, as the code has it.  A duration field made of decimal digits,
    at most 4300 of them (the limit [int] puts on the digits of a
    conversion), and the unit marker ["s"] is read as the integer the
    digits denote; the text built from it has the hours and minutes of
    that many seconds, each unit pluralised on its own with the singular
    at exactly 1, and no hour segment when the hours are zero.  1200
    seconds give ["20 minutes"], 7200 seconds ["2 hours 0 minutes"],
    0 seconds ["0 minutes"]. *)
Theorem duration_is_parsed_and_formatted
  (ds : string) (route : dict)
  (Hdigits : all_digits ds = true)
  (Hsome : ds <> "")
  (Hlimit : (String.length ds <= 4300)%nat)
  (Hfield : lookup "duration" route = Some (PStr (ds ++ "s"))) :
  parse_duration (PDict route) = Ok (decimal_value ds) /\
  duration_text (decimal_value ds) = described_duration (decimal_value ds) /\
  (parse_duration (PDict [ ("duration", PStr "1200s") ]) = Ok 1200 /\
   duration_text 1200 = "20 minutes") /\
  (parse_duration (PDict [ ("duration", PStr "7200s") ]) = Ok 7200 /\
   duration_text 7200 = "2 hours 0 minutes") /\
  (parse_duration (PDict [ ("duration", PStr "0s") ]) = Ok 0 /\
   duration_text 0 = "0 minutes") /\
  duration_text 3660 = "1 hour 1 minute" /\
  duration_text 3599 = "59 minutes".
Proof.
  split; [| split; [| repeat split ] ].
  - unfold parse_duration. cbn [get_method].
    rewrite (present_is_returned _ _ _ _ Hfield).
    fold is_s. rewrite (rstrip_unit_marker ds Hdigits Hsome).
    apply int_of_digits; assumption.
  - apply duration_text_as_described, decimal_value_nonneg, Hdigits.
Qed.

Lemma duration_is_parsed_and_formatted_witness :
  parse_duration (PDict [ ("duration", PStr "4521s"); ("distanceMeters", PInt 5000) ])
  = Ok 4521 /\
  duration_text 4521 = described_duration 4521.
Proof.
  assert (Hsome : "4521" <> "") by discriminate.
  assert (Hlimit : (String.length "4521" <= 4300)%nat) by (cbn; lia).
  destruct (duration_is_parsed_and_formatted "4521"
              [ ("duration", PStr "4521s"); ("distanceMeters", PInt 5000) ]
              eq_refl Hsome Hlimit eq_refl) as (Hparse & Htext & _).
  split; [ exact Hparse | exact Htext ].
Defined.

(** C6 as stated does not hold for every string of digits.  [int]
    refuses a text of more than 4300 digits: a count of 4301 digits is
    not parsed, line 131 raises [ValueError], and the invocation
    returns the handler's error. *)
Lemma count_beyond_the_digit_limit_is_not_parsed :
  all_digits Fixtures.long_count = true /\
  String.length Fixtures.long_count = 4301%nat /\
  parse_duration (PDict [ ("duration", PStr (Fixtures.long_count ++ "s")) ])
  = Raise (Exc "ValueError"
             "Exceeds the limit (4300 digits) for integer string conversion: value has 4301 digits; use sys.set_int_max_str_digits() to increase the limit") /\
  fst (run Fixtures.K Fixtures.miss_cache
         (Fixtures.mock_env (Ok (Fixtures.mock_response 200
            (Fixtures.one_route (Fixtures.long_count ++ "s") 5000) "")))
         (Fixtures.hass_with Fixtures.config) Fixtures.times_square [])
  = Ok (PDict [ ("error",
                 PStr "Error getting route: Exceeds the limit (4300 digits) for integer string conversion: value has 4301 digits; use sys.set_int_max_str_digits() to increase the limit") ]).
Proof. repeat split; vm_compute; reflexivity. Qed.

(** ** Distance (lines 132, 137, 148) *)

Lemma one_digit (d : Z) :
  0 <= d < 10 -> exists c, str_int d = String c "" /\ is_digit c = true.
Proof.
  intros H.
  assert (E : d = 0 \/ d = 1 \/ d = 2 \/ d = 3 \/ d = 4 \/ d = 5 \/ d = 6 \/ d = 7 \/
              d = 8 \/ d = 9) by lia.
  repeat (destruct E as [-> | E]; [ eexists; split; reflexivity |]).
  subst. eexists; split; reflexivity.
Qed.

Lemma round_half_even_nonneg (n d : Z) : 0 <= n -> 0 < d -> 0 <= round_half_even n d.
Proof.
  intros Hn Hd. unfold round_half_even.
  assert (0 <= n / d) by (apply Z.div_pos; lia).
  destruct (2 * (n mod d) ?= d); [ destruct (Z.even (n / d)) | | ]; lia.
Qed.

Lemma tenths_nonneg (m : positive) (e : Z) : 0 <= tenths m e.
Proof.
  unfold tenths. destruct e as [| p | p].
  - cbn. lia.
  - assert (0 < 2 ^ Z.pos p) by (apply Z.pow_pos_nonneg; lia). nia.
  - apply round_half_even_nonneg; lia.
Qed.

Lemma append_assoc (a b c : string) : (a ++ b) ++ c = a ++ (b ++ c).
Proof. induction a as [| x a IH]; cbn [append]; [ reflexivity | now rewrite IH ]. Qed.

(** One digit after the point, whatever the number. *)
Lemma fixed1_shape (neg : bool) (t : Z) :
  0 <= t ->
  exists whole digit,
    fixed1 neg t
    = (if neg then "-" else "") ++ str_int whole ++ "." ++ String digit "" /\
    is_digit digit = true /\ 0 <= whole /\ t = 10 * whole + digit_val digit.
Proof.
  intros Ht. unfold fixed1.
  assert (Hd : 0 <= t mod 10 < 10) by (apply Z.mod_pos_bound; lia).
  destruct (one_digit _ Hd) as (c & Hc & Hdigit).
  exists (t / 10), c. rewrite Hc. repeat split; try assumption.
  - apply Z.div_pos; lia.
  - assert (Hv : digit_val c = t mod 10).
    { assert (E : t mod 10 = 0 \/ t mod 10 = 1 \/ t mod 10 = 2 \/ t mod 10 = 3 \/
                  t mod 10 = 4 \/ t mod 10 = 5 \/ t mod 10 = 6 \/ t mod 10 = 7 \/
                  t mod 10 = 8 \/ t mod 10 = 9) by lia.
      repeat (destruct E as [E | E];
              [ rewrite E in Hc |- *; injection Hc as <-; reflexivity |]).
      rewrite E in Hc |- *; injection Hc as <-; reflexivity. }
    rewrite Hv. apply Z.div_mod. lia.
Qed.

Lemma digits2_pos_bounds (p : positive) :
  2 ^ (Zpos (digits2_pos p) - 1) <= Zpos p < 2 ^ Zpos (digits2_pos p).
Proof.
  induction p as [p IH | p IH |]; cbn [digits2_pos].
  - rewrite Pos2Z.inj_succ.
    replace (Z.succ (Zpos (digits2_pos p)) - 1) with (Z.succ (Zpos (digits2_pos p) - 1)) by lia.
    rewrite !Z.pow_succ_r by lia. lia.
  - rewrite Pos2Z.inj_succ.
    replace (Z.succ (Zpos (digits2_pos p)) - 1) with (Z.succ (Zpos (digits2_pos p) - 1)) by lia.
    rewrite !Z.pow_succ_r by lia. lia.
  - cbn. lia.
Qed.

Lemma digits2_pos_unique (p : positive) (n : Z) :
  2 ^ (n - 1) <= Zpos p < 2 ^ n -> Zpos (digits2_pos p) = n.
Proof.
  intros [Hlo Hhi].
  pose proof (digits2_pos_bounds p) as [Blo Bhi].
  assert (Hn : 0 < n).
  { destruct (Z.ltb_spec 0 n) as [|Hle]; [ assumption |].
    exfalso. destruct (Z.eq_dec n 0) as [-> | Hneq]; [ cbn in Hhi; lia |].
    rewrite (Z.pow_neg_r 2 n) in Hhi by lia. lia. }
  assert (H1 : n - 1 < Zpos (digits2_pos p)).
  { apply (Z.pow_lt_mono_r_iff 2); lia. }
  assert (H2 : Zpos (digits2_pos p) - 1 < n).
  { apply (Z.pow_lt_mono_r_iff 2); lia. }
  lia.
Qed.

Lemma shr_m_shr_1 (p : positive) (r s : bool) :
  shr_m (shr_1 {| shr_m := Zpos p; shr_r := r; shr_s := s |}) = Zpos p / 2.
Proof.
  destruct p as [p | p |]; cbn [shr_1 shr_m].
  - rewrite Pos2Z.inj_xI. apply Z.div_unique with (r := 1); lia.
  - rewrite Pos2Z.inj_xO. apply Z.div_unique with (r := 0); lia.
  - reflexivity.
Qed.

Lemma shr_m_of_loc (m : Z) (l : location) : shr_m (shr_record_of_loc m l) = m.
Proof. destruct l as [| []]; reflexivity. Qed.

Lemma round_nearest_even_bounds (m : Z) (l : location) :
  m <= round_nearest_even m l <= m + 1.
Proof.
  unfold round_nearest_even. destruct l as [| []]; try lia.
  destruct (Z.even m); lia.
Qed.

(** On a mantissa of 53 or 54 bits, [shr_fexp] shifts by at most one bit. *)
Lemma shr_fexp_one_step (p : positive) (e : Z) (l : location) :
  2 ^ 52 <= Zpos p < 2 ^ 54 -> -1000 <= e <= 900 ->
  exists mrs n,
    shr_fexp prec emax (Zpos p) e l = (mrs, e + n) /\
    ((n = 0 /\ shr_m mrs = Zpos p /\ Zpos p < 2 ^ 53) \/
     (n = 1 /\ shr_m mrs = Zpos p / 2 /\ 2 ^ 53 <= Zpos p)).
Proof.
  intros Hp He.
  unfold shr_fexp, fexp, SpecFloat.emin, prec, emax. cbn [Zdigits2].
  destruct (Z.ltb_spec (Zpos p) (2 ^ 53)) as [Hlt | Hge].
  - rewrite (digits2_pos_unique p 53) by (cbn; lia).
    replace (Z.max (53 + e - 53) (3 - 1024 - 53) - e) with 0 by lia.
    cbn [shr]. exists (shr_record_of_loc (Zpos p) l), 0.
    rewrite shr_m_of_loc, Z.add_0_r. split; [ reflexivity |]. left. auto.
  - rewrite (digits2_pos_unique p 54) by (cbn; lia).
    replace (Z.max (54 + e - 53) (3 - 1024 - 53) - e) with 1 by lia.
    cbn [shr iter_pos].
    exists (shr_1 (shr_record_of_loc (Zpos p) l)), 1.
    split; [ reflexivity |]. right. repeat split; try assumption.
    destruct l as [| []]; apply shr_m_shr_1.
Qed.

(** Rounding a quotient of 53 or 54 bits: the result is a finite double
    whose mantissa, put back on the exponent of the quotient, is within
    [2 ^ N] of it, [N <= 2] being the number of bits shifted out. *)
Lemma binary_round_aux_near (q : positive) (e : Z) (l : location) :
  2 ^ 52 <= Zpos q < 2 ^ 54 -> -1000 <= e <= 800 ->
  exists (m : positive) (N : Z),
    binary_round_aux prec emax false (Zpos q) e l = S754_finite false m (e + N) /\
    0 <= N <= 2 /\
    Zpos q - 2 ^ N < 2 ^ N * Zpos m <= Zpos q + 2 ^ N.
Proof.
  intros Hq He. unfold binary_round_aux.
  destruct (shr_fexp_one_step q e l Hq ltac:(lia)) as (mrs1 & n1 & -> & H1).
  set (mx := round_nearest_even (shr_m mrs1) (loc_of_shr_record mrs1)).
  pose proof (round_nearest_even_bounds (shr_m mrs1) (loc_of_shr_record mrs1)) as Hmx.
  fold mx in Hmx.
  assert (Hdiv : 2 * (Zpos q / 2) <= Zpos q < 2 * (Zpos q / 2) + 2).
  { pose proof (Z.div_mod (Zpos q) 2 ltac:(lia)).
    pose proof (Z.mod_pos_bound (Zpos q) 2 ltac:(lia)). lia. }
  assert (Hrange : 2 ^ 52 <= mx < 2 ^ 54 /\ 0 <= n1 <= 1 /\
                   Zpos q - 2 ^ n1 < 2 ^ n1 * mx <= Zpos q + 2 ^ n1).
  { change (2 ^ 52) with 4503599627370496 in *.
    change (2 ^ 53) with 9007199254740992 in *.
    change (2 ^ 54) with 18014398509481984 in *.
    destruct H1 as [(-> & E & Hlt) | (-> & E & Hge)]; rewrite E in Hmx;
      [ change (2 ^ 0) with 1 | change (2 ^ 1) with 2 ]; lia. }
  destruct Hrange as (Hmx_range & Hn1 & Hnear).
  destruct mx as [| px | px] eqn:Emx;
    try (change (2 ^ 52) with 4503599627370496 in Hmx_range; lia).
  destruct (shr_fexp_one_step px (e + n1) loc_Exact Hmx_range ltac:(lia))
    as (mrs2 & n2 & -> & H2).
  assert (Hdiv2 : 2 * (Zpos px / 2) <= Zpos px < 2 * (Zpos px / 2) + 2).
  { pose proof (Z.div_mod (Zpos px) 2 ltac:(lia)).
    pose proof (Z.mod_pos_bound (Zpos px) 2 ltac:(lia)). lia. }
  assert (Hfinal : 0 < shr_m mrs2 /\ 0 <= n2 <= 1 /\
                   Zpos px - 2 ^ n2 < 2 ^ n2 * shr_m mrs2 <= Zpos px).
  { change (2 ^ 52) with 4503599627370496 in *.
    change (2 ^ 53) with 9007199254740992 in *.
    change (2 ^ 54) with 18014398509481984 in *.
    destruct H2 as [(-> & E & Hlt) | (-> & E & Hge)]; rewrite E;
      [ change (2 ^ 0) with 1 | change (2 ^ 1) with 2 ]; lia. }
  destruct Hfinal as (Hpos & Hn2 & Hnear2).
  destruct (shr_m mrs2) as [| m | m] eqn:Em; try lia.
  unfold emax, prec.
  replace (e + n1 + n2 <=? 1024 - 53) with true by (symmetry; apply Z.leb_le; lia).
  exists m, (n1 + n2). rewrite Z.add_assoc. split; [ reflexivity |].
  split; [ lia |].
  rewrite Z.pow_add_r by lia.
  assert (Hc1 : n1 = 0 \/ n1 = 1) by lia.
  assert (Hc2 : n2 = 0 \/ n2 = 1) by lia.
  destruct Hc1 as [-> | ->], Hc2 as [-> | ->];
    change (2 ^ 0) with 1 in *; change (2 ^ 1) with 2 in *; lia.
Qed.

Lemma round_half_even_near (n d : Z) :
  0 < d -> - d <= 2 * (round_half_even n d * d - n) <= d.
Proof.
  intros Hd. unfold round_half_even.
  pose proof (Z.div_mod n d ltac:(lia)) as Hn.
  pose proof (Z.mod_pos_bound n d Hd) as Hr.
  destruct (Z.compare_spec (2 * (n mod d)) d) as [E | E | E];
    [ destruct (Z.even (n / d)) | | ]; nia.
Qed.

(** The double nearest to [m / 1000], for [m] below [2 ^ 50]: a finite
    number [mz * 2 ^ ez] with [ez < 0] that is within two thousandths
    of a unit in the last place of the quotient. *)
Lemma float_of_ratio_1000_near (m : positive) :
  Zpos m < 2 ^ 50 ->
  exists (mz : positive) (k : positive),
    float_of_ratio (Zpos m) 1000 = S754_finite false mz (Zneg k) /\
    2048 <= 2 ^ Zpos k /\
    - 2000 < 1000 * Zpos mz - Zpos m * 2 ^ Zpos k < 2000.
Proof.
  intros Hm.
  pose proof (digits2_pos_bounds m) as [Hlo Hhi].
  set (d := Zpos (digits2_pos m)) in *.
  assert (Hd : 1 <= d <= 50).
  { split; [ unfold d; lia |].
    assert (d - 1 < 50) by (apply (Z.pow_lt_mono_r_iff 2); lia). lia. }
  unfold float_of_ratio, SFdiv, SFdiv_core_binary. cbn [xorb].
  change (Zdigits2 (Zpos m)) with d. change (Zdigits2 1000) with 10.
  unfold fexp, SpecFloat.emin, prec, emax.
  replace (Z.min (Z.max (d + 0 - (10 + 0) - 53) (3 - 1024 - 53)) (0 - 0))
    with (d - 63) by lia.
  replace (0 - 0 - (d - 63)) with (63 - d) by lia.
  destruct (63 - d) as [| s | s] eqn:Es; try lia.
  rewrite Z.shiftl_mul_pow2 by lia.
  assert (Hpow : 2 ^ Zpos s * 2 ^ (d - 1) = 2 ^ 62).
  { rewrite <- Z.pow_add_r by lia. f_equal. lia. }
  assert (Hs13 : 2 ^ 13 <= 2 ^ Zpos s) by (apply Z.pow_le_mono_r; lia).
  change (2 ^ 13) with 8192 in Hs13. change (2 ^ 62) with 4611686018427387904 in Hpow.
  pose proof (Z.div_eucl_eq (Zpos m * 2 ^ Zpos s) 1000 ltac:(lia)) as Hdiv.
  pose proof (Z.mod_pos_bound (Zpos m * 2 ^ Zpos s) 1000 ltac:(lia)) as Hmod.
  unfold Z.modulo in Hmod.
  destruct (Z.div_eucl (Zpos m * 2 ^ Zpos s) 1000) as [q r].
  assert (Hhi' : Zpos m * 2 ^ Zpos s < 2 ^ 63).
  { replace 63 with (Zpos s + d) by lia. rewrite Z.pow_add_r by lia.
    apply Z.mul_lt_mono_pos_l with (p := 2 ^ Zpos s) in Hhi; lia. }
  assert (Hlo' : 2 ^ 62 <= Zpos m * 2 ^ Zpos s) by nia.
  change (2 ^ 63) with 9223372036854775808 in Hhi'.
  change (2 ^ 62) with 4611686018427387904 in Hlo'.
  assert (Hq : 2 ^ 52 <= q < 2 ^ 54).
  { change (2 ^ 52) with 4503599627370496. change (2 ^ 54) with 18014398509481984. lia. }
  destruct q as [| q | q]; try (change (2 ^ 52) with 4503599627370496 in Hq; lia).
  destruct (binary_round_aux_near q (d - 63) (new_location 1000 r) Hq ltac:(lia))
    as (mz & N & Hround & HN & Hnear).
  unfold prec, emax in Hround. rewrite Hround.
  assert (Hk : d - 63 + N < 0) by lia.
  destruct (d - 63 + N) as [| k | k] eqn:Ek; try lia.
  exists mz, k.
  assert (Hsplit : 2 ^ Zpos s = 2 ^ N * 2 ^ Zpos k).
  { rewrite <- Z.pow_add_r by lia. f_equal. lia. }
  assert (Hk11 : 2 ^ 11 <= 2 ^ Zpos k) by (apply Z.pow_le_mono_r; lia).
  change (2 ^ 11) with 2048 in Hk11.
  split; [ reflexivity |]. split; [ exact Hk11 |].
  assert (HN' : N = 0 \/ N = 1 \/ N = 2) by lia.
  destruct HN' as [-> | [-> | ->]];
    [ change (2 ^ 0) with 1 in * | change (2 ^ 1) with 2 in * | change (2 ^ 2) with 4 in * ];
    lia.
Qed.

(** The number of tenths printed for [m] metres is the nearest one. *)
Lemma tenths_of_metres (m : positive) :
  Zpos m < 2 ^ 50 ->
  exists t,
    distance_of (PInt (Zpos m)) = Ok (str_int (t / 10) ++ "." ++ str_int (t mod 10) ++ " km") /\
    - 50 <= 100 * t - Zpos m <= 50.
Proof.
  intros Hm.
  destruct (float_of_ratio_1000_near m Hm) as (mz & k & E & Hk & Hnear).
  unfold distance_of, truediv_int, int_truediv. rewrite E. cbn [is_infinite].
  unfold distance_text. cbn [format_1f].
  exists (tenths mz (Zneg k)). split.
  - unfold fixed1. cbn [append]. rewrite !append_assoc. reflexivity.
  - unfold tenths.
    pose proof (round_half_even_near (10 * Zpos mz) (Zpos (2 ^ k)) ltac:(lia)) as Hr.
    set (t := round_half_even (10 * Zpos mz) (Zpos (2 ^ k))) in *.
    rewrite Pos2Z.inj_pow in Hr.
    set (K := 2 ^ Zpos k) in *.
    assert (Hup : (100 * t - Zpos m) * K < 51 * K) by nia.
    assert (Hdown : - 51 * K < (100 * t - Zpos m) * K) by nia.
    nia.
Qed.

(** The distance text of a route with [metres] metres, through the
    transform. *)
Lemma transform_of_metres
  (dest text : string) (route : dict) (others : list pyval)
  (seconds : Z) (metres : pyval) (shown : string) :
  parse_duration (PDict route) = Ok seconds ->
  lookup "distanceMeters" route = Some metres ->
  distance_of metres = Ok shown ->
  transform dest (PStr text) (PList (PDict route :: others))
  = Ok (success_result dest (replace_char "_" " " (lower text))
          (duration_text seconds) shown).
Proof.
  intros Hparse Hfield Hkm. unfold distance_of in Hkm.
  unfold transform. cbn [getitem0]. rewrite Hparse. cbn [get_method].
  rewrite (present_is_returned _ _ _ _ Hfield).
  destruct (truediv_int metres 1000) as [km |]; [| discriminate ].
  injection Hkm as <-. reflexivity.
Qed.

(** C8, as the code has it.  The transform divides the distance of the
    first route by 1000 and writes the quotient, whenever it is a finite
    number, with exactly one digit after the point, followed by
    [" km"]: 5000 metres give ["5.0 km"] and 100000 metres
    ["100.0 km"], as integers and as floats.  For an integer distance
    below [2 ^ 50] metres the number written is the multiple of a tenth
    of a kilometre nearest to the distance. *)
Theorem distance_is_formatted_to_one_decimal :
  transform "Times Square, New York" (PStr "DRIVE")
    (PList [ PDict [ ("duration", PStr "1200s"); ("distanceMeters", PInt 5000) ] ])
  = Ok (success_result "Times Square, New York" "drive" "20 minutes" "5.0 km") /\
  transform "Boston" (PStr "DRIVE")
    (PList [ PDict [ ("duration", PStr "7200s"); ("distanceMeters", PInt 100000) ] ])
  = Ok (success_result "Boston" "drive" "2 hours 0 minutes" "100.0 km") /\
  transform "Boston" (PStr "DRIVE")
    (PList [ PDict [ ("duration", PStr "7200s");
                     ("distanceMeters", PFloat (float_of_Z 100000)) ] ])
  = Ok (success_result "Boston" "drive" "2 hours 0 minutes" "100.0 km") /\
  transform "Boston" (PStr "DRIVE")
    (PList [ PDict [ ("duration", PStr "7200s");
                     ("distanceMeters", PFloat (float_of_ratio 3001 2)) ] ])
  = Ok (success_result "Boston" "drive" "2 hours 0 minutes" "1.5 km") /\
  transform "Boston" (PStr "DRIVE")
    (PList [ PDict [ ("duration", PStr "7200s"); ("distanceMeters", PInt 0) ] ])
  = Ok (success_result "Boston" "drive" "2 hours 0 minutes" "0.0 km") /\
  (forall (dest : string) (mode routes value : pyval),
     transform dest mode routes = Ok value ->
     exists (route metres : pyval) (km : spec_float) (shown : string) (seconds : Z),
       getitem0 routes = Ok route /\
       get_method route "distanceMeters" (PInt 0) = Ok metres /\
       truediv_int metres 1000 = Ok km /\
       value = success_result dest shown (duration_text seconds) (distance_text km) /\
       (forall neg, km = S754_zero neg ->
          distance_text km = (if neg then "-" else "") ++ "0.0 km") /\
       (forall neg m e, km = S754_finite neg m e ->
          exists whole digit,
            distance_text km
            = (if neg then "-" else "") ++ str_int whole ++ "." ++ String digit "" ++ " km" /\
            is_digit digit = true /\ 0 <= whole)) /\
  (forall (dest text : string) (route : dict) (others : list pyval) (seconds metres : Z),
     parse_duration (PDict route) = Ok seconds ->
     lookup "distanceMeters" route = Some (PInt metres) ->
     0 < metres < 2 ^ 50 ->
     exists tenth_count,
       transform dest (PStr text) (PList (PDict route :: others))
       = Ok (success_result dest (replace_char "_" " " (lower text))
               (duration_text seconds)
               (str_int (tenth_count / 10) ++ "." ++ str_int (tenth_count mod 10) ++ " km")) /\
       - 50 <= 100 * tenth_count - metres <= 50).
Proof.
  do 5 (split; [ vm_compute; reflexivity |]).
  split.
  - intros dest mode routes value. unfold transform.
    destruct (getitem0 routes) as [route |] eqn:E1; [| discriminate ].
    destruct (parse_duration route) as [secs |]; [| discriminate ].
    destruct (get_method route "distanceMeters" (PInt 0)) as [metres |] eqn:E2;
      [| discriminate ].
    destruct (truediv_int metres 1000) as [km |] eqn:E3; [| discriminate ].
    destruct (display_mode mode) as [shown |]; [| discriminate ].
    intros [= <-]. exists route, metres, km, shown, secs.
    split; [ reflexivity |]. split; [ exact E2 |]. split; [ exact E3 |].
    split; [ reflexivity |]. split.
    + intros neg ->. destruct neg; reflexivity.
    + intros neg m e ->.
      destruct (fixed1_shape neg (tenths m e) (tenths_nonneg m e))
        as (whole & digit & E & Hdigit & Hwhole & _).
      exists whole, digit. repeat split; try assumption.
      unfold distance_text. cbn [format_1f]. rewrite E.
      rewrite !append_assoc. reflexivity.
  - intros dest text route others seconds metres Hparse Hfield [Hpos Hlt].
    destruct metres as [| m | m]; try lia.
    destruct (tenths_of_metres m Hlt) as (t & Htext & Hnear).
    exists t. split; [| exact Hnear ].
    exact (transform_of_metres dest text route others seconds _ _ Hparse Hfield Htext).
Qed.

(** C8 as stated does not hold for every distance.  An integer that is
    too large for a double makes the division of line 137 raise
    [OverflowError], and the invocation returns the handler's error; an
    infinite distance (which the JSON decoder accepts) is written as
    ["inf km"], with no decimal. *)
Lemma distance_beyond_a_double_has_no_decimal :
  fst (run Fixtures.K Fixtures.miss_cache
         (Fixtures.mock_env (Ok (Fixtures.mock_response 200
                                   (Fixtures.one_route "1200s" (10 ^ 400)) "")))
         (Fixtures.hass_with Fixtures.config) Fixtures.times_square [])
  = Ok (PDict [ ("error",
                 PStr "Error getting route: integer division result too large for a float") ]) /\
  transform "Times Square, New York" (PStr "DRIVE")
    (PList [ PDict [ ("duration", PStr "1200s");
                     ("distanceMeters", PFloat (S754_infinity false)) ] ])
  = Ok (success_result "Times Square, New York" "drive" "20 minutes" "inf km").
Proof. split; vm_compute; reflexivity. Qed.

(** ** The fingerprint cache *)

Lemma leb_refl (a : string) : String.leb a a = true.
Proof.
  unfold String.leb.
  assert (E : String.compare a a = Eq) by (apply (proj2 (String_as_OT.cmp_eq a a)); reflexivity).
  rewrite E. reflexivity.
Qed.

Lemma leb_trans (a b c : string) :
  String.leb a b = true -> String.leb b c = true -> String.leb a c = true.
Proof.
  intros Hab Hbc. revert Hab Hbc. unfold String.leb at 1 2.
  destruct (String.compare a b) eqn:Eab; try discriminate;
    destruct (String.compare b c) eqn:Ebc; try discriminate; intros _ _;
    try unfold String.leb.
  - apply String.compare_eq_iff in Eab, Ebc. subst.
    apply leb_refl.
  - apply String.compare_eq_iff in Eab. subst. rewrite Ebc. reflexivity.
  - apply String.compare_eq_iff in Ebc. subst. rewrite Eab. reflexivity.
  - assert (E : String.compare a c = Lt).
    { apply (proj2 (String_as_OT.cmp_lt a c)).
      apply (String_as_OT.lt_trans a b c).
      - apply (proj1 (String_as_OT.cmp_lt a b)). exact Eab.
      - apply (proj1 (String_as_OT.cmp_lt b c)). exact Ebc. }
    rewrite E. reflexivity.
Qed.

Lemma insert_item_perm (item : string * pyval) (d : dict) :
  Permutation (insert_item item d) (item :: d).
Proof.
  induction d as [| item' t IH]; cbn [insert_item]; [ reflexivity |].
  destruct (String.leb (fst item) (fst item')); [ reflexivity |].
  rewrite IH. apply perm_swap.
Qed.

Lemma sort_items_perm (d : dict) : Permutation (sort_items d) d.
Proof.
  induction d as [| item t IH]; cbn [sort_items fold_right]; [ reflexivity |].
  rewrite insert_item_perm. apply perm_skip. exact IH.
Qed.

Lemma insert_item_sorted (item : string * pyval) (d : dict) :
  StronglySorted key_le d -> StronglySorted key_le (insert_item item d).
Proof.
  induction 1 as [| item' t Hsorted IH Hall]; cbn [insert_item].
  - repeat constructor.
  - destruct (String.leb (fst item) (fst item')) eqn:E.
    + constructor; [ constructor; assumption |].
      constructor; [ exact E |].
      eapply Forall_impl; [| exact Hall ].
      intros x Hx. unfold key_le in *. eapply leb_trans; eassumption.
    + constructor; [ exact IH |].
      assert (Hle : key_le item' item).
      { unfold key_le. destruct (String.leb_total (fst item) (fst item')); congruence. }
      eapply Permutation_Forall; [ symmetry; apply insert_item_perm |].
      constructor; assumption.
Qed.

Lemma sort_items_sorted (d : dict) : StronglySorted key_le (sort_items d).
Proof.
  induction d as [| item t IH]; cbn [sort_items fold_right]; [ constructor |].
  apply insert_item_sorted. exact IH.
Qed.

(** A key-sorted list with distinct keys is determined by its items. *)
Lemma sorted_items_unique (a b : dict) :
  StronglySorted key_le a -> StronglySorted key_le b ->
  NoDup (map fst a) -> Permutation a b -> a = b.
Proof.
  intros Ha. revert b. induction Ha as [| x ta Hta IH Hx]; intros b Hb Hnd Hperm.
  - apply Permutation_nil in Hperm. congruence.
  - destruct Hb as [| y tb Htb Hy].
    { apply Permutation_sym, Permutation_nil in Hperm. discriminate. }
    assert (Hndb : NoDup (map fst (y :: tb))).
    { eapply Permutation_NoDup; [ apply Permutation_map; exact Hperm | exact Hnd ]. }
    assert (Hxy : x = y).
    { assert (Hin_x : In x (y :: tb)) by (eapply Permutation_in; [ exact Hperm | left; reflexivity ]).
      assert (Hin_y : In y (x :: ta))
        by (eapply Permutation_in; [ symmetry; exact Hperm | left; reflexivity ]).
      destruct Hin_x as [E | Hin_x]; [ congruence |].
      destruct Hin_y as [E | Hin_y]; [ congruence |].
      assert (Hle1 : key_le y x) by (rewrite Forall_forall in Hy; apply Hy; exact Hin_x).
      assert (Hle2 : key_le x y) by (rewrite Forall_forall in Hx; apply Hx; exact Hin_y).
      assert (Hk : fst x = fst y) by (apply String.leb_antisym; assumption).
      exfalso. cbn [map] in Hnd. inversion Hnd as [| ? ? Hnotin _]; subst.
      apply Hnotin. rewrite Hk. apply in_map. exact Hin_y. }
    subst y. f_equal.
    apply IH; [ exact Htb | inversion Hnd; assumption |].
    eapply Permutation_cons_inv. exact Hperm.
Qed.

Lemma sort_items_of_permutation (a b : dict) :
  NoDup (map fst a) -> Permutation a b -> sort_items a = sort_items b.
Proof.
  intros Hnd Hperm.
  apply sorted_items_unique; try apply sort_items_sorted.
  - eapply Permutation_NoDup; [| exact Hnd ].
    apply Permutation_map. symmetry. apply sort_items_perm.
  - rewrite sort_items_perm, Hperm. symmetry. apply sort_items_perm.
Qed.

Lemma keys_canonical_items (d : dict) : map fst (canonical_items d) = map fst d.
Proof. unfold canonical_items. rewrite map_map. reflexivity. Qed.

(** Structural equality keeps a payload well formed and leaves its
    canonical form unchanged. *)
Lemma same_canonical :
  (forall v1 v2, same_payload v1 v2 ->
     well_formed v1 -> well_formed v2 /\ canonical v1 = canonical v2) /\
  (forall l1 l2, same_elements l1 l2 ->
     Forall well_formed l1 ->
     Forall well_formed l2 /\ map canonical l1 = map canonical l2) /\
  (forall d1 d2, same_fields d1 d2 ->
     NoDup (map fst d1) -> Forall (fun kv => well_formed (snd kv)) d1 ->
     NoDup (map fst d2) /\ Forall (fun kv => well_formed (snd kv)) d2 /\
     Permutation (canonical_items d1) (canonical_items d2)).
Proof.
  apply same_mutind.
  - intros H; split; [ exact H | reflexivity ].
  - intros b H; split; [ exact H | reflexivity ].
  - intros z H; split; [ exact H | reflexivity ].
  - intros f H; split; [ exact H | reflexivity ].
  - intros s H; split; [ exact H | reflexivity ].
  - intros l1 l2 _ IH Hwf. inversion Hwf as [| | | | | l Hall |]; subst.
    destruct (IH Hall) as [Hall2 E]. split; [ constructor; exact Hall2 |].
    cbn [canonical]. rewrite E. reflexivity.
  - intros d1 d2 _ IH Hwf. inversion Hwf as [| | | | | | d Hnd Hall]; subst.
    destruct (IH Hnd Hall) as (Hnd2 & Hall2 & Hperm).
    split; [ constructor; assumption |].
    cbn [canonical]. fold (canonical_items d1). fold (canonical_items d2).
    f_equal. apply sort_items_of_permutation; [| exact Hperm ].
    rewrite keys_canonical_items. exact Hnd.
  - intros _. split; [ constructor | reflexivity ].
  - intros v1 v2 l1 l2 _ IHv _ IHl Hwf. inversion Hwf as [| x t Hx Ht]; subst.
    destruct (IHv Hx) as [Hv2 Ev]. destruct (IHl Ht) as [Hl2 El].
    split; [ constructor; assumption |]. cbn [map]. rewrite Ev, El. reflexivity.
  - intros _ _. repeat split; constructor.
  - intros k v1 v2 d1 d2 _ IHv _ IHd Hnd Hwf.
    cbn [map fst] in Hnd. inversion Hnd as [| ? ? Hnotin Hnd1]; subst.
    inversion Hwf as [| ? ? Hv Hrest]; subst. cbn [snd] in Hv.
    destruct (IHv Hv) as [Hv2 Ev]. destruct (IHd Hnd1 Hrest) as (Hnd2 & Hall2 & Hperm).
    assert (Hkeys : Permutation (map fst d1) (map fst d2)).
    { rewrite <- (keys_canonical_items d1), <- (keys_canonical_items d2).
      apply Permutation_map. exact Hperm. }
    split; [| split ].
    + cbn [map fst]. constructor; [| exact Hnd2 ].
      intros Hin. apply Hnotin. eapply Permutation_in; [ symmetry; exact Hkeys | exact Hin ].
    + constructor; assumption.
    + cbn [canonical_items map fst snd]. rewrite Ev. apply perm_skip. exact Hperm.
  - intros k v1 v2 k' v1' v2' d1 d2 _ IHv _ IHv' _ IHd Hnd Hwf.
    cbn [map fst] in Hnd.
    inversion Hnd as [| ? ? Hnotin Hnd']; subst.
    inversion Hnd' as [| ? ? Hnotin' Hnd1]; subst.
    inversion Hwf as [| ? ? Hv Hwf']; subst. inversion Hwf' as [| ? ? Hv' Hrest]; subst.
    cbn [snd] in Hv, Hv'.
    destruct (IHv Hv) as [Hv2 Ev]. destruct (IHv' Hv') as [Hv2' Ev'].
    destruct (IHd Hnd1 Hrest) as (Hnd2 & Hall2 & Hperm).
    assert (Hkeys : Permutation (map fst d1) (map fst d2)).
    { rewrite <- (keys_canonical_items d1), <- (keys_canonical_items d2).
      apply Permutation_map. exact Hperm. }
    split; [| split ].
    + cbn [map fst].
      eapply Permutation_NoDup; [| exact Hnd ].
      rewrite perm_swap. do 2 apply perm_skip. exact Hkeys.
    + repeat constructor; assumption.
    + cbn [canonical_items map fst snd]. rewrite Ev, Ev'.
      rewrite perm_swap. do 2 apply perm_skip. exact Hperm.
  - intros d1 d2 d3 _ IH12 _ IH23 Hnd Hwf.
    destruct (IH12 Hnd Hwf) as (Hnd2 & Hall2 & Hperm12).
    destruct (IH23 Hnd2 Hall2) as (Hnd3 & Hall3 & Hperm23).
    repeat split; try assumption. etransitivity; eassumption.
Qed.

Lemma find_set (digest : string -> pyval -> Z) (t : table) (ns : string) (p v : pyval) :
  find (fingerprint digest ns p) (set digest t ns p v) = Some v.
Proof. unfold set. cbn [find]. rewrite Z.eqb_refl. reflexivity. Qed.

(** C4.  Structurally equal payloads under one namespace have the same
    fingerprint, whatever the order of their fields, so a lookup with
    the second finds the value stored with the first. *)
Theorem equal_payloads_share_a_fingerprint
  (digest : string -> pyval -> Z) (t : table) (namespace : string)
  (payload1 payload2 value : pyval)
  (Hwf : well_formed payload1)
  (Hsame : same_payload payload1 payload2) :
  fingerprint digest namespace payload1 = fingerprint digest namespace payload2 /\
  get digest (set digest t namespace payload1 value) namespace payload2 = value.
Proof.
  assert (E : canonical payload1 = canonical payload2).
  { exact (proj2 (proj1 same_canonical payload1 payload2 Hsame Hwf)). }
  assert (F : fingerprint digest namespace payload1 = fingerprint digest namespace payload2).
  { unfold fingerprint. rewrite E. reflexivity. }
  split; [ exact F |].
  unfold get. rewrite <- F, find_set. reflexivity.
Qed.

Lemma same_payload_refl (v : pyval) : same_payload v v.
Proof.
  induction v as [ | b | z | f | s | l IH | d IH ] using pyval_rect'; try constructor.
  - induction IH as [| x t Hx _ IHt]; constructor; assumption.
  - induction IH as [| [k x] t Hx _ IHt]; constructor; assumption.
Qed.

Lemma same_fields_refl (d : dict) : same_fields d d.
Proof.
  induction d as [| [k v] t IH]; constructor; [ apply same_payload_refl | exact IH ].
Qed.

(** Any reordering of the fields of a mapping is structurally equal to it. *)
Lemma reordered_fields_are_same (d1 d2 : dict) :
  Permutation d1 d2 -> same_payload (PDict d1) (PDict d2).
Proof.
  intros H. constructor.
  induction H as [| [k v] a b _ IH | [k v] [k' v'] a | a b c _ IH1 _ IH2 ].
  - constructor.
  - constructor; [ apply same_payload_refl | exact IH ].
  - apply fields_swap; try apply same_payload_refl. apply same_fields_refl.
  - eapply fields_trans; eassumption.
Qed.

(** The request body of the tool is well formed. *)
Lemma request_body_well_formed (dest : string) (lat lng mode body : pyval) :
  well_formed mode ->
  request_body dest lat lng mode = Ok body -> well_formed body.
Proof.
  intros Hmode. unfold request_body.
  destruct (py_float lat) as [x |]; [| discriminate ].
  destruct (py_float lng) as [y |]; [| discriminate ].
  intros [= <-]. cbv [display merge fold_left setitem fst snd String.eqb Ascii.eqb Bool.eqb].
  repeat first
    [ assumption
    | match goal with
      | |- well_formed _ => constructor
      | |- Forall _ _ => constructor
      | |- NoDup _ => constructor
      | |- ~ In _ _ => cbn; intuition discriminate
      end
    | cbn [snd map fst] ].
Qed.

Lemma equal_payloads_share_a_fingerprint_witness :
  fingerprint Fixtures.toy_digest module_name
    (Fixtures.expected_body "Times Square" (PStr "DRIVE"))
  = fingerprint Fixtures.toy_digest module_name
      (Fixtures.reversed (Fixtures.expected_body "Times Square" (PStr "DRIVE"))) /\
  Fixtures.toy_digest module_name (Fixtures.expected_body "Times Square" (PStr "DRIVE"))
  <> Fixtures.toy_digest module_name
       (Fixtures.reversed (Fixtures.expected_body "Times Square" (PStr "DRIVE"))).
Proof.
  split.
  - refine (proj1 (equal_payloads_share_a_fingerprint _ [] _ _ _ PNone _ _)).
    + apply (request_body_well_formed "Times Square" (PStr "40.7128") (PStr "-74.0060")
               (PStr "DRIVE")); [ constructor | reflexivity ].
    + apply reordered_fields_are_same. apply Permutation_rev.
  - vm_compute. discriminate.
Defined.

(** With the modelled cache in place of the mock: a run that completes
    the transform stores its result, and the same invocation run again
    on the store it left is answered from the cache, with no request. *)
Lemma second_call_is_served_from_the_cache
  (digest : string -> pyval -> Z) (K : const) (env : environment)
  (hass : HomeAssistant) (tool_input : ToolInput) (t : table)
  (cfg : dict) (body : pyval) (resp : response) (value : pyval) :
  completes_transform K (sqlite_cache digest) env hass tool_input t cfg body resp value ->
  exists t' : table,
    run K (sqlite_cache digest) env hass tool_input t
    = (Ok value,
       Build_world (sqlite_cache digest) (calls_up_to_write K cfg body value) t') /\
    run K (sqlite_cache digest) env hass tool_input t'
    = (Ok value,
       Build_world (sqlite_cache digest)
         [ GetClientSession; NewCache; CacheGet module_name body ] t').
Proof.
  intros (Hresp & Hstatus & data & routes & Hjson & Hroutes & Hsome & Htransform).
  exists (set digest t module_name body value). split.
  - eapply run_success; try eassumption. reflexivity.
  - destruct Hresp as (Hpath & _ & _).
    eapply run_hit; [ exact Hpath | | exact (stored_results_are_truthy _ _ _ _ Htransform) ].
    cbn [cache_get sqlite_cache]. unfold get. rewrite find_set. reflexivity.
Qed.

(* ------------------------------------------------------------------ *)
(** * Further properties of the tool *)

(** ** Where a run ends *)

(** Every exception that leaves the body of the [try] statement comes
    from one of its calls. *)
Lemma try_body_failure_point
  (K : const) (C : cache_class) (env : environment)
  (hass : HomeAssistant) (tool_input : ToolInput) (st : store C)
  (cfg : dict) (e : exn) (w : world C) :
  config_data K hass = Ok cfg ->
  configured K cfg ->
  try_body K C env (destination tool_input) cfg (initial st) = (Raise e, w) ->
  failure_point K C env hass tool_input st cfg e w.
Proof.
  intros Hcfg (Hkey & Hlat & Hlng). run_open. intros Hrun.
  split_in Hrun; try discriminate; injection Hrun as <- <-; tidy.
  all: try (eapply SessionRaises; eassumption).
  all: try (eapply RequestBodyRaises; eassumption).
  all: try (eapply CacheObjectRaises; eassumption).
  all: try (eapply LookupRaises; [ repeat split; eassumption | eassumption ]).
  all: try (eapply PostRaises; [ repeat split; eassumption | eassumption .. ]).
  all: try (eapply JsonRaises;
            [ split; [ repeat split; eassumption | split; [ eauto | eassumption ] ]
            | eassumption .. ]).
  all: try (eapply RoutesRaises;
            [ split; [ repeat split; eassumption | split; [ eauto | eassumption ] ]
            | eassumption .. ]).
  all: try (eapply TransformRaises;
            [ split; [ repeat split; eassumption | split; [ eauto | eassumption ] ]
            | eassumption .. ]).
  all: try (eapply TextRaises;
            [ split; [ repeat split; eassumption | split; [ eauto | eassumption ] ]
            | eassumption .. ]).
  eapply CacheSetRaises; [| eassumption ].
  split; [ split; [ repeat split; eassumption | split; [ eauto | eassumption ] ] |].
  split; [ assumption |]. eauto 10.
Qed.

Ltac open_response :=
  repeat match goal with
    | H : completes_transform _ _ _ _ _ _ _ _ _ _ |- _ =>
        destruct H as (? & ? & ? & ? & ? & ? & ? & ?)
    | H : receives_response _ _ _ _ _ _ _ _ _ |- _ => destruct H as (? & (? & ? & ?) & ?)
    end.

Ltac unpack :=
  open_response;
  repeat match goal with
    | H : reaches_lookup _ _ _ _ _ _ |- _ => destruct H as (? & ? & ? & ? & ? & ? & ?)
    | H : configured _ _ |- _ => destruct H as (? & ? & ?)
    end.

(** Case analysis on how the invocation ends: the terminal states, and
    for a run that raises inside the [try] statement, the place. *)
Ltac endings K C env hass tool_input st :=
  let Hout := fresh "Hout" in
  pose proof (run_outcome K C env hass tool_input st) as Hout;
  destruct (run K C env hass tool_input st) as [?r ?w]; cbn [fst snd] in *;
  destruct Hout as
    [ e Hcfg | cfg Hcfg Hkey | cfg Hcfg Hkey Horigin | cfg body cached Hpath Hget Hhit
    | cfg body resp data routes Hresp Hstatus Hjson Hroutes Hnone
    | cfg body resp detail Hresp Hstatus Htext
    | cfg body resp value st' Hdone Hset
    | cfg e w' Hcfg Hok Hbody He | cfg e w' Hcfg Hok Hbody He ];
  [ .. 
  | destruct (try_body_failure_point K C env hass tool_input st cfg e w' Hcfg Hok Hbody)
  | destruct (try_body_failure_point K C env hass tool_input st cfg e w' Hcfg Hok Hbody) ];
  cbn [trace cache app] in *.

(** ** Configuration (lines 59-71) *)

Lemma lookup_setitem_same (k : string) (v : pyval) (d : dict) :
  lookup k (setitem k v d) = Some v.
Proof.
  induction d as [| [k' v'] t IH]; cbn [setitem lookup].
  - rewrite String.eqb_refl. reflexivity.
  - destruct (String.eqb_spec k' k) as [-> | N]; cbn [lookup].
    + rewrite String.eqb_refl. reflexivity.
    + destruct (String.eqb_spec k' k); [ contradiction | exact IH ].
Qed.

Lemma lookup_setitem_other (k k0 : string) (v : pyval) (d : dict) :
  k <> k0 -> lookup k0 (setitem k v d) = lookup k0 d.
Proof.
  intros N. induction d as [| [k' v'] t IH]; cbn [setitem lookup].
  - destruct (String.eqb_spec k k0); [ contradiction | reflexivity ].
  - destruct (String.eqb_spec k' k) as [-> | N']; cbn [lookup].
    + destruct (String.eqb_spec k k0); [ contradiction | reflexivity ].
    + rewrite IH. reflexivity.
Qed.

Lemma lookup_absent (k : string) (d : dict) :
  ~ In k (map fst d) -> lookup k d = None.
Proof.
  induction d as [| [k' v'] t IH]; cbn [map fst In lookup]; [ reflexivity |].
  intros N. destruct (String.eqb_spec k' k); [ tauto | apply IH; tauto ].
Qed.

(** [{**a, **b}]: a key of [b] has the value [b] gives it, any other key
    the value it has in [a]. *)
Lemma lookup_merge (b : dict) :
  NoDup (map fst b) ->
  forall (a : dict) (k : string),
    lookup k (merge a b)
    = match lookup k b with Some v => Some v | None => lookup k a end.
Proof.
  unfold merge.
  induction b as [| [k' v'] t IH]; intros Hnd a k; cbn [fold_left lookup fst snd].
  - reflexivity.
  - cbn [map fst] in Hnd. inversion Hnd as [| ? ? Hnot Hnd' ]; subst.
    rewrite (IH Hnd').
    destruct (String.eqb_spec k' k) as [-> | N].
    + rewrite (lookup_absent _ _ Hnot). apply lookup_setitem_same.
    + rewrite (lookup_setitem_other _ _ _ _ N). reflexivity.
Qed.

(** X1.  The options of the config entry take precedence over the
    ["config"] mapping kept under the domain in [hass.data]; only the
    first entry registered for the domain is read.  For the travel mode
    the order is: the entry's options, the domain's configuration, the
    service defaults. *)
Theorem entry_options_override_the_domain_config
  (K : const) (hass : HomeAssistant) (domain_data base : dict)
  (entry : ConfigEntry) (others : list ConfigEntry)
  (Hdomain : lookup (DOMAIN K) (data hass) = Some (PDict domain_data))
  (Hbase : dict_get domain_data "config" (PDict []) = PDict base)
  (Hentries : async_entries hass (DOMAIN K) = entry :: others)
  (Hkeys : NoDup (map fst (options entry))) :
  exists cfg,
    config_data K hass = Ok cfg /\
    (forall k,
       lookup k cfg
       = match lookup k (options entry) with
         | Some v => Some v
         | None => lookup k base
         end) /\
    travel_mode K cfg
    = match lookup (CONF_GOOGLE_ROUTES_TRAVEL_MODE K) (options entry) with
      | Some v => v
      | None =>
          match lookup (CONF_GOOGLE_ROUTES_TRAVEL_MODE K) base with
          | Some v => v
          | None =>
              dict_get (SERVICE_DEFAULTS K) (CONF_GOOGLE_ROUTES_TRAVEL_MODE K) PNone
          end
      end.
Proof.
  exists (merge base (options entry)). split; [| split ].
  - unfold config_data. rewrite Hdomain. cbn [get_method]. rewrite Hbase, Hentries.
    reflexivity.
  - intros k. apply lookup_merge, Hkeys.
  - unfold travel_mode. unfold dict_get at 1. rewrite (lookup_merge _ Hkeys).
    destruct (lookup _ (options entry)); [ reflexivity |].
    destruct (lookup _ base); reflexivity.
Qed.

Lemma entry_options_override_the_domain_config_witness :
  exists cfg,
    config_data Fixtures.K
      {| data := [ ("llm_intents", PDict [ ("config", PDict Fixtures.config) ]) ];
         async_entries := fun _ =>
           [ {| options := [ ("google_routes_travel_mode", PStr "WALK") ] |};
             {| options := [ ("google_routes_travel_mode", PStr "TRANSIT") ] |} ] |}
    = Ok cfg /\
    (forall k,
       lookup k cfg
       = match lookup k [ ("google_routes_travel_mode", PStr "WALK") ] with
         | Some v => Some v
         | None => lookup k Fixtures.config
         end) /\
    travel_mode Fixtures.K cfg = PStr "WALK".
Proof.
  refine (entry_options_override_the_domain_config Fixtures.K
            {| data := [ ("llm_intents", PDict [ ("config", PDict Fixtures.config) ]) ];
               async_entries := fun _ =>
                 [ {| options := [ ("google_routes_travel_mode", PStr "WALK") ] |};
                   {| options := [ ("google_routes_travel_mode", PStr "TRANSIT") ] |} ] |}
            [ ("config", PDict Fixtures.config) ] Fixtures.config
            {| options := [ ("google_routes_travel_mode", PStr "WALK") ] |}
            [ {| options := [ ("google_routes_travel_mode", PStr "TRANSIT") ] |} ]
            eq_refl eq_refl eq_refl _).
  cbn. constructor; [ intros [] | constructor ].
Defined.

(** X2.  When the domain has no entry in [hass.data], or no config entry is
    registered for it, the call raises before the [try] statement: the
    invoker gets [KeyError] or (the [StopIteration] of [next] inside a
    coroutine) [RuntimeError], and no call has been made. *)
Theorem missing_registration_reaches_the_invoker
  (K : const) (C : cache_class) (env : environment)
  (hass : HomeAssistant) (tool_input : ToolInput) (st : store C) :
  (lookup (DOMAIN K) (data hass) = None ->
   run K C env hass tool_input st
   = (Raise (Exc "KeyError" (repr_str (DOMAIN K))), initial st)) /\
  (forall domain_data,
     lookup (DOMAIN K) (data hass) = Some (PDict domain_data) ->
     async_entries hass (DOMAIN K) = [] ->
     run K C env hass tool_input st
     = (Raise (Exc "RuntimeError" "coroutine raised StopIteration"), initial st)).
Proof.
  split.
  - intros H. unfold run, async_call, bind, lift, config_data. rewrite H. reflexivity.
  - intros d H Hnone. unfold run, async_call, bind, lift, config_data.
    rewrite H. cbn [get_method]. rewrite Hnone. reflexivity.
Qed.

(** ** Failures before the request (lines 80-101) *)

Lemma py_float_raises (v : pyval) (e : exn) :
  py_float v = Raise e -> isinstance_Exception e = true.
Proof.
  destruct v as [ | b | z | f | s | l | d ]; cbn [py_float];
    try discriminate; try (intros [= <-]; reflexivity).
  - unfold float_of_int. destruct (is_infinite _); [ intros [= <-]; reflexivity | discriminate ].
  - unfold float_of_str. destruct (split_sign _) as [neg body].
    destruct (_ || _); [ discriminate |].
    destruct (_ =? _)%string; [ discriminate |].
    destruct (decimal body) as [[m x] |]; [ discriminate | intros [= <-]; reflexivity ].
Qed.

Lemma request_body_raises (dest : string) (lat lng mode : pyval) (e : exn) :
  request_body dest lat lng mode = Raise e -> isinstance_Exception e = true.
Proof.
  unfold request_body.
  destruct (py_float lat) as [x | e1] eqn:E1.
  - destruct (py_float lng) as [y | e2] eqn:E2; [ discriminate |].
    intros [= <-]. exact (py_float_raises _ _ E2).
  - intros [= <-]. exact (py_float_raises _ _ E1).
Qed.

(** X3.  A coordinate that passes the guard of line 76 but that [float]
    rejects (text that is no number, a list) ends the call at line 87
    or 88: the error of [float] is reported, and neither the cache nor
    the remote service has been called. *)
Theorem unusable_coordinate_is_reported_before_the_lookup
  (K : const) (C : cache_class) (env : environment)
  (hass : HomeAssistant) (tool_input : ToolInput) (st : store C)
  (cfg : dict) (e : exn)
  (Hcfg : config_data K hass = Ok cfg)
  (Hok : configured K cfg)
  (Hsession : async_get_clientsession env = Ok tt)
  (Hfloat : request_body (destination tool_input) (latitude K cfg) (longitude K cfg)
              (travel_mode K cfg) = Raise e) :
  run K C env hass tool_input st
  = (Ok (error_result ("Error getting route: " ++ exn_str e)),
     {| trace := [ GetClientSession; LogError ("Routes API error: " ++ exn_str e) ];
        cache := st |}).
Proof.
  destruct Hok as (Hkey & Hlat & Hlng).
  run_open. rewrite Hcfg, Hkey. red_run. rewrite Hlat, Hlng. red_run.
  rewrite Hsession, Hfloat. red_run.
  rewrite (request_body_raises _ _ _ _ _ Hfloat). reflexivity.
Qed.

Lemma unusable_coordinate_is_reported_before_the_lookup_witness :
  run Fixtures.K Fixtures.miss_cache
    (Fixtures.mock_env (Raise (Exc "Exception" "the session must not be used")))
    (Fixtures.hass_with [ ("google_routes_api_key", PStr "test_routes_key");
                          ("google_routes_latitude", PStr "40.7128");
                          ("google_routes_longitude", PStr "74.0060 W") ])
    Fixtures.times_square []
  = (Ok (error_result
           "Error getting route: could not convert string to float: '74.0060 W'"),
     Build_world Fixtures.miss_cache
       [ GetClientSession;
         LogError "Routes API error: could not convert string to float: '74.0060 W'" ]
       []).
Proof.
  refine (unusable_coordinate_is_reported_before_the_lookup Fixtures.K Fixtures.miss_cache
            _ _ Fixtures.times_square []
            [ ("google_routes_api_key", PStr "test_routes_key");
              ("google_routes_latitude", PStr "40.7128");
              ("google_routes_longitude", PStr "74.0060 W") ]
            (Exc "ValueError" "could not convert string to float: '74.0060 W'")
            _ _ _ _).
  - reflexivity.
  - repeat split; reflexivity.
  - reflexivity.
  - reflexivity.
Defined.

(** X4.  When the session, the cache object or the lookup fails with an
    [Exception], the call ends there with the error result: it does not
    go on to an uncached request. *)
Theorem failure_before_the_request_ends_the_call
  (K : const) (C : cache_class) (env : environment)
  (hass : HomeAssistant) (tool_input : ToolInput) (st : store C)
  (cfg : dict) (e : exn)
  (Hconfig : config_data K hass = Ok cfg)
  (Hguards : configured K cfg)
  (He : isinstance_Exception e = true) :
  (async_get_clientsession env = Raise e ->
   run K C env hass tool_input st
   = (Ok (error_result ("Error getting route: " ++ exn_str e)),
      {| trace := [ GetClientSession; LogError ("Routes API error: " ++ exn_str e) ];
         cache := st |})) /\
  (forall body,
     async_get_clientsession env = Ok tt ->
     request_body (destination tool_input) (latitude K cfg) (longitude K cfg)
       (travel_mode K cfg) = Ok body ->
     new_cache env = Raise e ->
     run K C env hass tool_input st
     = (Ok (error_result ("Error getting route: " ++ exn_str e)),
        {| trace := [ GetClientSession; NewCache;
                      LogError ("Routes API error: " ++ exn_str e) ];
           cache := st |})) /\
  (forall body,
     reaches_lookup K env hass tool_input cfg body ->
     cache_get C st module_name body = Raise e ->
     run K C env hass tool_input st
     = (Ok (error_result ("Error getting route: " ++ exn_str e)),
        {| trace := [ GetClientSession; NewCache; CacheGet module_name body;
                      LogError ("Routes API error: " ++ exn_str e) ];
           cache := st |})).
Proof.
  split; [| split ].
  - destruct Hguards as (Hkey & Hlat & Hlng).
    intros H. run_open. rewrite Hconfig, Hkey. red_run. rewrite Hlat, Hlng. red_run.
    rewrite H. red_run. rewrite He. reflexivity.
  - destruct Hguards as (Hkey & Hlat & Hlng).
    intros body Hs Hb Hn. run_open. rewrite Hconfig, Hkey. red_run.
    rewrite Hlat, Hlng. red_run.
    rewrite Hs, Hb, Hn. red_run. rewrite He. reflexivity.
  - intros body Hpath Hget. use_path Hpath. rewrite Hget. red_run. rewrite He. reflexivity.
Qed.

Lemma failure_before_the_request_ends_the_call_witness :
  run Fixtures.K (Fixtures.mock_cache (Raise (Exc "OperationalError" "disk I/O error")) (Ok tt))
    (Fixtures.mock_env (Raise (Exc "Exception" "the session must not be used")))
    (Fixtures.hass_with Fixtures.config) Fixtures.times_square []
  = (Ok (error_result "Error getting route: disk I/O error"),
     Build_world (Fixtures.mock_cache (Raise (Exc "OperationalError" "disk I/O error")) (Ok tt))
       [ GetClientSession; NewCache;
         CacheGet module_name
           (Fixtures.expected_body "Times Square, New York" (PStr "DRIVE"));
         LogError "Routes API error: disk I/O error" ]
       []).
Proof.
  refine (proj2 (proj2 (failure_before_the_request_ends_the_call Fixtures.K
            (Fixtures.mock_cache (Raise (Exc "OperationalError" "disk I/O error")) (Ok tt))
            _ (Fixtures.hass_with Fixtures.config) Fixtures.times_square []
            Fixtures.config (Exc "OperationalError" "disk I/O error") _ _ _))
            (Fixtures.expected_body "Times Square, New York" (PStr "DRIVE")) _ _).
  - reflexivity.
  - repeat split; reflexivity.
  - reflexivity.
  - repeat split; reflexivity.
  - reflexivity.
Defined.

(** ** The request (lines 83-122) *)

(** X5.  A request is sent exactly when the lookup returns a value that
    line 102 takes for a miss (any falsy value: [None], but an empty
    mapping too).  There is then one request and no second attempt; it
    goes to the fixed endpoint, its body is the payload of the lookup,
    and its headers are those built from the configured credential. *)
Theorem a_request_is_sent_exactly_on_a_miss
  (K : const) (C : cache_class) (env : environment)
  (hass : HomeAssistant) (tool_input : ToolInput) (st : store C) :
  ((exists url body headers,
      In (HttpPost url body headers) (trace (snd (run K C env hass tool_input st))))
   <->
   (exists cfg body answer,
      reaches_lookup K env hass tool_input cfg body /\
      cache_get C st module_name body = Ok answer /\
      truthy answer = false)) /\
  (forall url body headers,
     In (HttpPost url body headers) (trace (snd (run K C env hass tool_input st))) ->
     url = endpoint /\
     (exists cfg, config_data K hass = Ok cfg /\ headers = request_headers (api_key K cfg)) /\
     exists tail,
       trace (snd (run K C env hass tool_input st))
       = ([ GetClientSession; NewCache; CacheGet module_name body;
            HttpPost url body headers ] ++ tail)%list /\
       existsb is_post tail = false).
Proof.
  split; [ split |].
  - intros (url & b & h & Hin).
    endings K C env hass tool_input st; cbn in Hin; try (exfalso; intuition discriminate).
    all: open_response; eauto 10.
  - intros (cfg0 & b0 & answer0 & Hp & Hg & Hm).
    endings K C env hass tool_input st; unpack; try congruence;
      try (destruct Horigin; congruence).
    all: match goal with
         | |- context [HttpPost ?u ?b ?h :: _] => exists u, b, h
         end; cbn; tauto.
  - intros url b h Hin.
    endings K C env hass tool_input st; cbn in Hin; try (exfalso; intuition discriminate).
    all: repeat (destruct Hin as [Hin | Hin]; try discriminate Hin); try contradiction.
    all: injection Hin as <- <- <-.
    all: split; [ reflexivity |]; split; [ unpack; eauto |].
    all: eexists; split; reflexivity.
Qed.

(** X6.  Two request bodies are the same exactly when the destination, the
    travel mode and the two coordinates as [float] reads them are the
    same: the cache tells apart what the request depends on, and the
    credential is no part of it. *)
Theorem the_payload_tells_requests_apart
  (dest1 dest2 : string) (lat1 lat2 lng1 lng2 mode1 mode2 body1 body2 : pyval)
  (Hfirst : request_body dest1 lat1 lng1 mode1 = Ok body1)
  (Hsecond : request_body dest2 lat2 lng2 mode2 = Ok body2) :
  body1 = body2 <->
  dest1 = dest2 /\ mode1 = mode2 /\
  py_float lat1 = py_float lat2 /\ py_float lng1 = py_float lng2.
Proof.
  revert Hfirst Hsecond. unfold request_body.
  destruct (py_float lat1) as [x1 |]; [| discriminate ].
  destruct (py_float lng1) as [y1 |]; [| discriminate ].
  destruct (py_float lat2) as [x2 |]; [| discriminate ].
  destruct (py_float lng2) as [y2 |]; [| discriminate ].
  cbv [display merge fold_left setitem fst snd String.eqb Ascii.eqb Bool.eqb].
  intros [= <-] [= <-]. split.
  - intros [= -> -> -> ->]. repeat split; reflexivity.
  - intros (-> & -> & [= ->] & [= ->]). reflexivity.
Qed.

Lemma the_payload_tells_requests_apart_witness :
  Fixtures.expected_body "Times Square" (PStr "DRIVE")
  = Fixtures.expected_body "Times Square" (PStr "DRIVE")
  <->
  "Times Square" = "Times Square" /\ PStr "DRIVE" = PStr "DRIVE" /\
  py_float (PStr "40.7128") = py_float (PFloat (S754_finite false 5729817215912798 (-47))) /\
  py_float (PStr "-74.0060") = py_float (PStr " -74.006 ").
Proof.
  exact (the_payload_tells_requests_apart "Times Square" "Times Square"
           (PStr "40.7128") (PFloat (S754_finite false 5729817215912798 (-47)))
           (PStr "-74.0060") (PStr " -74.006 ")
           (PStr "DRIVE") (PStr "DRIVE") _ _ eq_refl eq_refl).
Defined.

(** ** Reading the answer (lines 123-124 and 155-157) *)

(** X7.  The body of the answer is read once, after the request, and as the
    status tells: as JSON when the status is 200, as text (for the log)
    when it is not; never both. *)
Theorem the_answer_is_read_as_its_status_tells
  (K : const) (C : cache_class) (env : environment)
  (hass : HomeAssistant) (tool_input : ToolInput) (st : store C) :
  (In ReadJson (trace (snd (run K C env hass tool_input st))) ->
   (exists config request answer,
      receives_response K C env hass tool_input st config request answer /\
      status answer = 200) /\
   ~ In ReadText (trace (snd (run K C env hass tool_input st)))) /\
  (In ReadText (trace (snd (run K C env hass tool_input st))) ->
   (exists config request answer,
      receives_response K C env hass tool_input st config request answer /\
      status answer <> 200) /\
   ~ In ReadJson (trace (snd (run K C env hass tool_input st)))).
Proof.
  split; intros Hin.
  - revert Hin.
    endings K C env hass tool_input st; intros Hin; cbn in Hin;
      try (exfalso; intuition discriminate).
    all: split; [| cbn; intuition discriminate ].
    all: try match goal with
           | H : completes_transform _ _ _ _ _ _ _ _ _ _ |- _ => destruct H as (? & ? & _)
           end.
    all: do 3 eexists; split; eassumption.
  - revert Hin.
    endings K C env hass tool_input st; intros Hin; cbn in Hin;
      try (exfalso; intuition discriminate).
    all: split; [| cbn; intuition discriminate ].
    all: try match goal with
           | H : completes_transform _ _ _ _ _ _ _ _ _ _ |- _ => destruct H as (? & ? & _)
           end.
    all: do 3 eexists; split; eassumption.
Qed.

(** ** The first route (lines 130-132) *)

Lemma transform_result (dest : string) (mode routes value : pyval) :
  transform dest mode routes = Ok value ->
  exists text seconds km,
    mode = PStr text /\
    value = success_result dest (replace_char "_" " " (lower text))
              (duration_text seconds) (distance_text km).
Proof.
  unfold transform.
  destruct (getitem0 routes) as [route |]; [| discriminate ].
  destruct (parse_duration route) as [secs |]; [| discriminate ].
  destruct (get_method route "distanceMeters" (PInt 0)) as [meters |]; [| discriminate ].
  destruct (truediv_int meters 1000) as [km |]; [| discriminate ].
  destruct mode; try discriminate. cbn [display_mode].
  intros [= <-]. now exists s, secs, km.
Qed.

(** X8.  Of the response only the first route candidate is read, and of that
    candidate only ["duration"] and ["distanceMeters"]: further
    candidates and further fields change nothing. *)
Theorem only_the_first_route_is_read
  (dest : string) (mode : pyval) (route route' : dict) (others others' : list pyval)
  (Hduration : lookup "duration" route = lookup "duration" route')
  (Hdistance : lookup "distanceMeters" route = lookup "distanceMeters" route') :
  transform dest mode (PList (PDict route :: others))
  = transform dest mode (PList (PDict route' :: others')).
Proof.
  unfold transform, parse_duration. cbn [getitem0 get_method]. unfold dict_get.
  rewrite Hduration, Hdistance. reflexivity.
Qed.

Lemma only_the_first_route_is_read_witness :
  transform "Boston" (PStr "DRIVE")
    (PList [ PDict [ ("duration", PStr "7200s"); ("distanceMeters", PInt 100000) ] ])
  = transform "Boston" (PStr "DRIVE")
      (PList [ PDict [ ("distanceMeters", PInt 100000);
                       ("legs", PList [ PDict [ ("duration", PStr "1s") ] ]);
                       ("duration", PStr "7200s") ];
               PDict [ ("duration", PStr "60s"); ("distanceMeters", PInt 1000) ];
               PStr "not a route" ]).
Proof.
  apply (only_the_first_route_is_read "Boston" (PStr "DRIVE")
           [ ("duration", PStr "7200s"); ("distanceMeters", PInt 100000) ]
           [ ("distanceMeters", PInt 100000);
             ("legs", PList [ PDict [ ("duration", PStr "1s") ] ]);
             ("duration", PStr "7200s") ]); reflexivity.
Defined.

(** ** Reading the duration (line 131) *)

Lemma rstrip_only_markers (k : nat) : rstrip is_s (unit_markers k) = "".
Proof.
  induction k as [| k IH]; cbn [unit_markers rstrip]; [ reflexivity |].
  rewrite IH. reflexivity.
Qed.

Lemma rstrip_markers (ds : string) (k : nat) :
  all_digits ds = true -> ds <> "" -> rstrip is_s (ds ++ unit_markers k) = ds.
Proof.
  induction ds as [| c t IH]; [ congruence |].
  cbn [all_digits]. intros H _. apply andb_prop in H. destruct H as [Hc Ht].
  destruct (digit_is_plain c Hc) as (Hs & _).
  cbn [append rstrip].
  destruct t as [| c' t'].
  - cbn [append]. rewrite rstrip_only_markers, Hs. reflexivity.
  - rewrite (IH Ht ltac:(discriminate)). reflexivity.
Qed.

(** X9.  [rstrip("s")] takes every trailing marker away, and needs none: a
    count (of at most 4300 digits, the limit of [int]) followed by no
    marker, or by several, is read as the count. *)
Theorem unit_marker_may_be_missing_or_repeated
  (ds : string) (k : nat) (route : dict)
  (Hdigits : all_digits ds = true)
  (Hsome : ds <> "")
  (Hlimit : (String.length ds <= 4300)%nat)
  (Hfield : lookup "duration" route = Some (PStr (ds ++ unit_markers k))) :
  parse_duration (PDict route) = Ok (decimal_value ds).
Proof.
  unfold parse_duration. cbn [get_method].
  rewrite (present_is_returned _ _ _ _ Hfield).
  fold is_s. rewrite (rstrip_markers ds k Hdigits Hsome).
  apply int_of_digits; assumption.
Qed.

Lemma unit_marker_may_be_missing_or_repeated_witness :
  parse_duration (PDict [ ("duration", PStr "90") ]) = Ok 90 /\
  parse_duration (PDict [ ("duration", PStr "90sss") ]) = Ok 90.
Proof.
  assert (Hsome : "90" <> "") by discriminate.
  assert (Hlimit : (String.length "90" <= 4300)%nat) by (cbn; lia).
  split.
  - exact (unit_marker_may_be_missing_or_repeated "90" 0 [ ("duration", PStr "90") ]
             eq_refl Hsome Hlimit eq_refl).
  - exact (unit_marker_may_be_missing_or_repeated "90" 3 [ ("duration", PStr "90sss") ]
             eq_refl Hsome Hlimit eq_refl).
Defined.

Lemma int_of_negative_digits (ds : string) :
  all_digits ds = true -> ds <> "" -> (String.length ds <= 4300)%nat ->
  int_of_str (String "-" ds) = Ok (- decimal_value ds).
Proof.
  intros H Hne Hlen. unfold int_of_str, strip.
  cbn [lstrip]. change (is_space "-") with false. cbn iota.
  cbn [rstrip]. rewrite (rstrip_no_space ds H).
  destruct ds as [| c t]; [ congruence |].
  cbn [split_sign].
  rewrite (digits_reads_all _ H 0 0%nat false ltac:(discriminate)).
  rewrite Nat.add_0_l, (within_limit _ Hlen).
  rewrite Z.mul_0_l. reflexivity.
Qed.

Lemma minutes_in_range (seconds : Z) : 0 <= (seconds mod 3600) / 60 <= 59.
Proof.
  pose proof (Z.mod_pos_bound seconds 3600 ltac:(lia)) as H.
  split.
  - apply Z.div_pos; lia.
  - assert ((seconds mod 3600) / 60 < 60) by (apply Z.div_lt_upper_bound; lia). lia.
Qed.

(** X10.  A count with a minus sign (of at most 4300 digits, the limit
    of [int]) is read as a negative number of seconds, not rejected.  With floor division the hours of such a count are
    not positive, so the text has no hour segment, and the minutes are
    those of the count modulo an hour: between 0 and 59. *)
Theorem negative_duration_is_shown_as_minutes
  (ds : string) (route : dict)
  (Hdigits : all_digits ds = true)
  (Hsome : ds <> "")
  (Hlimit : (String.length ds <= 4300)%nat)
  (Hfield : lookup "duration" route = Some (PStr ("-" ++ ds ++ "s"))) :
  parse_duration (PDict route) = Ok (- decimal_value ds) /\
  duration_text (- decimal_value ds)
  = count_text ((- decimal_value ds) mod 3600 / 60) "minute" /\
  0 <= (- decimal_value ds) mod 3600 / 60 <= 59.
Proof.
  split; [| split ].
  - unfold parse_duration. cbn [get_method].
    rewrite (present_is_returned _ _ _ _ Hfield).
    fold is_s. cbn [append rstrip].
    rewrite (rstrip_unit_marker ds Hdigits Hsome).
    destruct ds as [| c t]; [ congruence |].
    apply int_of_negative_digits; [ assumption | discriminate | assumption ].
  - unfold duration_text.
    pose proof (decimal_value_nonneg ds Hdigits) as Hv.
    assert (Hh : (- decimal_value ds) / 3600 <= 0) by (apply Z.div_le_upper_bound; lia).
    destruct (Z.ltb_spec 0 ((- decimal_value ds) / 3600)); [ lia | reflexivity ].
  - apply minutes_in_range.
Qed.

Lemma negative_duration_is_shown_as_minutes_witness :
  parse_duration (PDict [ ("duration", PStr "-1s") ]) = Ok (- 1) /\
  duration_text (- 1) = "59 minutes".
Proof.
  assert (Hsome : "1" <> "") by discriminate.
  assert (Hlimit : (String.length "1" <= 4300)%nat) by (cbn; lia).
  destruct (negative_duration_is_shown_as_minutes "1" [ ("duration", PStr "-1s") ]
              eq_refl Hsome Hlimit eq_refl) as (Hparse & Htext & _).
  split; [ exact Hparse | exact Htext ].
Defined.

Lemma contains_rstrip (f : ascii -> bool) (c : ascii) (s : string) :
  f c = false -> contains_char c (rstrip f s) = contains_char c s.
Proof.
  intros Hc. induction s as [| a t IH]; [ reflexivity |].
  cbn [rstrip contains_char]. rewrite <- IH.
  destruct (rstrip f t) as [| b r].
  - cbn [contains_char]. destruct (f a) eqn:Ha; [| reflexivity ].
    cbn [contains_char].
    destruct (Ascii.eqb_spec c a) as [-> | N]; [ congruence | reflexivity ].
  - reflexivity.
Qed.

Lemma contains_lstrip (f : ascii -> bool) (c : ascii) (s : string) :
  f c = false -> contains_char c (lstrip f s) = contains_char c s.
Proof.
  intros Hc. induction s as [| a t IH]; [ reflexivity |].
  cbn [lstrip]. destruct (f a) eqn:Ha; [| reflexivity ].
  rewrite IH. cbn [contains_char].
  destruct (Ascii.eqb_spec c a) as [-> | N]; [ congruence | reflexivity ].
Qed.

Lemma digits_to_the_end (s : string) :
  forall acc count after n k,
    digits acc count after s = Some (n, k, "") ->
    contains_char "." s = false.
Proof.
  induction s as [| c t IH]; intros acc count after n k; [ reflexivity |].
  cbn [digits contains_char].
  destruct (is_digit c) eqn:Hd.
  - intros H. rewrite (IH _ _ _ _ _ H).
    destruct c as [[] [] [] [] [] [] [] []]; try discriminate Hd; reflexivity.
  - destruct (Ascii.eqb_spec c "_") as [-> | N].
    + destruct after; [| discriminate ].
      destruct t as [| c' t']; [ discriminate |].
      destruct (is_digit c'); [| discriminate ].
      intros H. rewrite (IH _ _ _ _ _ H). reflexivity.
    + destruct after; discriminate.
Qed.

Lemma rstrip_length (f : ascii -> bool) (s : string) :
  (String.length (rstrip f s) <= String.length s)%nat.
Proof.
  induction s as [| a t IH]; [ apply Nat.le_refl |].
  cbn [rstrip]. destruct (rstrip f t) as [| b r].
  - destruct (f a); cbn [String.length]; lia.
  - cbn [String.length] in *. lia.
Qed.

Lemma lstrip_length (f : ascii -> bool) (s : string) :
  (String.length (lstrip f s) <= String.length s)%nat.
Proof.
  induction s as [| a t IH]; [ apply Nat.le_refl |].
  cbn [lstrip]. destruct (f a); cbn [String.length] in *; lia.
Qed.

Lemma split_sign_length (s : string) :
  (String.length (snd (split_sign s)) <= String.length s)%nat.
Proof.
  destruct s as [| a t]; [ apply Nat.le_refl |].
  destruct a as [[] [] [] [] [] [] [] []]; cbn [split_sign snd String.length]; lia.
Qed.

(** No more digits are counted than there are characters. *)
Lemma digits_count (s : string) :
  forall acc count after n k rest,
    digits acc count after s = Some (n, k, rest) ->
    (k <= count + String.length s)%nat.
Proof.
  induction s as [| c t IH]; intros acc count after n k rest; cbn [digits String.length].
  - destruct after; [ intros [= ? ? ?]; subst; cbn [String.length]; lia | discriminate ].
  - destruct (is_digit c).
    + intros H. apply IH in H. lia.
    + destruct (Ascii.eqb c "_").
      * destruct after; [| discriminate ].
        destruct t as [| c' t']; [ discriminate |].
        destruct (is_digit c'); [| discriminate ].
        intros H. apply IH in H. cbn [String.length] in *. lia.
      * destruct after; [ intros [= ? ? ?]; subst; cbn [String.length]; lia | discriminate ].
Qed.

(** X11.  A count with a fractional part is no literal for [int]: line 131
    raises [ValueError], whose text quotes the first 200 characters of
    the [repr] of what [rstrip] left.  (For a text in ASCII of at most
    4300 characters, so that the limit on the digits is not what [int]
    complains of.) *)
Theorem duration_with_a_fraction_is_rejected
  (text : string) (route : dict)
  (Hascii : ascii_only text = true)
  (Hlength : (String.length text <= 4300)%nat)
  (Hpoint : contains_char "." text = true)
  (Hfield : lookup "duration" route = Some (PStr text)) :
  parse_duration (PDict route)
  = Raise (Exc "ValueError"
             ("invalid literal for int() with base 10: "
                ++ String.substring 0 200 (repr_str (rstrip is_s text)))).
Proof.
  unfold parse_duration. cbn [get_method].
  rewrite (present_is_returned _ _ _ _ Hfield). fold is_s.
  assert (H1 : contains_char "." (strip (rstrip is_s text)) = true).
  { unfold strip. rewrite contains_rstrip, contains_lstrip, contains_rstrip by reflexivity.
    exact Hpoint. }
  assert (L1 : (String.length (strip (rstrip is_s text)) <= 4300)%nat).
  { unfold strip.
    pose proof (rstrip_length is_space (lstrip is_space (rstrip is_s text))).
    pose proof (lstrip_length is_space (rstrip is_s text)).
    pose proof (rstrip_length is_s text). lia. }
  unfold int_of_str.
  pose proof (split_sign_length (strip (rstrip is_s text))) as L2.
  destruct (split_sign (strip (rstrip is_s text))) as [neg body] eqn:Esign.
  cbn [snd] in L2.
  assert (H2 : contains_char "." body = true).
  { revert Esign H1. unfold split_sign.
    destruct (strip (rstrip is_s text)) as [| a t]; [ discriminate |].
    destruct a as [[] [] [] [] [] [] [] []]; intros [= <- <-] H; exact H. }
  destruct (digits 0 0 false body) as [[[n k] rest] |] eqn:Edigits; [| reflexivity ].
  pose proof (digits_count _ _ _ _ _ _ _ Edigits) as L3.
  rewrite (within_limit k ltac:(lia)).
  destruct rest; [| reflexivity ].
  rewrite (digits_to_the_end _ _ _ _ _ _ Edigits) in H2. discriminate.
Qed.

Lemma duration_with_a_fraction_is_rejected_witness :
  parse_duration (PDict [ ("duration", PStr "1200.5s") ])
  = Raise (Exc "ValueError" "invalid literal for int() with base 10: '1200.5'").
Proof.
  refine (duration_with_a_fraction_is_rejected "1200.5s" [ ("duration", PStr "1200.5s") ]
            eq_refl _ eq_refl eq_refl).
  cbn. lia.
Defined.

Lemma numeral_value_acc (u : Decimal.uint) (p : positive) :
  numeral_value u (Zpos p) = Zpos (Pos.of_uint_acc u p).
Proof.
  revert p. induction u as [| l IH | l IH | l IH | l IH | l IH | l IH | l IH | l IH | l IH | l IH ];
    intros p; cbn [numeral_value Pos.of_uint_acc]; try reflexivity;
    rewrite <- IH; f_equal; lia.
Qed.

Lemma numeral_value_of_uint (u : Decimal.uint) :
  numeral_value u 0 = Z.of_N (Pos.of_uint u).
Proof.
  induction u as [| l IH | l IH | l IH | l IH | l IH | l IH | l IH | l IH | l IH | l IH ];
    cbn [numeral_value Pos.of_uint]; try reflexivity; try exact IH;
    cbn [Z.mul Z.add Z.of_N]; apply numeral_value_acc.
Qed.

Lemma numeral_digits (u : Decimal.uint) :
  all_digits (NilEmpty.string_of_uint u) = true.
Proof.
  induction u; cbn [NilEmpty.string_of_uint all_digits]; try reflexivity; exact IHu.
Qed.

Lemma numeral_is_read (u : Decimal.uint) :
  forall acc count after,
    (u = Decimal.Nil -> after = true) ->
    exists count',
      digits acc count after (NilEmpty.string_of_uint u)
      = Some (numeral_value u acc, count', "").
Proof.
  induction u as [| l IH | l IH | l IH | l IH | l IH | l IH | l IH | l IH | l IH | l IH ];
    intros acc count after Hafter; cbn [NilEmpty.string_of_uint digits numeral_value].
  1: { rewrite (Hafter eq_refl). eexists. reflexivity. }
  all: match goal with
       | |- context [is_digit ?c] => change (is_digit c) with true
       end; cbn iota.
  all: match goal with
       | |- context [digits ?a ?c true _] =>
           destruct (IH a c true (fun _ => eq_refl)) as (c'' & E)
       end.
  all: exists c''; rewrite E.
  all: match goal with
       | |- context [digit_val ?c] =>
           let v := eval vm_compute in (digit_val c) in change (digit_val c) with v
       end; rewrite ?Z.add_0_r; reflexivity.
Qed.

Lemma numeral_of_positive (p : positive) :
  Pos.to_uint p <> Decimal.Nil /\
  numeral_value (Pos.to_uint p) 0 = Zpos p.
Proof.
  pose proof (DecimalPos.Unsigned.of_to p) as H.
  split.
  - intros E. rewrite E in H. discriminate.
  - rewrite numeral_value_of_uint, H. reflexivity.
Qed.

Lemma numeral_value_grows (u : Decimal.uint) :
  forall acc,
    0 <= acc ->
    acc * 10 ^ Z.of_nat (String.length (NilEmpty.string_of_uint u)) <= numeral_value u acc.
Proof.
  induction u as [| l IH | l IH | l IH | l IH | l IH | l IH | l IH | l IH | l IH | l IH ];
    intros acc Hacc; cbn [NilEmpty.string_of_uint String.length numeral_value].
  1: { cbn. lia. }
  all: rewrite Nat2Z.inj_succ, Z.pow_succ_r by lia.
  all: match goal with
       | H : forall acc, _ |- _ <= numeral_value ?x ?a =>
           specialize (H a ltac:(lia));
           assert (0 <= 10 ^ Z.of_nat (String.length (NilEmpty.string_of_uint x)))
             by (apply Z.pow_nonneg; lia);
           nia
       end.
Qed.

(** The numeral of a positive number does not start with a zero. *)
Lemma numeral_head (p : positive) :
  1 * 10 ^ Z.of_nat (String.length (NilEmpty.string_of_uint (Pos.to_uint p)))
  <= 10 * Zpos p.
Proof.
  pose proof (DecimalPos.Unsigned.of_to p) as Hof.
  pose proof (DecimalPos.Unsigned.to_of (Pos.to_uint p)) as Hto.
  rewrite Hof in Hto. cbn [N.to_uint] in Hto.
  destruct (numeral_of_positive p) as (_ & Hval).
  destruct (Pos.to_uint p) as [| l | l | l | l | l | l | l | l | l | l ] eqn:E.
  1: { discriminate Hof. }
  1: { exfalso. rewrite DecimalFacts.unorm_D0 in Hto.
       destruct (Decimal.uint_eq_dec l Decimal.Nil) as [-> | Hl].
       - discriminate Hof.
       - pose proof (DecimalFacts.nb_digits_unorm l Hl) as Hn.
         rewrite <- Hto in Hn. cbn [Decimal.nb_digits] in Hn. lia. }
  all: cbn [NilEmpty.string_of_uint String.length numeral_value] in *.
  all: rewrite Nat2Z.inj_succ, Z.pow_succ_r by lia.
  all: match goal with
       | H : numeral_value ?x ?a = _ |- _ =>
           pose proof (numeral_value_grows x a ltac:(lia))
       end; lia.
Qed.

(** [str(n)]: the digits of the magnitude, after a minus sign when [n]
    is negative; a number below [10 ^ 640] has at most 640 of them. *)
Lemma str_int_digits (p : positive) :
  exists ds,
    str_int (Zpos p) = ds /\ str_int (Zneg p) = String "-" ds /\
    all_digits ds = true /\ ds <> "" /\ decimal_value ds = Zpos p /\
    (Zpos p < 10 ^ 640 -> (String.length ds <= 640)%nat).
Proof.
  pose proof (numeral_head p) as Hhead.
  destruct (numeral_of_positive p) as (Hne & Hval).
  exists (NilEmpty.string_of_uint (Pos.to_uint p)).
  assert (Hne' : NilEmpty.string_of_uint (Pos.to_uint p) <> "").
  { destruct (Pos.to_uint p); [ congruence | discriminate .. ]. }
  pose proof (numeral_digits (Pos.to_uint p)) as Hd.
  assert (Hraw : NilZero.string_of_uint (Pos.to_uint p)
                 = NilEmpty.string_of_uint (Pos.to_uint p)).
  { unfold NilZero.string_of_uint. destruct (Pos.to_uint p); [ congruence | reflexivity .. ]. }
  unfold str_int. cbn [Z.to_int NilZero.string_of_int]. rewrite Hraw.
  repeat split; try assumption.
  - destruct (numeral_is_read (Pos.to_uint p) 0 0%nat false ltac:(congruence)) as (c & E).
    rewrite (digits_reads_all _ Hd 0 0%nat false ltac:(congruence)) in E.
    injection E as E _. congruence.
  - intros Hsize.
    set (len := Z.of_nat (String.length (NilEmpty.string_of_uint (Pos.to_uint p)))) in *.
    assert (Hlt : 10 ^ len < 10 ^ 641).
    { replace 641 with (Z.succ 640) by reflexivity. rewrite Z.pow_succ_r by lia. lia. }
    apply Z.pow_lt_mono_r_iff in Hlt; lia.
Qed.

(** [int(str(n))] is [n], for a number within any limit on the digits. *)
Lemma int_of_str_int (n : Z) : Z.abs n < 10 ^ 640 -> int_of_str (str_int n) = Ok n.
Proof.
  intros Hsize.
  destruct n as [| p | p]; [ reflexivity | | ];
    destruct (str_int_digits p) as (ds & Hs & Hm & Hd & Hne & Hv & Hlen);
    specialize (Hlen Hsize).
  - rewrite Hs, (int_of_digits ds Hd Hne ltac:(lia)), Hv. reflexivity.
  - rewrite Hm, (int_of_negative_digits ds Hd Hne ltac:(lia)), Hv. reflexivity.
Qed.

Lemma rstrip_printed_count (n : Z) : rstrip is_s (str_int n ++ "s") = str_int n.
Proof.
  destruct n as [| p | p]; [ reflexivity | | ];
    destruct (str_int_digits p) as (ds & Hs & Hm & Hd & Hne & Hv & _).
  - rewrite Hs. apply rstrip_unit_marker; assumption.
  - rewrite Hm. cbn [append rstrip]. rewrite (rstrip_unit_marker ds Hd Hne).
    destruct ds; [ congruence | reflexivity ].
Qed.

(** X12.  Printing and reading agree: a count written as [str] writes it
    (the form [f"{n}s"] has), followed by the marker, is read back as
    the same count, whatever its sign.  (For counts of fewer than 640
    digits, which no setting of the interpreter's limit on conversions
    refuses.) *)
Theorem a_printed_count_is_read_back
  (n : Z) (route : dict)
  (Hsize : Z.abs n < 10 ^ 640)
  (Hfield : lookup "duration" route = Some (PStr (str_int n ++ "s"))) :
  parse_duration (PDict route) = Ok n.
Proof.
  unfold parse_duration. cbn [get_method].
  rewrite (present_is_returned _ _ _ _ Hfield). fold is_s.
  rewrite rstrip_printed_count. apply int_of_str_int, Hsize.
Qed.

Lemma a_printed_count_is_read_back_witness :
  parse_duration (PDict [ ("duration", PStr "86399s") ]) = Ok 86399.
Proof.
  refine (a_printed_count_is_read_back 86399 [ ("duration", PStr "86399s") ] _ eq_refl).
  apply Z.ltb_lt. vm_compute. reflexivity.
Defined.

(** ** Whole hundreds of metres (lines 137 and 148) *)

Lemma distance_of_hundreds (hundreds : Z) :
  0 < hundreds -> 100 * hundreds < 2 ^ 50 ->
  distance_of (PInt (100 * hundreds))
  = Ok (str_int (hundreds / 10) ++ "." ++ str_int (hundreds mod 10) ++ " km").
Proof.
  intros Hpos Hbound.
  destruct (100 * hundreds) as [| m | m] eqn:E; try lia.
  destruct (tenths_of_metres m ltac:(lia)) as (t & Htext & Hnear).
  assert (t = hundreds) by lia. subst t. exact Htext.
Qed.

(** X13.  A distance of whole hundreds of metres is shown exactly: the
    division by 1000 and the rounding to one decimal lose nothing. *)
Theorem whole_hundreds_of_metres_are_shown_exactly
  (hundreds : Z)
  (Hpos : 0 < hundreds)
  (Hbound : 100 * hundreds < 2 ^ 50) :
  distance_of (PInt (100 * hundreds))
  = Ok (str_int (hundreds / 10) ++ "." ++ str_int (hundreds mod 10) ++ " km").
Proof.
  destruct (100 * hundreds) as [| m | m] eqn:E; try lia.
  destruct (tenths_of_metres m ltac:(lia)) as (t & Htext & Hnear).
  assert (t = hundreds) by lia. subst t. exact Htext.
Qed.

Lemma whole_hundreds_of_metres_are_shown_exactly_witness :
  distance_of (PInt 1234500) = Ok "1234.5 km".
Proof.
  exact (whole_hundreds_of_metres_are_shown_exactly 12345 eq_refl eq_refl).
Defined.

(** ** Travel mode (lines 68-71, 93 and 146) *)

Lemma shown_char (c : ascii) :
  let c' := if Ascii.eqb (lower_char c) "_" then " "%char else lower_char c in
  is_upper c' = false /\ c' <> "_"%char /\ lower_char c' = c' /\
  Ascii.eqb c' "_" = false.
Proof.
  destruct c as [[] [] [] [] [] [] [] []]; vm_compute; repeat split; discriminate.
Qed.

Lemma shown_text (text : string) :
  let shown := replace_char "_" " " (lower text) in
  String.length shown = String.length text /\
  (forall c, contains_char c shown = true -> is_upper c = false /\ c <> "_"%char) /\
  replace_char "_" " " (lower shown) = shown.
Proof.
  induction text as [| a t IH]; cbn [lower replace_char String.length contains_char].
  - repeat split; discriminate.
  - destruct IH as (Hlen & Hchars & Hfix).
    destruct (shown_char a) as (Hup & Hne & Hlow & Heq).
    cbv zeta in Hup, Hne, Hlow, Heq.
    set (a' := if Ascii.eqb (lower_char a) "_" then " "%char else lower_char a) in *.
    split; [ now rewrite Hlen |]. split.
    + intros c Hc. apply orb_prop in Hc. destruct Hc as [Hc | Hc].
      * apply Ascii.eqb_eq in Hc. subst c. split; assumption.
      * apply Hchars, Hc.
    + rewrite Hlow, Heq, Hfix. reflexivity.
Qed.

(** X14.  The travel mode shown has the length of the configured one, holds
    no capital letter and no underscore, and is left as it is when
    normalised again. *)
Theorem travel_mode_is_normalised_for_display
  (text : string) (Hascii : ascii_only text = true) :
  exists shown,
    display_mode (PStr text) = Ok shown /\
    String.length shown = String.length text /\
    (forall c, contains_char c shown = true -> is_upper c = false /\ c <> "_"%char) /\
    display_mode (PStr shown) = Ok shown.
Proof.
  exists (replace_char "_" " " (lower text)).
  destruct (shown_text text) as (Hlen & Hchars & Hfix).
  split; [ reflexivity |]. split; [ exact Hlen |]. split; [ exact Hchars |].
  cbn [display_mode]. rewrite Hfix. reflexivity.
Qed.

Lemma travel_mode_is_normalised_for_display_witness :
  exists shown,
    display_mode (PStr "TWO_WHEELER") = Ok shown /\
    String.length shown = String.length "TWO_WHEELER" /\
    (forall c, contains_char c shown = true -> is_upper c = false /\ c <> "_"%char) /\
    display_mode (PStr shown) = Ok shown.
Proof.
  apply (travel_mode_is_normalised_for_display "TWO_WHEELER"). reflexivity.
Defined.

Lemma transform_needs_a_text_mode (dest : string) (mode routes shown : pyval) (text : string) :
  transform dest (PStr text) routes = Ok shown ->
  (forall s, mode <> PStr s) ->
  transform dest mode routes
  = Raise (Exc "AttributeError"
             (repr_str (type_name mode) ++ " object has no attribute 'lower'")).
Proof.
  unfold transform.
  destruct (getitem0 routes) as [route |]; [| discriminate ].
  destruct (parse_duration route) as [secs |]; [| discriminate ].
  destruct (get_method route "distanceMeters" (PInt 0)) as [meters |]; [| discriminate ].
  destruct (truediv_int meters 1000) as [km |]; [| discriminate ].
  intros _ Hmode. destruct mode; try reflexivity.
  exfalso. exact (Hmode _ eq_refl).
Qed.

(** X15.  A travel mode that is no text (none configured and none among the
    service defaults, or a null value in the configuration) is sent to
    the remote service as it is; the answer, however good, then fails at
    line 146, and the error of [.lower()] is the result.  Nothing is
    cached. *)
Theorem travel_mode_that_is_no_text_fails_after_the_request
  (K : const) (C : cache_class) (env : environment)
  (hass : HomeAssistant) (tool_input : ToolInput) (st : store C)
  (config : dict) (request : pyval) (answer : response)
  (content candidates shown : pyval) (text : string)
  (Hresp : receives_response K C env hass tool_input st config request answer)
  (Hstatus : status answer = 200)
  (Hjson : json answer = Ok content)
  (Hroutes : get_method content "routes" (PList []) = Ok candidates)
  (Hsome : truthy candidates = true)
  (Hgood : transform (destination tool_input) (PStr text) candidates = Ok shown)
  (Hmode : forall s, travel_mode K config <> PStr s) :
  run K C env hass tool_input st
  = (Ok (error_result
           ("Error getting route: " ++ repr_str (type_name (travel_mode K config))
              ++ " object has no attribute 'lower'")),
     {| trace := [ GetClientSession; NewCache; CacheGet module_name request;
                   HttpPost endpoint request (request_headers (api_key K config));
                   ReadJson;
                   LogError ("Routes API error: "
                               ++ repr_str (type_name (travel_mode K config))
                               ++ " object has no attribute 'lower'") ];
        cache := st |}).
Proof.
  pose proof (transform_needs_a_text_mode _ _ _ _ _ Hgood Hmode) as Hfail.
  use_response Hresp.
  rewrite Hstatus. cbn [Z.eqb Pos.eqb]. red_run.
  rewrite Hjson, Hroutes, Hsome. red_run.
  rewrite Hfail. reflexivity.
Qed.

Lemma travel_mode_that_is_no_text_fails_after_the_request_witness :
  run Fixtures.K Fixtures.miss_cache
    (Fixtures.mock_env (Ok (Fixtures.mock_response 200 (Fixtures.one_route "1200s" 5000) "")))
    (Fixtures.hass_with [ ("google_routes_api_key", PStr "test_routes_key");
                          ("google_routes_latitude", PStr "40.7128");
                          ("google_routes_longitude", PStr "-74.0060");
                          ("google_routes_travel_mode", PNone) ])
    Fixtures.times_square []
  = (Ok (error_result
           "Error getting route: 'NoneType' object has no attribute 'lower'"),
     Build_world Fixtures.miss_cache
       [ GetClientSession; NewCache;
         CacheGet module_name (Fixtures.expected_body "Times Square, New York" PNone);
         HttpPost endpoint (Fixtures.expected_body "Times Square, New York" PNone)
           (request_headers (PStr "test_routes_key"));
         ReadJson;
         LogError "Routes API error: 'NoneType' object has no attribute 'lower'" ]
       []).
Proof.
  refine (travel_mode_that_is_no_text_fails_after_the_request Fixtures.K Fixtures.miss_cache
            _ _ Fixtures.times_square []
            [ ("google_routes_api_key", PStr "test_routes_key");
              ("google_routes_latitude", PStr "40.7128");
              ("google_routes_longitude", PStr "-74.0060");
              ("google_routes_travel_mode", PNone) ]
            (Fixtures.expected_body "Times Square, New York" PNone)
            (Fixtures.mock_response 200 (Fixtures.one_route "1200s" 5000) "")
            (Fixtures.one_route "1200s" 5000)
            (PList [ PDict [ ("duration", PStr "1200s"); ("distanceMeters", PInt 5000) ] ])
            (success_result "Times Square, New York" "drive" "20 minutes" "5.0 km")
            "DRIVE" _ eq_refl eq_refl eq_refl eq_refl eq_refl _).
  - split; [ repeat split; reflexivity |]. split; [| reflexivity ].
    exists PNone. split; reflexivity.
  - intros s. discriminate.
Defined.

(** ** From the answer to the result (lines 118-153) *)

Lemma transform_of_a_good_route
  (dest text ds : string) (hundreds : Z) (route : dict) (others : list pyval) :
  all_digits ds = true -> ds <> "" -> (String.length ds <= 4300)%nat ->
  lookup "duration" route = Some (PStr (ds ++ "s")) ->
  0 < hundreds -> 100 * hundreds < 2 ^ 50 ->
  lookup "distanceMeters" route = Some (PInt (100 * hundreds)) ->
  transform dest (PStr text) (PList (PDict route :: others))
  = Ok (success_result dest (replace_char "_" " " (lower text))
          (duration_text (decimal_value ds))
          (str_int (hundreds / 10) ++ "." ++ str_int (hundreds mod 10) ++ " km")).
Proof.
  intros Hdigits Hsome Hlimit Hduration Hpos Hbound Hdistance.
  pose proof (distance_of_hundreds hundreds Hpos Hbound) as Hkm.
  unfold distance_of in Hkm.
  unfold transform, parse_duration. cbn [getitem0 get_method].
  rewrite (present_is_returned _ _ _ _ Hduration).
  fold is_s. rewrite (rstrip_unit_marker ds Hdigits Hsome).
  rewrite (int_of_digits ds Hdigits Hsome Hlimit).
  rewrite (present_is_returned _ _ _ _ Hdistance).
  destruct (truediv_int (PInt (100 * hundreds)) 1000) as [km |]; [| discriminate ].
  injection Hkm as Hkm. cbn [display_mode]. rewrite Hkm. reflexivity.
Qed.

(** X16.  The whole of the good path: after a miss, an answer with status
    200 whose first route has a count of seconds (of at most 4300
    digits) and a distance in whole hundreds of metres (positive and
    below [2 ^ 50] metres) is turned into the success mapping
    (destination as asked, mode normalised, hours and minutes of the
    count, the kilometres to one decimal), which is stored under the
    payload of the lookup and returned. *)
Theorem a_good_answer_is_transformed_stored_and_returned
  (K : const) (C : cache_class) (env : environment)
  (hass : HomeAssistant) (tool_input : ToolInput) (st written : store C)
  (config : dict) (request : pyval) (answer : response)
  (content route : dict) (others : list pyval)
  (text ds : string) (hundreds : Z)
  (Hresp : receives_response K C env hass tool_input st config request answer)
  (Hstatus : status answer = 200)
  (Hjson : json answer = Ok (PDict content))
  (Hroutes : lookup "routes" content = Some (PList (PDict route :: others)))
  (Hdigits : all_digits ds = true)
  (Hsome : ds <> "")
  (Hlimit : (String.length ds <= 4300)%nat)
  (Hduration : lookup "duration" route = Some (PStr (ds ++ "s")))
  (Hpos : 0 < hundreds)
  (Hbound : 100 * hundreds < 2 ^ 50)
  (Hdistance : lookup "distanceMeters" route = Some (PInt (100 * hundreds)))
  (Hmode : travel_mode K config = PStr text)
  (Hset : cache_set C st module_name request
            (success_result (destination tool_input) (replace_char "_" " " (lower text))
               (duration_text (decimal_value ds))
               (str_int (hundreds / 10) ++ "." ++ str_int (hundreds mod 10) ++ " km"))
          = (Ok tt, written)) :
  run K C env hass tool_input st
  = (Ok (success_result (destination tool_input) (replace_char "_" " " (lower text))
           (duration_text (decimal_value ds))
           (str_int (hundreds / 10) ++ "." ++ str_int (hundreds mod 10) ++ " km")),
     {| trace := [ GetClientSession; NewCache; CacheGet module_name request;
                   HttpPost endpoint request (request_headers (api_key K config));
                   ReadJson;
                   CacheSet module_name request
                     (success_result (destination tool_input)
                        (replace_char "_" " " (lower text))
                        (duration_text (decimal_value ds))
                        (str_int (hundreds / 10) ++ "." ++ str_int (hundreds mod 10)
                           ++ " km")) ];
        cache := written |}).
Proof.
  eapply run_success; try eassumption.
  - cbn [get_method]. rewrite (present_is_returned _ _ _ _ Hroutes). reflexivity.
  - reflexivity.
  - rewrite Hmode. apply transform_of_a_good_route; assumption.
Qed.

Lemma a_good_answer_is_transformed_stored_and_returned_witness :
  run Fixtures.K Fixtures.miss_cache
    (Fixtures.mock_env (Ok (Fixtures.mock_response 200 (Fixtures.one_route "5400s" 12300) "")))
    (Fixtures.hass_with [ ("google_routes_api_key", PStr "test_routes_key");
                          ("google_routes_latitude", PStr "40.7128");
                          ("google_routes_longitude", PStr "-74.0060");
                          ("google_routes_travel_mode", PStr "TWO_WHEELER") ])
    Fixtures.times_square []
  = (Ok (success_result "Times Square, New York" "two wheeler" "1 hour 30 minutes" "12.3 km"),
     Build_world Fixtures.miss_cache
       [ GetClientSession; NewCache;
         CacheGet module_name
           (Fixtures.expected_body "Times Square, New York" (PStr "TWO_WHEELER"));
         HttpPost endpoint
           (Fixtures.expected_body "Times Square, New York" (PStr "TWO_WHEELER"))
           (request_headers (PStr "test_routes_key"));
         ReadJson;
         CacheSet module_name
           (Fixtures.expected_body "Times Square, New York" (PStr "TWO_WHEELER"))
           (success_result "Times Square, New York" "two wheeler" "1 hour 30 minutes"
              "12.3 km") ]
       [ (module_name,
          Fixtures.expected_body "Times Square, New York" (PStr "TWO_WHEELER"),
          success_result "Times Square, New York" "two wheeler" "1 hour 30 minutes"
            "12.3 km") ]).
Proof.
  assert (Hsome : "5400" <> "") by discriminate.
  assert (Hlimit : (String.length "5400" <= 4300)%nat) by (cbn; lia).
  refine (a_good_answer_is_transformed_stored_and_returned Fixtures.K Fixtures.miss_cache
            _ _ Fixtures.times_square [] _
            [ ("google_routes_api_key", PStr "test_routes_key");
              ("google_routes_latitude", PStr "40.7128");
              ("google_routes_longitude", PStr "-74.0060");
              ("google_routes_travel_mode", PStr "TWO_WHEELER") ]
            (Fixtures.expected_body "Times Square, New York" (PStr "TWO_WHEELER"))
            (Fixtures.mock_response 200 (Fixtures.one_route "5400s" 12300) "")
            [ ("routes", PList [ PDict [ ("duration", PStr "5400s");
                                         ("distanceMeters", PInt 12300) ] ]) ]
            [ ("duration", PStr "5400s"); ("distanceMeters", PInt 12300) ] []
            "TWO_WHEELER" "5400" 123
            _ eq_refl eq_refl eq_refl eq_refl Hsome Hlimit eq_refl eq_refl eq_refl eq_refl
            eq_refl eq_refl).
  split; [ repeat split; reflexivity |]. split; [| reflexivity ].
  exists PNone. split; reflexivity.
Defined.

(** X17.  What is written to the cache is a success mapping for the
    destination asked for, hence a value a later lookup accepts as a
    hit; and when the write returns, that mapping is the result. *)
Theorem the_stored_value_is_the_success_returned
  (K : const) (C : cache_class) (env : environment)
  (hass : HomeAssistant) (tool_input : ToolInput) (st : store C)
  (ns : string) (payload stored : pyval)
  (Hwritten : In (CacheSet ns payload stored)
                (trace (snd (run K C env hass tool_input st)))) :
  (exists mode duration distance,
     stored = success_result (destination tool_input) mode duration distance) /\
  truthy stored = true /\
  (forall written,
     cache_set C st ns payload stored = (Ok tt, written) ->
     fst (run K C env hass tool_input st) = Ok stored /\
     cache (snd (run K C env hass tool_input st)) = written).
Proof.
  revert Hwritten.
  endings K C env hass tool_input st; intros Hin; cbn in Hin;
    try (exfalso; intuition discriminate).
  all: repeat (destruct Hin as [Hin | Hin]; try discriminate Hin); try contradiction.
  all: injection Hin as <- <- <-.
  all: open_response.
  all: match goal with
       | H : transform _ _ _ = Ok _ |- _ =>
           destruct (transform_result _ _ _ _ H) as (text & secs & km & _ & ->)
       end.
  all: split; [ eauto |]; split; [ reflexivity |].
  all: intros st'' Hst; split; congruence.
Qed.

Lemma the_stored_value_is_the_success_returned_witness :
  (exists mode duration distance,
     success_result "Times Square, New York" "drive" "20 minutes" "5.0 km"
     = success_result (destination Fixtures.times_square) mode duration distance) /\
  truthy (success_result "Times Square, New York" "drive" "20 minutes" "5.0 km") = true /\
  (forall st',
     cache_set Fixtures.miss_cache [] module_name
       (Fixtures.expected_body "Times Square, New York" (PStr "DRIVE"))
       (success_result "Times Square, New York" "drive" "20 minutes" "5.0 km")
     = (Ok tt, st') ->
     fst (run Fixtures.K Fixtures.miss_cache
            (Fixtures.mock_env (Ok (Fixtures.mock_response 200
                                      (Fixtures.one_route "1200s" 5000) "")))
            (Fixtures.hass_with Fixtures.config) Fixtures.times_square [])
     = Ok (success_result "Times Square, New York" "drive" "20 minutes" "5.0 km") /\
     cache (snd (run Fixtures.K Fixtures.miss_cache
            (Fixtures.mock_env (Ok (Fixtures.mock_response 200
                                      (Fixtures.one_route "1200s" 5000) "")))
            (Fixtures.hass_with Fixtures.config) Fixtures.times_square []))
     = st').
Proof.
  apply (the_stored_value_is_the_success_returned Fixtures.K Fixtures.miss_cache
           (Fixtures.mock_env (Ok (Fixtures.mock_response 200
                                     (Fixtures.one_route "1200s" 5000) "")))
           (Fixtures.hass_with Fixtures.config) Fixtures.times_square []
           module_name (Fixtures.expected_body "Times Square, New York" (PStr "DRIVE"))
           (success_result "Times Square, New York" "drive" "20 minutes" "5.0 km")).
  vm_compute. do 5 right. left. reflexivity.
Defined.

(** X18.  With any cache that gives back at a lookup what was stored under
    the same namespace and payload: once an invocation has stored its
    result, the same invocation made again on the store it left is
    answered from the cache, with the same result and no request. *)
Theorem a_repeated_call_is_answered_from_the_cache
  (K : const) (C : cache_class) (env : environment)
  (hass : HomeAssistant) (tool_input : ToolInput) (st written : store C)
  (config : dict) (request : pyval) (answer : response) (shown : pyval)
  (Hlaw : forall s ns p v s',
      cache_set C s ns p v = (Ok tt, s') -> cache_get C s' ns p = Ok v)
  (Hdone : completes_transform K C env hass tool_input st config request answer shown)
  (Hset : cache_set C st module_name request shown = (Ok tt, written)) :
  run K C env hass tool_input st
  = (Ok shown,
     {| trace := [ GetClientSession; NewCache; CacheGet module_name request;
                   HttpPost endpoint request (request_headers (api_key K config));
                   ReadJson; CacheSet module_name request shown ];
        cache := written |}) /\
  run K C env hass tool_input written
  = (Ok shown,
     {| trace := [ GetClientSession; NewCache; CacheGet module_name request ];
        cache := written |}).
Proof.
  destruct Hdone as (Hresp & Hstatus & data & routes & Hjson & Hroutes & Hsome & Htransform).
  split.
  - eapply run_success; eassumption.
  - destruct Hresp as (Hpath & _ & _).
    eapply run_hit; [ exact Hpath | exact (Hlaw _ _ _ _ _ Hset) |].
    exact (stored_results_are_truthy _ _ _ _ Htransform).
Qed.

Lemma a_repeated_call_is_answered_from_the_cache_witness :
  run Fixtures.K Fixtures.remembering_cache
    (Fixtures.mock_env (Ok (Fixtures.mock_response 200 (Fixtures.one_route "1200s" 5000) "")))
    (Fixtures.hass_with Fixtures.config) Fixtures.times_square PNone
  = (Ok (success_result "Times Square, New York" "drive" "20 minutes" "5.0 km"),
     Build_world Fixtures.remembering_cache
       [ GetClientSession; NewCache;
         CacheGet module_name
           (Fixtures.expected_body "Times Square, New York" (PStr "DRIVE"));
         HttpPost endpoint
           (Fixtures.expected_body "Times Square, New York" (PStr "DRIVE"))
           (request_headers (PStr "test_routes_key"));
         ReadJson;
         CacheSet module_name
           (Fixtures.expected_body "Times Square, New York" (PStr "DRIVE"))
           (success_result "Times Square, New York" "drive" "20 minutes" "5.0 km") ]
       (success_result "Times Square, New York" "drive" "20 minutes" "5.0 km")) /\
  run Fixtures.K Fixtures.remembering_cache
    (Fixtures.mock_env (Ok (Fixtures.mock_response 200 (Fixtures.one_route "1200s" 5000) "")))
    (Fixtures.hass_with Fixtures.config) Fixtures.times_square
    (success_result "Times Square, New York" "drive" "20 minutes" "5.0 km")
  = (Ok (success_result "Times Square, New York" "drive" "20 minutes" "5.0 km"),
     Build_world Fixtures.remembering_cache
       [ GetClientSession; NewCache;
         CacheGet module_name
           (Fixtures.expected_body "Times Square, New York" (PStr "DRIVE")) ]
       (success_result "Times Square, New York" "drive" "20 minutes" "5.0 km")).
Proof.
  refine (a_repeated_call_is_answered_from_the_cache Fixtures.K Fixtures.remembering_cache
            (Fixtures.mock_env
               (Ok (Fixtures.mock_response 200 (Fixtures.one_route "1200s" 5000) "")))
            (Fixtures.hass_with Fixtures.config) Fixtures.times_square PNone
            (success_result "Times Square, New York" "drive" "20 minutes" "5.0 km")
            Fixtures.config
            (Fixtures.expected_body "Times Square, New York" (PStr "DRIVE"))
            (Fixtures.mock_response 200 (Fixtures.one_route "1200s" 5000) "")
            (success_result "Times Square, New York" "drive" "20 minutes" "5.0 km")
            _ _ eq_refl).
  - intros s ns p v s' [= <-]. reflexivity.
  - split; [ split; [ repeat split; reflexivity |]; split; [| reflexivity ];
             exists PNone; split; reflexivity |].
    split; [ reflexivity |].
    exists (Fixtures.one_route "1200s" 5000),
      (PList [ PDict [ ("duration", PStr "1200s"); ("distanceMeters", PInt 5000) ] ]).
    repeat split; reflexivity.
Defined.

(** ** Logging (lines 155-157 and 161) *)

(** X19.  A line is logged only on the two error paths after the guards: it
    is then the last thing the call does, there is one line, and the
    result is the error mapping of that path. *)
Theorem log_lines_accompany_the_error_results
  (K : const) (C : cache_class) (env : environment)
  (hass : HomeAssistant) (tool_input : ToolInput) (st : store C) (msg : string)
  (Hlogged : In (LogError msg) (trace (snd (run K C env hass tool_input st)))) :
  (exists before,
     trace (snd (run K C env hass tool_input st)) = (before ++ [ LogError msg ])%list /\
     existsb is_log before = false) /\
  ((exists e,
      isinstance_Exception e = true /\
      msg = "Routes API error: " ++ exn_str e /\
      fst (run K C env hass tool_input st)
      = Ok (error_result ("Error getting route: " ++ exn_str e))) \/
   (exists code detail,
      code <> 200 /\
      msg = "Routes API received a HTTP " ++ str_int code
              ++ " error from Google: " ++ detail /\
      fst (run K C env hass tool_input st)
      = Ok (error_result ("Routes API error: " ++ str_int code)))).
Proof.
  revert Hlogged.
  endings K C env hass tool_input st; intros Hin; cbn in Hin;
    try (exfalso; intuition discriminate).
  all: repeat (destruct Hin as [Hin | Hin]; try discriminate Hin); try contradiction.
  all: injection Hin as <-.
  all: split;
    [ match goal with
      | |- exists before, ?t = _ /\ _ => exists (removelast t); split; reflexivity
      end |].
  all: try (left; exists e; repeat split; assumption).
  right. exists (status resp), detail. repeat split. exact Hstatus.
Qed.

Lemma log_lines_accompany_the_error_results_witness :
  (exists before,
     trace (snd (run Fixtures.K Fixtures.miss_cache
                   (Fixtures.mock_env
                      (Ok (Fixtures.mock_response 500 PNone "Internal Server Error")))
                   (Fixtures.hass_with Fixtures.config) Fixtures.times_square []))
     = (before
          ++ [ LogError
                 "Routes API received a HTTP 500 error from Google: Internal Server Error" ])%list /\
     existsb is_log before = false) /\
  ((exists e,
      isinstance_Exception e = true /\
      "Routes API received a HTTP 500 error from Google: Internal Server Error"
      = "Routes API error: " ++ exn_str e /\
      fst (run Fixtures.K Fixtures.miss_cache
             (Fixtures.mock_env
                (Ok (Fixtures.mock_response 500 PNone "Internal Server Error")))
             (Fixtures.hass_with Fixtures.config) Fixtures.times_square [])
      = Ok (error_result ("Error getting route: " ++ exn_str e))) \/
   (exists code detail,
      code <> 200 /\
      "Routes API received a HTTP 500 error from Google: Internal Server Error"
      = "Routes API received a HTTP " ++ str_int code ++ " error from Google: " ++ detail /\
      fst (run Fixtures.K Fixtures.miss_cache
             (Fixtures.mock_env
                (Ok (Fixtures.mock_response 500 PNone "Internal Server Error")))
             (Fixtures.hass_with Fixtures.config) Fixtures.times_square [])
      = Ok (error_result ("Routes API error: " ++ str_int code)))).
Proof.
  apply (log_lines_accompany_the_error_results Fixtures.K Fixtures.miss_cache
           (Fixtures.mock_env (Ok (Fixtures.mock_response 500 PNone "Internal Server Error")))
           (Fixtures.hass_with Fixtures.config) Fixtures.times_square []
           "Routes API received a HTTP 500 error from Google: Internal Server Error").
  vm_compute. do 5 right. left. reflexivity.
Defined.

(** ** The cases of the test-suite *)

Example test_get_transit_times_success :
  fst (run Fixtures.K Fixtures.miss_cache
         (Fixtures.mock_env (Ok (Fixtures.mock_response 200
            (PDict [ ("routes", PList [ PDict
               [ ("duration", PStr "1200s");
                 ("distanceMeters", PInt 5000);
                 ("legs", PList [ PDict [ ("duration", PStr "1200s");
                                          ("distanceMeters", PInt 5000) ] ]) ] ]) ])
            "")))
         (Fixtures.hass_with Fixtures.config) Fixtures.times_square [])
  = Ok (success_result "Times Square, New York" "drive" "20 minutes" "5.0 km").
Proof. reflexivity. Qed.

Example test_get_transit_times_no_origin :
  fst (run Fixtures.K Fixtures.miss_cache (Fixtures.mock_env (Raise (Exc "Exception" "unused")))
         (Fixtures.hass_with [ ("google_routes_enabled", PBool true);
                               ("google_routes_api_key", PStr "test_key") ])
         Fixtures.times_square [])
  = Ok (error_result "Origin location (latitude/longitude) not configured").
Proof. reflexivity. Qed.

Example test_get_transit_times_no_route_found :
  fst (run Fixtures.K Fixtures.miss_cache
         (Fixtures.mock_env (Ok (Fixtures.mock_response 200
                                   (PDict [ ("routes", PList []) ]) "")))
         (Fixtures.hass_with Fixtures.config) Fixtures.times_square [])
  = Ok (PDict [ ("result", PStr "No route found to destination") ]).
Proof. reflexivity. Qed.

Example test_get_transit_times_with_hours :
  fst (run Fixtures.K Fixtures.miss_cache
         (Fixtures.mock_env (Ok (Fixtures.mock_response 200
                                   (Fixtures.one_route "7200s" 100000) "")))
         (Fixtures.hass_with Fixtures.config) {| destination := "Boston" |} [])
  = Ok (success_result "Boston" "drive" "2 hours 0 minutes" "100.0 km").
Proof. reflexivity. Qed.

Example test_get_transit_times_exception :
  fst (run Fixtures.K Fixtures.miss_cache
         (Fixtures.failing_session (Exc "Exception" "Network error"))
         (Fixtures.hass_with Fixtures.config) Fixtures.times_square [])
  = Ok (error_result "Error getting route: Network error").
Proof. reflexivity. Qed.

Example test_travel_mode_configuration :
  fst (run Fixtures.K Fixtures.miss_cache
         (Fixtures.mock_env (Ok (Fixtures.mock_response 200
                                   (Fixtures.one_route "600s" 1000) "")))
         (Fixtures.hass_with [ ("google_routes_api_key", PStr "test_key");
                               ("google_routes_latitude", PStr "40.7128");
                               ("google_routes_longitude", PStr "-74.0060");
                               ("google_routes_travel_mode", PStr "TWO_WHEELER") ])
         {| destination := "Central Park" |} [])
  = Ok (success_result "Central Park" "two wheeler" "10 minutes" "1.0 km").
Proof. reflexivity. Qed.

Example test_tool_initialization :
  name = "get_transit_times" /\
  contains "transit times" (lower description) = true /\
  contains "route" (lower description) = true.
Proof. repeat split; reflexivity. Qed.

Example test_get_transit_times_no_api_key :
  fst (run Fixtures.K Fixtures.miss_cache (Fixtures.mock_env (Raise (Exc "Exception" "unused")))
         (Fixtures.hass_with [ ("google_routes_enabled", PBool true);
                               ("google_routes_latitude", PStr "40.7128");
                               ("google_routes_longitude", PStr "-74.0060") ])
         {| destination := "Times Square" |} [])
  = Ok (error_result "Google Routes API key not configured").
Proof. reflexivity. Qed.

Example test_get_transit_times_api_error :
  fst (run Fixtures.K Fixtures.miss_cache
         (Fixtures.mock_env (Ok (Fixtures.mock_response 500 PNone "Internal Server Error")))
         (Fixtures.hass_with Fixtures.config) {| destination := "Times Square" |} [])
  = Ok (error_result "Routes API error: 500").
Proof. reflexivity. Qed.

Example test_get_transit_times_cached :
  run Fixtures.K Fixtures.hit_cache (Fixtures.mock_env (Raise (Exc "Exception" "unused")))
    (Fixtures.hass_with Fixtures.config) {| destination := "Times Square" |} []
  = (Ok Fixtures.cached_result,
     Build_world Fixtures.hit_cache
       [ GetClientSession; NewCache;
         CacheGet module_name (Fixtures.expected_body "Times Square" (PStr "DRIVE")) ]
       []).
Proof. reflexivity. Qed.

End Properties.
